(** * markdown-site: theme store, AI chat orchestration, AI image generation

    A shallow embedding of the decision logic of three source files:

    - the theme context ([getInitialTheme], [setTheme], [toggleTheme]);
    - the chat action ([buildSystemPrompt], [scrapeUrl],
      [getProviderFromModel], [getApiKeyForProvider],
      [getNotConfiguredMessage], the three [call*Api] translators and
      [generateResponse]);
    - the image action of [convex/aiImageGeneration.ts] ([generateImage]).

    JavaScript strings are modelled as [string], holding the text in
    UTF-8, [process.env] as a finite
    map from variable names to values, a thrown value as [Thrown], and an
    [async] handler as a computation that runs from a state of the backend
    to a completion -- a returned value or a thrown one -- and a new state.

    The internal queries and mutations of [convex/aiChats.ts], the storage
    layer and the vendor SDKs are called by these files and defined
    elsewhere. They are the fields of the [Backend] interface, and every
    theorem holds for every implementation of it. The interface fixes which
    calls can fail: a query returns what it reads, a mutation leaves a new
    state, and a storage write or a vendor call returns or throws. *)

From Stdlib Require Import ZArith Ascii String List Bool Lia.
From stdpp Require Import base option list strings gmap.
From Corelib Require PrimFloat.

Local Open Scope Z_scope.

(** ** JavaScript strings and truthiness *)

Module Js.

(** [s.startsWith(p)]. *)
Fixpoint startsWith (p s : string) : bool :=
  match p, s with
  | EmptyString, _ => true
  | String a p', String b s' => if Ascii.eqb a b then startsWith p' s' else false
  | String _ _, EmptyString => false
  end.

(** [s.includes(needle)]: [needle] starts at some position of [s]. *)
Fixpoint includes (needle s : string) : bool :=
  startsWith needle s
  || match s with
     | EmptyString => false
     | String _ s' => includes needle s'
     end.

(** Truthiness of a string that may be [undefined] or [null]: the empty
    string is falsy as well. *)
Definition truthy (o : option string) : bool :=
  match o with
  | Some s => negb (String.eqb s "")
  | None => false
  end.

(** [o || d] on strings. *)
Definition or_else (o : option string) (d : string) : string :=
  if truthy o then default d o else d.

(** [o || null], [o || undefined]. *)
Definition or_null (o : option string) : option string :=
  if truthy o then o else None.

(** [`${o}`]: an absent value interpolates as the word [undefined]. *)
Definition template (o : option string) : string :=
  default "undefined" o.

(** [parts.join(sep)]. *)
Fixpoint join (sep : string) (parts : list string) : string :=
  match parts with
  | [] => ""
  | [p] => p
  | p :: rest => p +:+ sep +:+ join sep rest
  end.

(** Strings hold text in UTF-8. The white space that [trim] removes and
    that is one byte long: TAB, LF, VT, FF, CR and the space. *)
Definition isSpace (c : ascii) : bool :=
  let n := N_of_ascii c in
  ((9 <=? n) && (n <=? 13))%N || (n =? 32)%N.

(** The white space of [trim] that is two bytes long: U+00A0. *)
Definition isSpace2 (c1 c2 : ascii) : bool :=
  ((N_of_ascii c1 =? 194) && (N_of_ascii c2 =? 160))%N.

(** The white space of [trim] that is three bytes long: U+1680,
    U+2000 to U+200A, U+2028, U+2029, U+202F, U+205F, U+3000 and U+FEFF. *)
Definition isSpace3 (c1 c2 c3 : ascii) : bool :=
  let n1 := N_of_ascii c1 in
  let n2 := N_of_ascii c2 in
  let n3 := N_of_ascii c3 in
  ((n1 =? 225) && (n2 =? 154) && (n3 =? 128)
   || (n1 =? 226) && (n2 =? 128)
      && ((128 <=? n3) && (n3 <=? 138) || (n3 =? 168) || (n3 =? 169) || (n3 =? 175))
   || (n1 =? 226) && (n2 =? 129) && (n3 =? 159)
   || (n1 =? 227) && (n2 =? 128) && (n3 =? 128)
   || (n1 =? 239) && (n2 =? 187) && (n3 =? 191))%N.

(** Truthiness of [p.trim()]: some character of [p] is not white space.
    The scan goes character by character from the start and stops at the
    first one that is not white space. *)
Fixpoint trimIsTruthy (p : string) : bool :=
  match p with
  | EmptyString => false
  | String c1 p1 =>
      if isSpace c1 then trimIsTruthy p1
      else
        match p1 with
        | EmptyString => true
        | String c2 p2 =>
            if isSpace2 c1 c2 then trimIsTruthy p2
            else
              match p2 with
              | EmptyString => true
              | String c3 p3 => if isSpace3 c1 c2 c3 then trimIsTruthy p3 else true
              end
        end
  end.

(** [arr.indexOf(x)], [-1] when [x] does not occur. *)
Fixpoint indexOf (arr : list string) (x : string) : Z :=
  match arr with
  | [] => -1
  | y :: arr' =>
      if String.eqb y x then 0
      else let i := indexOf arr' x in if i <? 0 then -1 else i + 1
  end.

(** [arr.slice(start)]: a negative [start] counts from the end, and both
    ends are clamped to the array. *)
Definition slice {A} (start : Z) (arr : list A) : list A :=
  let len := Z.of_nat (length arr) in
  let k := if start <? 0 then Z.max (len + start) 0 else Z.min start len in
  drop (Z.to_nat k) arr.

(** What a [throw] carries: an [Error] object with its [message], or any
    other value. *)
Inductive Thrown : Type :=
| ErrorObject (message : string)
| OtherValue.

(** [error instanceof Error ? error.message : "Unknown error"]. *)
Definition errorMessageOf (error : Thrown) : string :=
  match error with
  | ErrorObject message => message
  | OtherValue => "Unknown error"
  end.

(** Completion of a call: a value, or a thrown one. *)
Inductive Result (A : Type) : Type :=
| Ok (a : A)
| Throw (error : Thrown).
Arguments Ok {A} a.
Arguments Throw {A} error.

End Js.

Import Js.

(** ** Theme store *)

Module Theme.

(** The members of the [Theme] union, in the order of the source's
    array literal. *)
Definition themes : list string := ["dark"; "light"; "tan"; "cloud"].

(** [["dark", "light", "tan", "cloud"].includes(s)]. *)
Definition isTheme (s : string) : bool :=
  bool_decide (s ∈ themes).

(** The browser as [getInitialTheme] reads it: [document] may be missing,
    the [data-theme] attribute may be missing, and reading [localStorage]
    may throw. *)
Record Browser : Type := {
  document_dataTheme : option (option string);
  localStorage_blogTheme : Result (option string)
}.

(** The guard [v && themes.includes(v)] on a value read from the page. *)
Definition validTheme (v : option string) : option string :=
  if truthy v && isTheme (default "" v) then v else None.

Definition getInitialTheme (b : Browser) (defaultTheme : string) : string :=
  match document_dataTheme b ≫= validTheme with
  | Some htmlTheme => htmlTheme
  | None =>
      match localStorage_blogTheme b with
      | Ok saved =>
          match validTheme saved with
          | Some saved' => saved'
          | None => defaultTheme
          end
      | Throw _ => defaultTheme
      end
  end.

(** [setTheme(newTheme)]: the next state is [newTheme]. *)
Definition setTheme (theme newTheme : string) : string := newTheme.

(** [toggleTheme()]: the next state is [themes[nextIndex]], which is
    [None] where JavaScript gives [undefined]; [%] is the remainder that
    takes the sign of the dividend. *)
Definition toggleTheme (theme : string) : option string :=
  let currentIndex := indexOf themes theme in
  let nextIndex := Z.rem (currentIndex + 1) (Z.of_nat (length themes)) in
  themes !! Z.to_nat nextIndex.

(** [n] presses of the toggle. *)
Fixpoint toggleTimes (n : nat) (theme : string) : option string :=
  match n with
  | O => Some theme
  | S n' => toggleTheme theme ≫= toggleTimes n'
  end.

End Theme.

(** ** The backend a handler runs against *)

Module Data.

Inductive Role : Type := user | assistant.

Inductive AttachmentType : Type := image | link.

(** An attachment, as the action's argument validator and the stored chat
    messages have it. *)
Record Attachment : Type := {
  att_type : AttachmentType;
  att_storageId : option string;
  att_url : option string;
  att_scrapedContent : option string;
  att_title : option string
}.

Record ChatMessage : Type := {
  msg_role : Role;
  msg_content : string;
  msg_attachments : option (list Attachment)
}.

Record Chat : Type := {
  messages : list ChatMessage;
  pageContext : option string
}.

(** Anthropic's [ImageBlockParam.source]. *)
Inductive ImageSource : Type :=
| UrlSource (url : string)
| Base64Source (media_type data : string).

(** [TextBlockParam | ImageBlockParam]. *)
Inductive ContentBlock : Type :=
| TextBlock (text : string)
| ImageBlock (source : ImageSource).

(** [string | Array<ContentBlockParam>]. *)
Inductive Content : Type :=
| Plain (text : string)
| Blocks (blocks : list ContentBlock).

(** The provider-agnostic message. *)
Record Message : Type := {
  role : Role;
  content : Content
}.

(** *** Vendor wire formats *)

Record AnthropicRequest : Type := {
  an_model : string;
  an_max_tokens : Z;
  an_system : string;
  an_messages : list Message
}.

(** A block of Claude's reply: text, or a block of another type. *)
Inductive AnthropicBlock : Type :=
| AnText (text : string)
| AnOther.

Inductive OpenAIPart : Type :=
| OaText (text : string)
| OaImageUrl (url : string).

Inductive OpenAIContent : Type :=
| OaString (text : string)
| OaParts (parts : list OpenAIPart).

Inductive OpenAIRole : Type := oa_system | oa_user | oa_assistant.

Record OpenAIMessage : Type := {
  oa_role : OpenAIRole;
  oa_content : OpenAIContent
}.

Record OpenAIRequest : Type := {
  oa_model : string;
  oa_max_tokens : Z;
  oa_messages : list OpenAIMessage
}.

(** [message.content] of each of the reply's choices. *)
Definition OpenAIResponse : Type := list (option string).

Inductive GeminiRole : Type := g_user | g_model.

(** A part of a Gemini request. *)
Inductive GeminiPart : Type :=
| GText (text : string)
| GInlineData (mimeType data : string).

Record GeminiContent : Type := {
  g_role : GeminiRole;
  g_parts : list GeminiPart
}.

Record GenerateContentRequest : Type := {
  gc_model : string;
  gc_contents : list GeminiContent;
  gc_systemInstruction : option string;
  gc_maxOutputTokens : option Z;
  gc_responseModalities : option (list string)
}.

Record InlineData : Type := {
  mimeType : option string;
  data : option string
}.

(** A part of a Gemini reply; every field is optional. *)
Record ReplyPart : Type := {
  rp_text : option string;
  rp_inlineData : option InlineData
}.

(** [candidates?.[i]?.content?.parts] of the reply: [None] where the chain
    of optional fields breaks. *)
Record GenerateContentResponse : Type := {
  candidates : option (list (option (list ReplyPart)))
}.

Record GenerateImagesRequest : Type := {
  gi_model : string;
  gi_prompt : string;
  gi_numberOfImages : Z;
  gi_aspectRatio : string
}.

(** [generatedImages?.[i].image?.imageBytes] of the reply. *)
Record GenerateImagesResponse : Type := {
  generatedImages : option (list (option string))
}.

Record ScrapeResponse : Type := {
  sr_success : bool;
  sr_markdown : option string;
  sr_metadata_title : option string
}.

Record Blob : Type := {
  blob_bytes : list N;
  blob_type : string
}.

(** The argument of the [saveGeneratedImage] mutation. *)
Record GeneratedImage : Type := {
  gi_sessionId : string;
  gi_promptText : string;
  gi_modelId : string;
  gi_storageId : string;
  gi_mimeType : string
}.

(** What the handlers call and do not define. [World] is the state of the
    hosted backend. The first group is the internal queries and mutations of
    [convex/aiChats.ts]: queries read the state, mutations change it. The
    second is the storage layer; the third the vendor SDKs and [atob], whose
    calls return or throw. *)
Class Backend (World : Type) : Type := {
  getAIChatInternal : string -> World -> option Chat;
  getStorageUrlInternal : string -> World -> option string;
  addAssistantMessage : string -> string -> World -> World;
  saveGeneratedImage : GeneratedImage -> World -> World;

  storage_store : Blob -> World -> Result string * World;
  storage_getUrl : string -> World -> option string;

  anthropic_messages_create : string -> AnthropicRequest -> Result (list AnthropicBlock);
  openai_chat_completions_create : string -> OpenAIRequest -> Result OpenAIResponse;
  genai_generateContent : string -> GenerateContentRequest -> Result GenerateContentResponse;
  genai_generateImages : string -> GenerateImagesRequest -> Result GenerateImagesResponse;
  firecrawl_scrapeUrl : string -> string -> Result ScrapeResponse;
  atob : string -> Result string
}.

End Data.

Import Data.

(** ** State and exceptions

    An [async] function that awaits backend calls: it runs from a state of
    the backend to a completion and the state it leaves. *)

Module Async.

Definition M (World A : Type) : Type := World -> Result A * World.

Definition ret {World A} (a : A) : M World A := fun w => (Ok a, w).

Definition throw {World A} (error : Thrown) : M World A := fun w => (Throw error, w).

Definition bind {World A B} (m : M World A) (k : A -> M World B) : M World B :=
  fun w =>
    match m w with
    | (Ok a, w') => k a w'
    | (Throw error, w') => (Throw error, w')
    end.

(** A query reads the state. *)
Definition query {World A} (q : World -> A) : M World A := fun w => (Ok (q w), w).

(** A mutation changes it. *)
Definition mutate {World} (f : World -> World) : M World unit := fun w => (Ok tt, f w).

(** A call that returns or throws without touching the backend. *)
Definition call {World A} (r : Result A) : M World A := fun w => (r, w).

(** [try { body } catch (error) { handler }]. *)
Definition try_catch {World A} (body : M World A) (handler : Thrown -> M World A) : M World A :=
  fun w =>
    match body w with
    | (Ok a, w') => (Ok a, w')
    | (Throw error, w') => handler error w'
    end.

(** [for (const x of xs) { body }] with the loop's variables in [acc]. *)
Fixpoint for_of {World A S} (xs : list A) (body : S -> A -> M World S) (acc : S) : M World S :=
  match xs with
  | [] => ret acc
  | x :: xs' => bind (body acc x) (for_of xs' body)
  end.

End Async.

Import Async.

#[global] Instance M_ret {World} : MRet (M World) := fun A => ret.
#[global] Instance M_bind {World} : MBind (M World) := fun A B k m => bind m k.

(** ** AI chat orchestration *)

Module Chat.

Definition nl : string := String (ascii_of_nat 10) "".

Definition DEFAULT_SYSTEM_PROMPT : string :=
  "You are a helpful writing assistant. Help users write clearly and concisely." +:+ nl +:+
  nl +:+
  "Always apply the rule of one:" +:+ nl +:+
  "Focus on one person." +:+ nl +:+
  "Address one specific problem they are facing." +:+ nl +:+
  "Identify the single root cause of that problem." +:+ nl +:+
  "Explain the one thing the solution does differently." +:+ nl +:+
  "End by asking for one clear action." +:+ nl +:+
  nl +:+
  "Follow these guidelines:" +:+ nl +:+
  "Write in a clear and direct style." +:+ nl +:+
  "Avoid jargon and unnecessary complexity." +:+ nl +:+
  "Use short sentences and short paragraphs." +:+ nl +:+
  "Be concise but thorough." +:+ nl +:+
  "Do not use em dashes." +:+ nl +:+
  "Format responses in markdown when appropriate.".

Definition buildSystemPrompt (env : gmap string string) : string :=
  let part1 := or_else (env !! "CLAUDE_PROMPT_STYLE") "" in
  let part2 := or_else (env !! "CLAUDE_PROMPT_COMMUNITY") "" in
  let part3 := or_else (env !! "CLAUDE_PROMPT_RULES") "" in
  let parts := List.filter trimIsTruthy [part1; part2; part3] in
  if (0 <? Z.of_nat (length parts)) then
    join (nl +:+ nl +:+ "---" +:+ nl +:+ nl) parts
  else
    or_else (env !! "CLAUDE_SYSTEM_PROMPT") DEFAULT_SYSTEM_PROMPT.

Inductive Provider : Type := anthropic | openai | google.

(** The provider as the string it is in the source. *)
Definition providerName (provider : Provider) : string :=
  match provider with
  | anthropic => "anthropic"
  | openai => "openai"
  | google => "google"
  end.

Definition getProviderFromModel (model : string) : Provider :=
  if startsWith "claude" model then anthropic
  else if startsWith "gpt" model then openai
  else if startsWith "gemini" model then google
  else anthropic.

Definition getApiKeyForProvider (env : gmap string string) (provider : Provider) : option string :=
  match provider with
  | anthropic => or_null (env !! "ANTHROPIC_API_KEY")
  | openai => or_null (env !! "OPENAI_API_KEY")
  | google => or_null (env !! "GOOGLE_AI_API_KEY")
  end.

Record ProviderConfig : Type := {
  name : string;
  envVar : string;
  consoleUrl : string;
  consoleName : string
}.

Definition configs (provider : Provider) : ProviderConfig :=
  match provider with
  | anthropic =>
      {| name := "Claude (Anthropic)";
         envVar := "ANTHROPIC_API_KEY";
         consoleUrl := "https://console.anthropic.com/";
         consoleName := "Anthropic Console" |}
  | openai =>
      {| name := "GPT (OpenAI)";
         envVar := "OPENAI_API_KEY";
         consoleUrl := "https://platform.openai.com/api-keys";
         consoleName := "OpenAI Platform" |}
  | google =>
      {| name := "Gemini (Google)";
         envVar := "GOOGLE_AI_API_KEY";
         consoleUrl := "https://aistudio.google.com/apikey";
         consoleName := "Google AI Studio" |}
  end.

Definition getNotConfiguredMessage (provider : Provider) : string :=
  let config := configs provider in
  ("**" +:+ name config +:+ " is not configured.**" +:+ nl +:+ nl) +:+
  ("To enable this model, add your `" +:+ envVar config +:+
     "` to the Convex environment variables." +:+ nl +:+ nl) +:+
  ("**Setup steps:**" +:+ nl) +:+
  ("1. Get an API key from [" +:+ consoleName config +:+ "](" +:+ consoleUrl config +:+ ")" +:+ nl) +:+
  ("2. Add it to Convex: `npx convex env set " +:+ envVar config +:+ " your-key-here`" +:+ nl) +:+
  ("3. For production, set it in the [Convex Dashboard](https://dashboard.convex.dev/)" +:+ nl +:+ nl) +:+
  "See the [Convex environment variables docs](https://docs.convex.dev/production/environment-variables) for more details.".

#[global] Instance AttachmentType_eq_dec : EqDecision AttachmentType.
Proof. solve_decision. Defined.

#[global] Instance Role_eq_dec : EqDecision Role.
Proof. solve_decision. Defined.

(** The handler's arguments. *)
Record Args : Type := {
  chatId : string;
  userMessage : string;
  model : option string;
  args_pageContext : option string;
  attachments : option (list Attachment)
}.

Record Scraped : Type := {
  scraped_content : string;
  scraped_title : option string
}.

Section WithBackend.

Context {World : Type} `{Backend World}.

Definition scrapeUrl (env : gmap string string) (url : string) : option Scraped :=
  match or_null (env !! "FIRECRAWL_API_KEY") with
  | None => None
  | Some apiKey =>
      match firecrawl_scrapeUrl apiKey url with
      | Ok result =>
          if negb (sr_success result) || negb (truthy (sr_markdown result)) then None
          else Some {| scraped_content := default "" (sr_markdown result);
                       scraped_title := sr_metadata_title result |}
      | Throw _ => None
      end
  end.

(** The function mapped over the new message's attachments: a link that
    has a URL and no scraped content yet is scraped. *)
Definition scrapeAttachment (env : gmap string string) (attachment : Attachment) : Attachment :=
  if bool_decide (att_type attachment = link)
     && truthy (att_url attachment)
     && negb (truthy (att_scrapedContent attachment))
  then
    match scrapeUrl env (default "" (att_url attachment)) with
    | Some scraped =>
        {| att_type := att_type attachment;
           att_storageId := att_storageId attachment;
           att_url := att_url attachment;
           att_scrapedContent := Some (scraped_content scraped);
           att_title := if truthy (scraped_title scraped)
                        then scraped_title scraped else att_title attachment |}
    | None => attachment
    end
  else attachment.

Definition processAttachments (env : gmap string string)
    (attachments : option (list Attachment)) : option (list Attachment) :=
  match attachments with
  | Some atts => if 0 <? Z.of_nat (length atts) then Some (scrapeAttachment env <$> atts) else attachments
  | None => None
  end.

(** The body of the loop over a message's attachments; the source has it
    twice, for a stored message and for the new one. *)
Definition pushAttachment (contentParts : list ContentBlock) (attachment : Attachment)
    : M World (list ContentBlock) :=
  if bool_decide (att_type attachment = image) && truthy (att_storageId attachment) then
    imageUrl ← query (getStorageUrlInternal (default "" (att_storageId attachment)));
    if truthy imageUrl
    then mret (contentParts ++ [ImageBlock (UrlSource (default "" imageUrl))])
    else mret contentParts
  else if bool_decide (att_type attachment = link) then
    let linkText := or_else (att_url attachment) "" in
    let linkText :=
      if truthy (att_scrapedContent attachment)
      then linkText +:+ nl +:+ nl +:+ "Content from " +:+ template (att_url attachment) +:+ ":" +:+ nl
                    +:+ default "" (att_scrapedContent attachment)
      else linkText in
    if truthy (Some linkText)
    then mret (contentParts ++ [TextBlock linkText])
    else mret contentParts
  else mret contentParts.

(** [parts.length === 1 && parts[0].type === "text" ? parts[0].text : parts]. *)
Definition textOrBlocks (parts : list ContentBlock) : Content :=
  match parts with
  | [TextBlock text] => Plain text
  | _ => Blocks parts
  end.

(** The body of the loop over the recent messages. *)
Definition pushHistoryMessage (formattedMessages : list Message) (msg : ChatMessage)
    : M World (list Message) :=
  if bool_decide (msg_role msg = assistant) then
    mret (formattedMessages ++ [{| role := assistant; content := Plain (msg_content msg) |}])
  else
    let contentParts :=
      if truthy (Some (msg_content msg)) then [TextBlock (msg_content msg)] else [] in
    contentParts ←
      match msg_attachments msg with
      | Some atts => for_of atts pushAttachment contentParts
      | None => mret contentParts
      end;
    mret (formattedMessages ++ [{| role := user; content := textOrBlocks contentParts |}]).

(** A stored message and the message sent for it: the one message that the
    loop's body pushes for the stored one, which has the stored role. *)
Definition formats (w : World) (msg : ChatMessage) (formatted : Message) : Prop :=
  role formatted = msg_role msg
  ∧ pushHistoryMessage [] msg w = (Ok [formatted], w).

(** The new user message with its attachments. *)
Definition newUserMessage (userMessage : string)
    (processedAttachments : option (list Attachment)) : M World Message :=
  let newMessageContent :=
    if truthy (Some userMessage) then [TextBlock userMessage] else [] in
  newMessageContent ←
    match processedAttachments with
    | Some atts =>
        if 0 <? Z.of_nat (length atts)
        then for_of atts pushAttachment newMessageContent
        else mret newMessageContent
    | None => mret newMessageContent
    end;
  mret {| role := user; content := textOrBlocks newMessageContent |}.

(** The message list of one turn: the stored messages that [slice(-20)]
    keeps, each formatted and pushed in turn, then the new user message. *)
Definition buildFormattedMessages (chat : Chat) (userMessage : string)
    (processedAttachments : option (list Attachment)) : M World (list Message) :=
  let recentMessages := slice (-20) (messages chat) in
  formattedMessages ← for_of recentMessages pushHistoryMessage [];
  newMessage ← newUserMessage userMessage processedAttachments;
  mret (formattedMessages ++ [newMessage]).

Definition isAnText (block : AnthropicBlock) : bool :=
  match block with AnText _ => true | AnOther => false end.

Definition callAnthropicApi (apiKey model systemPrompt : string) (messages : list Message)
    : Result string :=
  match anthropic_messages_create apiKey
          {| an_model := model; an_max_tokens := 2048;
             an_system := systemPrompt; an_messages := messages |} with
  | Ok response_content =>
      match List.find isAnText response_content with
      | Some (AnText text) => Ok text
      | _ => Throw (ErrorObject "No text content in Claude response")
      end
  | Throw error => Throw error
  end.

(** The inner loop of the OpenAI translation. *)
Definition pushOpenAIPart (content : list OpenAIPart) (block : ContentBlock) : list OpenAIPart :=
  match block with
  | TextBlock text => content ++ [OaText text]
  | ImageBlock (UrlSource url) => content ++ [OaImageUrl url]
  | ImageBlock (Base64Source _ _) => content
  end.

Definition oaTexts (content : list OpenAIPart) : list string :=
  omap (fun c => match c with OaText text => Some text | OaImageUrl _ => None end) content.

Definition pushOpenAIMessage (openaiMessages : list OpenAIMessage) (msg : Message)
    : list OpenAIMessage :=
  match content msg with
  | Plain text =>
      if bool_decide (role msg = user)
      then openaiMessages ++ [{| oa_role := oa_user; oa_content := OaString text |}]
      else openaiMessages ++ [{| oa_role := oa_assistant; oa_content := OaString text |}]
  | Blocks blocks =>
      let content := foldl pushOpenAIPart [] blocks in
      if bool_decide (role msg = user)
      then openaiMessages ++
             [{| oa_role := oa_user;
                 oa_content := match content with
                               | [OaText text] => OaString text
                               | _ => OaParts content
                               end |}]
      else openaiMessages ++
             [{| oa_role := oa_assistant;
                 oa_content := OaString (join nl (oaTexts content)) |}]
  end.

Definition callOpenAIApi (apiKey model systemPrompt : string) (messages : list Message)
    : Result string :=
  let openaiMessages :=
    foldl pushOpenAIMessage
          [{| oa_role := oa_system; oa_content := OaString systemPrompt |}] messages in
  match openai_chat_completions_create apiKey
          {| oa_model := model; oa_max_tokens := 2048; oa_messages := openaiMessages |} with
  | Ok choices =>
      let textContent := mjoin (choices !! 0%nat) in
      if truthy textContent then Ok (default "" textContent)
      else Throw (ErrorObject "No text content in OpenAI response")
  | Throw error => Throw error
  end.

(** The inner loop of the Gemini translation: text blocks are pushed, any
    other block is skipped. *)
Definition pushGeminiPart (parts : list GeminiPart) (block : ContentBlock) : list GeminiPart :=
  match block with
  | TextBlock text => parts ++ [GText text]
  | ImageBlock _ => parts
  end.

Definition pushGeminiMessage (geminiMessages : list GeminiContent) (msg : Message)
    : list GeminiContent :=
  let role := if bool_decide (role msg = assistant) then g_model else g_user in
  match content msg with
  | Plain text => geminiMessages ++ [{| g_role := role; g_parts := [GText text] |}]
  | Blocks blocks =>
      let parts := foldl pushGeminiPart [] blocks in
      if 0 <? Z.of_nat (length parts)
      then geminiMessages ++ [{| g_role := role; g_parts := parts |}]
      else geminiMessages
  end.

(** The translation of the message list to Gemini's [contents]. *)
Definition toGeminiMessages (messages : list Message) : list GeminiContent :=
  foldl pushGeminiMessage [] messages.

(** The texts of a message's text blocks, in order. *)
Definition textsOf (blocks : list ContentBlock) : list string :=
  omap (fun block => match block with
                     | TextBlock text => Some text
                     | ImageBlock _ => None
                     end) blocks.

(** The translation as the specification words it: a message becomes the
    texts of its text blocks, and nothing of its image blocks; a message
    left with no text is not sent. *)
Definition geminiTextOnly (msg : Message) : list GeminiContent :=
  let role := match role msg with assistant => g_model | user => g_user end in
  match content msg with
  | Plain text => [{| g_role := role; g_parts := [GText text] |}]
  | Blocks blocks =>
      match textsOf blocks with
      | [] => []
      | texts => [{| g_role := role; g_parts := GText <$> texts |}]
      end
  end.

(** The request [callGeminiApi] sends. *)
Definition geminiRequest (model systemPrompt : string) (messages : list Message)
    : GenerateContentRequest :=
  {| gc_model := model;
     gc_contents := toGeminiMessages messages;
     gc_systemInstruction := Some systemPrompt;
     gc_maxOutputTokens := Some 2048;
     gc_responseModalities := None |}.

Definition callGeminiApi (apiKey model systemPrompt : string) (messages : list Message)
    : Result string :=
  match genai_generateContent apiKey (geminiRequest model systemPrompt messages) with
  | Ok response =>
      let parts := candidates response ≫= (fun cs => mjoin (cs !! 0%nat)) in
      match parts ≫= List.find (fun part => truthy (rp_text part)) with
      | Some textContent => Ok (default "" (rp_text textContent))
      | None => Throw (ErrorObject "No text content in Gemini response")
      end
  | Throw error => Throw error
  end.

(** The [switch] over the provider. *)
Definition callProvider (provider : Provider) (apiKey selectedModel systemPrompt : string)
    (formattedMessages : list Message) : Result string :=
  match provider with
  | anthropic => callAnthropicApi apiKey selectedModel systemPrompt formattedMessages
  | openai => callOpenAIApi apiKey selectedModel systemPrompt formattedMessages
  | google => callGeminiApi apiKey selectedModel systemPrompt formattedMessages
  end.

(** The system prompt of one turn: the configured prompt, then the page
    context when there is one. *)
Definition turnSystemPrompt (env : gmap string string) (args : Args) (chat : Chat) : string :=
  let systemPrompt := buildSystemPrompt env in
  let pageContent :=
    if truthy (args_pageContext args) then args_pageContext args else pageContext chat in
  if truthy pageContent
  then systemPrompt +:+ nl +:+ nl +:+ "---" +:+ nl +:+ nl
       +:+ "The user is viewing a page with the following content. Use this as context for your responses:"
       +:+ nl +:+ nl +:+ default "" pageContent
  else systemPrompt.

(** The [catch] clause around the provider call: the assistant message
    that stands in for the reply. *)
Definition onProviderError (provider : Provider) (error : Thrown) : string :=
  let errorMessage := errorMessageOf error in
  "**Error from " +:+ providerName provider +:+ ":** " +:+ errorMessage.

Definition generateResponse (env : gmap string string) (args : Args) : M World string :=
  let selectedModel := or_else (model args) "claude-sonnet-4-20250514" in
  let provider := getProviderFromModel selectedModel in
  match getApiKeyForProvider env provider with
  | None =>
      let notConfiguredMessage := getNotConfiguredMessage provider in
      mutate (addAssistantMessage (chatId args) notConfiguredMessage);;
      mret notConfiguredMessage
  | Some apiKey =>
      chat ← query (getAIChatInternal (chatId args));
      match chat with
      | None => throw (ErrorObject "Chat not found")
      | Some chat =>
          let systemPrompt := turnSystemPrompt env args chat in
          let processedAttachments := processAttachments env (attachments args) in
          formattedMessages ←
            buildFormattedMessages chat (userMessage args) processedAttachments;
          assistantMessage ←
            try_catch
              (call (callProvider provider apiKey selectedModel systemPrompt formattedMessages))
              (fun error => mret (onProviderError provider error));
          mutate (addAssistantMessage (chatId args) assistantMessage);;
          mret assistantMessage
      end
  end.

End WithBackend.

End Chat.

(** ** AI image generation *)

Module Image.

(** The two literals of [imageModelValidator]. *)
Inductive ImageModel : Type :=
| gemini_flash_exp_image_generation
| imagen_3_generate.

Definition modelId (model : ImageModel) : string :=
  match model with
  | gemini_flash_exp_image_generation => "gemini-2.0-flash-exp-image-generation"
  | imagen_3_generate => "imagen-3.0-generate-002"
  end.

(** The five literals of [aspectRatioValidator]. *)
Inductive AspectRatio : Type := r1_1 | r16_9 | r9_16 | r4_3 | r3_4.

Definition aspectRatioText (ratio : AspectRatio) : string :=
  match ratio with
  | r1_1 => "1:1"
  | r16_9 => "16:9"
  | r9_16 => "9:16"
  | r4_3 => "4:3"
  | r3_4 => "3:4"
  end.

Record Args : Type := {
  sessionId : string;
  prompt : string;
  model : ImageModel;
  aspectRatio : option AspectRatio
}.

(** The handler's return value. *)
Record Outcome : Type := {
  success : bool;
  storageId : option string;
  url : option string;
  error : option string
}.

Definition failure (message : string) : Outcome :=
  {| success := false; storageId := None; url := None; error := Some message |}.

Definition NOT_CONFIGURED : string :=
  ("**Gemini Image Generation is not configured.**" +:+ Chat.nl +:+ Chat.nl) +:+
  ("To use image generation, add your `GOOGLE_AI_API_KEY` to the Convex environment variables."
     +:+ Chat.nl +:+ Chat.nl) +:+
  ("**Setup steps:**" +:+ Chat.nl) +:+
  ("1. Get an API key from [Google AI Studio](https://aistudio.google.com/apikey)" +:+ Chat.nl) +:+
  ("2. Add it to Convex: `npx convex env set GOOGLE_AI_API_KEY your-key-here`" +:+ Chat.nl) +:+
  ("3. For production, set it in the [Convex Dashboard](https://dashboard.convex.dev/)"
     +:+ Chat.nl +:+ Chat.nl) +:+
  "See the [Convex environment variables docs](https://docs.convex.dev/production/environment-variables) for more details.".

Definition NO_IMAGE : string := "No image was generated. Try a different prompt.".

Definition RATE_LIMIT : string :=
  "**Rate limit exceeded.** Please try again in a few moments.".

Definition BLOCKED : string :=
  "**Image generation blocked.** The prompt may have triggered content safety filters. Try rephrasing your prompt.".

(** The [catch] clause. *)
Definition onError (error : Thrown) : Outcome :=
  let errorMessage := errorMessageOf error in
  if includes "quota" errorMessage || includes "rate" errorMessage then
    failure RATE_LIMIT
  else if includes "safety" errorMessage || includes "blocked" errorMessage then
    failure BLOCKED
  else
    failure ("**Image generation failed:** " +:+ errorMessage).

(** The predicate of [parts.find]: the part's inline data has a MIME type
    that starts with [image/]. *)
Definition isImagePart (part : ReplyPart) : bool :=
  match rp_inlineData part ≫= mimeType with
  | Some mime => startsWith "image/" mime
  | None => false
  end.

Section WithBackend.

Context {World : Type} `{Backend World}.

Definition base64ToBytes (base64 : string) : Result (list N) :=
  match atob base64 with
  | Ok binaryString => Ok (N_of_ascii <$> list_ascii_of_string binaryString)
  | Throw error => Throw error
  end.

(** What a generation branch leaves the [try] block with: the outcome to
    return at once, or the image to store. *)
Inductive Generated : Type :=
| Return (outcome : Outcome)
| Bytes (mimeType : string) (imageBytes : list N).

Definition generateWithGemini (apiKey : string) (args : Args) : Result Generated :=
  match genai_generateContent apiKey
          {| gc_model := modelId (model args);
             gc_contents := [{| g_role := g_user; g_parts := [GText (prompt args)] |}];
             gc_systemInstruction := None;
             gc_maxOutputTokens := None;
             gc_responseModalities := Some ["image"; "text"] |} with
  | Ok response =>
      let parts := candidates response ≫= (fun cs => mjoin (cs !! 0%nat)) in
      let imagePart := parts ≫= List.find isImagePart in
      let inlineData := imagePart ≫= rp_inlineData in
      match inlineData with
      | Some inlineData =>
          if negb (truthy (mimeType inlineData)) || negb (truthy (data inlineData))
          then Ok (Return (failure NO_IMAGE))
          else
            match base64ToBytes (default "" (data inlineData)) with
            | Ok imageBytes => Ok (Bytes (default "" (mimeType inlineData)) imageBytes)
            | Throw error => Throw error
            end
      | None => Ok (Return (failure NO_IMAGE))
      end
  | Throw error => Throw error
  end.

Definition generateWithImagen (apiKey : string) (args : Args) : Result Generated :=
  match genai_generateImages apiKey
          {| gi_model := modelId (model args);
             gi_prompt := prompt args;
             gi_numberOfImages := 1;
             gi_aspectRatio := default "1:1" (aspectRatioText <$> aspectRatio args) |} with
  | Ok response =>
      let image := generatedImages response ≫= (fun images => images !! 0%nat) in
      match image with
      | Some imageBytes =>
          if negb (truthy imageBytes) then Ok (Return (failure NO_IMAGE))
          else
            match base64ToBytes (default "" imageBytes) with
            | Ok imageBytes => Ok (Bytes "image/png" imageBytes)
            | Throw error => Throw error
            end
      | None => Ok (Return (failure NO_IMAGE))
      end
  | Throw error => Throw error
  end.

(** The [try] block. *)
Definition tryGenerate (apiKey : string) (args : Args) : M World Outcome :=
  generated ←
    call (match model args with
          | gemini_flash_exp_image_generation => generateWithGemini apiKey args
          | imagen_3_generate => generateWithImagen apiKey args
          end);
  match generated with
  | Return outcome => mret outcome
  | Bytes mimeType imageBytes =>
      let blob := {| blob_bytes := imageBytes; blob_type := mimeType |} in
      storageId ← storage_store blob;
      url ← query (storage_getUrl storageId);
      mutate (saveGeneratedImage
                {| gi_sessionId := sessionId args;
                   gi_promptText := prompt args;
                   gi_modelId := modelId (model args);
                   gi_storageId := storageId;
                   gi_mimeType := mimeType |});;
      mret {| success := true; storageId := Some storageId;
              url := or_null url; error := None |}
  end.

Definition generateImage (env : gmap string string) (args : Args) : M World Outcome :=
  match or_null (env !! "GOOGLE_AI_API_KEY") with
  | None => mret (failure NOT_CONFIGURED)
  | Some apiKey =>
      try_catch (tryGenerate apiKey args) (fun error => mret (onError error))
  end.

End WithBackend.

End Image.

(** ** A small backend to run the handlers on

    The state keeps the chats, the URLs of the stored files and what the
    mutations wrote. Every vendor call completes as [vendor] says, scraping
    always fails, and [atob] hands its argument back. *)

Module Sample.

Record World : Type := {
  chats : gmap string Chat;
  urls : gmap string string;
  blobs : list Blob;
  images : list GeneratedImage
}.

Definition appendAssistant (text : string) (chat : Chat) : Chat :=
  {| messages := messages chat ++ [{| msg_role := assistant; msg_content := text;
                                      msg_attachments := None |}];
     pageContext := pageContext chat |}.

Definition backend (vendor : Result string) : Backend World :=
  {| getAIChatInternal id w := chats w !! id;
     getStorageUrlInternal id w := urls w !! id;
     addAssistantMessage id text w :=
       {| chats := alter (appendAssistant text) id (chats w);
          urls := urls w; blobs := blobs w; images := images w |};
     saveGeneratedImage record w :=
       {| chats := chats w; urls := urls w; blobs := blobs w;
          images := images w ++ [record] |};
     storage_store blob w :=
       (Ok "file-1",
        {| chats := chats w; urls := <["file-1" := "https://files.example/file-1"]> (urls w);
           blobs := blobs w ++ [blob]; images := images w |});
     storage_getUrl id w := urls w !! id;
     anthropic_messages_create _ _ :=
       match vendor with Ok text => Ok [AnText text] | Throw error => Throw error end;
     openai_chat_completions_create _ _ :=
       match vendor with Ok text => Ok [Some text] | Throw error => Throw error end;
     genai_generateContent _ _ :=
       match vendor with
       | Ok text =>
           Ok {| candidates := Some [Some [{| rp_text := Some text; rp_inlineData := None |}]] |}
       | Throw error => Throw error
       end;
     genai_generateImages _ _ :=
       match vendor with
       | Ok text => Ok {| generatedImages := Some [Some text] |}
       | Throw error => Throw error
       end;
     firecrawl_scrapeUrl _ _ := Throw OtherValue;
     atob base64 := Ok base64 |}.

Definition userTurn (text : string) : ChatMessage :=
  {| msg_role := user; msg_content := text; msg_attachments := None |}.

Definition assistantTurn (text : string) : ChatMessage :=
  {| msg_role := assistant; msg_content := text; msg_attachments := None |}.

(** A chat of 25 messages, [q1], [a1], ..., [q13]. *)
Definition longChat : Chat :=
  {| messages :=
       [userTurn "q1"; assistantTurn "a1"; userTurn "q2"; assistantTurn "a2";
        userTurn "q3"; assistantTurn "a3"; userTurn "q4"; assistantTurn "a4";
        userTurn "q5"; assistantTurn "a5"; userTurn "q6"; assistantTurn "a6";
        userTurn "q7"; assistantTurn "a7"; userTurn "q8"; assistantTurn "a8";
        userTurn "q9"; assistantTurn "a9"; userTurn "q10"; assistantTurn "a10";
        userTurn "q11"; assistantTurn "a11"; userTurn "q12"; assistantTurn "a12";
        userTurn "q13"];
     pageContext := None |}.

Definition shortChat : Chat :=
  {| messages := [userTurn "q1"; assistantTurn "a1"]; pageContext := None |}.

Definition world : World :=
  {| chats := {["chat-1" := longChat; "chat-2" := shortChat]};
     urls := ∅; blobs := []; images := [] |}.

(** No credential at all, and the Anthropic credential alone. *)
Definition noKeys : gmap string string := ∅.

Definition anthropicKey : gmap string string := {["ANTHROPIC_API_KEY" := "sk-test"]}.

Definition googleKey : gmap string string := {["GOOGLE_AI_API_KEY" := "g-test"]}.

Definition chatArgs (id : string) : Chat.Args :=
  {| Chat.chatId := id; Chat.userMessage := "hello";
     Chat.model := Some "claude-sonnet-4-20250514";
     Chat.args_pageContext := None; Chat.attachments := None |}.

Definition imageArgs : Image.Args :=
  {| Image.sessionId := "session-1"; Image.prompt := "a lighthouse at dusk";
     Image.model := Image.gemini_flash_exp_image_generation;
     Image.aspectRatio := None |}.

(** A failure whose text speaks of a safety filter. *)
Definition safetyError : Thrown :=
  ErrorObject "The generated image was blocked by the safety filter".

Definition policyError : Thrown :=
  ErrorObject "Prompt blocked by policy".

Definition overloadedError : Thrown :=
  ErrorObject "529 overloaded".

End Sample.

(** ** The theme provider's effect *)

Module ThemeEffects.

Import Theme.

(** [themeColors], the colour of the [theme-color] meta tag per theme. *)
Definition themeColors : gmap string string :=
  list_to_map [("dark", "#111111"); ("light", "#ffffff");
               ("tan", "#faf8f5"); ("cloud", "#f5f5f5")].

(** The page the provider's effect writes to: the browser of
    [getInitialTheme], and the [content] of the [theme-color] meta tag,
    [None] on a page without the tag. *)
Record Page : Type := {
  browser : Browser;
  meta_themeColor : option string
}.

Definition updateMetaThemeColor (theme : string) (page : Page) : Page :=
  match meta_themeColor page with
  | Some _ =>
      {| browser := browser page;
         meta_themeColor := Some (template (themeColors !! theme)) |}
  | None => page
  end.

(** The effect that runs after every change of [theme]: it sets the
    [data-theme] attribute, stores the theme under [blog-theme] and updates
    the meta tag. A storage that throws when read throws when written, and
    the effect stops there. *)
Definition applyTheme (theme : string) (page : Page) : Result unit * Page :=
  let page :=
    {| browser := {| document_dataTheme := Some (Some theme);
                     localStorage_blogTheme := localStorage_blogTheme (browser page) |};
       meta_themeColor := meta_themeColor page |} in
  match localStorage_blogTheme (browser page) with
  | Throw error => (Throw error, page)
  | Ok _ =>
      let page :=
        {| browser := {| document_dataTheme := document_dataTheme (browser page);
                         localStorage_blogTheme := Ok (Some theme) |};
           meta_themeColor := meta_themeColor page |} in
      (Ok tt, updateMetaThemeColor theme page)
  end.

(** The next page load: the [data-theme] attribute is whatever the page
    starts with, the storage is what the last page left. *)
Definition reload (attribute : option (option string)) (page : Page) : Browser :=
  {| document_dataTheme := attribute;
     localStorage_blogTheme := localStorage_blogTheme (browser page) |}.

End ThemeEffects.

(** ** The diff code block *)

Module DiffCodeBlock.

(** [THEME_MAP], from the site's themes to the diff library's two. *)
Definition THEME_MAP : gmap string string :=
  list_to_map [("dark", "dark"); ("light", "light"); ("tan", "light"); ("cloud", "light")].

(** [THEME_MAP[theme] || "dark"], for a [theme] that is not a property name
    of every object. *)
Definition themeType (theme : string) : string :=
  or_else (THEME_MAP !! theme) "dark".

(** The view toggle's [onClick]. *)
Definition toggleViewMode (viewMode : string) : string :=
  if String.eqb viewMode "split" then "unified" else "split".

End DiffCodeBlock.

(** ** The chat action's OpenAI messages *)

Module ChatWire.

(** The [openaiMessages] array that [callOpenAIApi] builds: the system
    prompt, then one message per formatted message. *)
Definition openaiMessages (systemPrompt : string) (messages : list Message)
    : list OpenAIMessage :=
  foldl Chat.pushOpenAIMessage
        [{| oa_role := oa_system; oa_content := OaString systemPrompt |}] messages.

(** The texts of the URL images of a message's blocks, in order. *)
Definition imageUrlsOf (blocks : list ContentBlock) : list string :=
  omap (fun block => match block with
                     | ImageBlock (UrlSource url) => Some url
                     | _ => None
                     end) blocks.

Definition oaImageUrls (parts : list OpenAIPart) : list string :=
  omap (fun part => match part with
                    | OaImageUrl url => Some url
                    | OaText _ => None
                    end) parts.

Definition oaRoleOf (role : Role) : OpenAIRole :=
  match role with user => oa_user | assistant => oa_assistant end.

(** The parts of a message's content, a string being one text. *)
Definition oaPartsOf (content : OpenAIContent) : list OpenAIPart :=
  match content with
  | OaString text => [OaText text]
  | OaParts parts => parts
  end.

End ChatWire.

(** ** What a turn sends, as a specification

    The message list of a turn written without loops or state: a function
    of the stored messages and of the URLs the storage resolves. *)

Module ChatSpec.

(** No-break space, U+00A0, in UTF-8. *)
Definition nbsp : string := String (ascii_of_nat 194) (String (ascii_of_nat 160) "").

Section WithBackend.

Context {World : Type} `{Backend World}.

(** The blocks an attachment contributes. An image with a stored file that
    resolves to a URL is one image block with that URL; a link is one text
    block, its URL followed by the scraped content under a heading, unless
    that text is empty; anything else contributes nothing. *)
Definition attachmentBlocks (w : World) (attachment : Attachment) : list ContentBlock :=
  match att_type attachment with
  | image =>
      match att_storageId attachment with
      | Some (String c id) =>
          match getStorageUrlInternal (String c id) w with
          | Some (String d url) => [ImageBlock (UrlSource (String d url))]
          | _ => []
          end
      | _ => []
      end
  | link =>
      let url := default "" (att_url attachment) in
      let text :=
        match att_scrapedContent attachment with
        | Some (String c scraped) =>
            url +:+ Chat.nl +:+ Chat.nl +:+ "Content from "
            +:+ template (att_url attachment) +:+ ":" +:+ Chat.nl +:+ String c scraped
        | _ => url
        end in
      match text with
      | EmptyString => []
      | _ => [TextBlock text]
      end
  end.

(** The blocks of a user's message: its text when there is one, then the
    blocks of its attachments in order. *)
Definition userBlocks (w : World) (text : string) (atts : list Attachment)
    : list ContentBlock :=
  match text with
  | EmptyString => []
  | _ => [TextBlock text]
  end ++ (atts ≫= attachmentBlocks w).

(** The message sent for a stored message: an assistant's message is its
    text; a user's message is its blocks, or its text when that is all. *)
Definition formatStored (w : World) (msg : ChatMessage) : Message :=
  match msg_role msg with
  | assistant => {| role := assistant; content := Plain (msg_content msg) |}
  | user =>
      {| role := user;
         content := Chat.textOrBlocks
                      (userBlocks w (msg_content msg) (default [] (msg_attachments msg))) |}
  end.

(** The message sent for the new user message. *)
Definition newMessageOf (w : World) (userMessage : string)
    (atts : option (list Attachment)) : Message :=
  {| role := user;
     content := Chat.textOrBlocks (userBlocks w userMessage (default [] atts)) |}.

(** The end of a turn: the provider's text, or the message made from its
    failure, is stored as the assistant's turn and returned. *)
Definition settle (provider : Chat.Provider) (chatId : string) (reply : Result string)
    (w : World) : Result string * World :=
  let assistantMessage :=
    match reply with
    | Ok text => text
    | Throw error => Chat.onProviderError provider error
    end in
  (Ok assistantMessage, addAssistantMessage chatId assistantMessage w).

(** A turn of [generateResponse] sends [sent]: [sent] is the list the
    handler builds; the handler ends with the reply of the selected
    provider's call on [sent]; and the selected vendor's SDK is asked with a
    request made from [sent], so that its one-text answer to that request is
    what the handler stores and returns. *)
Definition turnSends (env : gmap string string) (args : Chat.Args) (w : World)
    (apiKey : string) (chat : Chat) (sent : list Message) : Prop :=
  let selectedModel := or_else (Chat.model args) "claude-sonnet-4-20250514" in
  let provider := Chat.getProviderFromModel selectedModel in
  let systemPrompt := Chat.turnSystemPrompt env args chat in
  Chat.buildFormattedMessages chat (Chat.userMessage args)
    (Chat.processAttachments env (Chat.attachments args)) w = (Ok sent, w)
  ∧ Chat.generateResponse env args w
    = settle provider (Chat.chatId args)
        match provider with
        | Chat.anthropic => Chat.callAnthropicApi apiKey selectedModel systemPrompt sent
        | Chat.openai => Chat.callOpenAIApi apiKey selectedModel systemPrompt sent
        | Chat.google => Chat.callGeminiApi apiKey selectedModel systemPrompt sent
        end w
  ∧ (provider = Chat.anthropic →
     ∀ text,
       anthropic_messages_create apiKey
         {| an_model := selectedModel; an_max_tokens := 2048;
            an_system := systemPrompt; an_messages := sent |} = Ok [AnText text] →
       Chat.generateResponse env args w
         = (Ok text, addAssistantMessage (Chat.chatId args) text w))
  ∧ (provider = Chat.openai →
     ∀ text,
       text ≠ "" →
       openai_chat_completions_create apiKey
         {| oa_model := selectedModel; oa_max_tokens := 2048;
            oa_messages := ChatWire.openaiMessages systemPrompt sent |} = Ok [Some text] →
       Chat.generateResponse env args w
         = (Ok text, addAssistantMessage (Chat.chatId args) text w))
  ∧ (provider = Chat.google →
     ∀ text,
       text ≠ "" →
       genai_generateContent apiKey
         {| gc_model := selectedModel;
            gc_contents := Chat.toGeminiMessages sent;
            gc_systemInstruction := Some systemPrompt;
            gc_maxOutputTokens := Some 2048;
            gc_responseModalities := None |}
         = Ok {| candidates := Some [Some [{| rp_text := Some text;
                                              rp_inlineData := None |}]] |} →
       Chat.generateResponse env args w
         = (Ok text, addAssistantMessage (Chat.chatId args) text w)).

End WithBackend.

End ChatSpec.

(** ** Recent images *)

Module RecentImages.

Import PrimFloat.

(** A JavaScript number is truthy unless it is zero or [NaN]. *)
Definition truthyNumber (x : float) : bool :=
  negb (PrimFloat.is_zero x || PrimFloat.is_nan x).

(** A row of [aiGeneratedImages]. *)
Record GeneratedImageRecord : Type := {
  rec_id : string;
  rec_creationTime : float;
  rec_sessionId : string;
  rec_prompt : string;
  rec_model : string;
  rec_storageId : string;
  rec_mimeType : string;
  rec_createdAt : float
}.

(** An element of the action's result. *)
Record RecentImage : Type := {
  ri_id : string;
  ri_prompt : string;
  ri_model : string;
  ri_url : option string;
  ri_createdAt : float
}.

Record Args : Type := {
  sessionId : string;
  limit : option float
}.

(** The internal query of [convex/aiChats.ts] that the action calls. *)
Class Queries (World : Type) : Type := {
  getRecentImagesInternal : string -> float -> World -> list GeneratedImageRecord
}.

Section WithBackend.

Context {World : Type} `{Backend World} `{Queries World}.

Definition withUrl (w : World) (image : GeneratedImageRecord) : RecentImage :=
  {| ri_id := rec_id image;
     ri_prompt := rec_prompt image;
     ri_model := rec_model image;
     ri_url := storage_getUrl (rec_storageId image) w;
     ri_createdAt := rec_createdAt image |}.

Definition getRecentImages (args : Args) : M World (list RecentImage) :=
  let limit :=
    match limit args with
    | Some x => if truthyNumber x then x else 10%float
    | None => 10%float
    end in
  images ← query (getRecentImagesInternal (sessionId args) limit);
  imagesWithUrls ← query (fun w => withUrl w <$> images);
  mret imagesWithUrls.

End WithBackend.

End RecentImages.

(** ** The routing shell *)

Module App.

(** The fields of [siteConfig] that [App] reads. *)
Record DocsSection : Type := {
  ds_enabled : bool;
  ds_slug : string
}.

Record SiteConfig : Type := {
  homepage_type : string;
  homepage_slug : option string;
  homepage_originalHomeRoute : option string;
  statsPage_enabled : option bool;
  blogPage_enabled : bool;
  docsSection : option DocsSection
}.

(** The page components, with the props [App] passes. *)
Inductive Page : Type :=
| Home | Stats | Unsubscribe | Blog | DocsPage | TagPage | AuthorPage
| Write | NewsletterAdmin | Dashboard | Callback
| Post
| HomepagePost (slug : string) (homepageType : option string).

Record Route : Type := {
  path : string;
  element : Page
}.

(** What [App] renders: a page on its own, or the layout around the
    routes. *)
Inductive View : Type :=
| Bare (page : Page)
| InLayout (routes : list Route).

(** [homepage.type !== "default" && homepage.slug], as a condition. *)
Definition useCustomHomepage (config : SiteConfig) : bool :=
  negb (String.eqb (homepage_type config) "default") && truthy (homepage_slug config).

(** A child of [Routes] that is there under a condition. *)
Definition when (condition : bool) (route : Route) : list Route :=
  if condition then [route] else [].

Definition routes (config : SiteConfig) : list Route :=
  [{| path := "/";
      element :=
        if useCustomHomepage config
        then HomepagePost (default "" (homepage_slug config))
               (if String.eqb (homepage_type config) "default"
                then None else Some (homepage_type config))
        else Home |}]
  ++ when (useCustomHomepage config)
       {| path := or_else (homepage_originalHomeRoute config) "/home"; element := Home |}
  ++ when (default false (statsPage_enabled config)) {| path := "/stats"; element := Stats |}
  ++ [{| path := "/unsubscribe"; element := Unsubscribe |}]
  ++ when (blogPage_enabled config) {| path := "/blog"; element := Blog |}
  ++ when (default false (ds_enabled <$> docsSection config))
       {| path := "/" +:+ default "" (ds_slug <$> docsSection config); element := DocsPage |}
  ++ [{| path := "/tags/:tag"; element := TagPage |};
      {| path := "/author/:authorSlug"; element := AuthorPage |};
      {| path := "/:slug"; element := Post |}].

Definition App (config : SiteConfig) (pathname : string) : View :=
  if String.eqb pathname "/write" then Bare Write
  else if String.eqb pathname "/newsletter-admin" then Bare NewsletterAdmin
  else if String.eqb pathname "/dashboard" then Bare Dashboard
  else if String.eqb pathname "/callback" then Bare Callback
  else InLayout (routes config).

End App.

(** ** Scripted backends to run the handlers on

    The state is that of the sample backend; the vendors' replies, the
    result of a scrape and the failures of the storage write and of [atob]
    are given by a script. *)

Module Scenes.

Import Sample PrimFloat.

Record Script : Type := {
  reply_blocks : Result (list AnthropicBlock);
  reply_choices : Result OpenAIResponse;
  reply_content : Result GenerateContentResponse;
  reply_images : Result GenerateImagesResponse;
  reply_scrape : Result ScrapeResponse;
  store_fails : option Thrown;
  atob_fails : option Thrown
}.

Definition scripted (script : Script) : Backend World :=
  {| getAIChatInternal id w := chats w !! id;
     getStorageUrlInternal id w := urls w !! id;
     addAssistantMessage id text w :=
       {| chats := alter (appendAssistant text) id (chats w);
          urls := urls w; blobs := blobs w; images := images w |};
     saveGeneratedImage record w :=
       {| chats := chats w; urls := urls w; blobs := blobs w;
          images := images w ++ [record] |};
     storage_store blob w :=
       match store_fails script with
       | Some thrown => (Throw thrown, w)
       | None =>
           (Ok "file-1",
            {| chats := chats w;
               urls := <["file-1" := "https://files.example/file-1"]> (urls w);
               blobs := blobs w ++ [blob]; images := images w |})
       end;
     storage_getUrl id w := urls w !! id;
     anthropic_messages_create _ _ := reply_blocks script;
     openai_chat_completions_create _ _ := reply_choices script;
     genai_generateContent _ _ := reply_content script;
     genai_generateImages _ _ := reply_images script;
     firecrawl_scrapeUrl _ _ := reply_scrape script;
     atob base64 :=
       match atob_fails script with
       | Some thrown => Throw thrown
       | None => Ok base64
       end |}.

Definition down : Thrown := ErrorObject "service unavailable".

(** Claude answers with a tool block and then a text; OpenAI with an
    empty first choice; Gemini with an image after a text; Imagen with one
    image; the scrape succeeds. *)
Definition answers : Script :=
  {| reply_blocks := Ok [AnOther; AnText "Shorter is better."];
     reply_choices := Ok [Some ""; Some "second choice"];
     reply_content :=
       Ok {| candidates :=
               Some [Some [{| rp_text := Some "Here is your image.";
                              rp_inlineData := None |};
                           {| rp_text := None;
                              rp_inlineData :=
                                Some {| mimeType := Some "image/webp";
                                        data := Some "UklGRg==" |} |}]] |};
     reply_images := Ok {| generatedImages := Some [Some "iVBORw=="] |};
     reply_scrape :=
       Ok {| sr_success := true; sr_markdown := Some "# Docs";
             sr_metadata_title := Some "Docs" |};
     store_fails := None;
     atob_fails := None |}.

(** The same with a storage that refuses the write. *)
Definition storageDown : Script :=
  {| reply_blocks := reply_blocks answers;
     reply_choices := reply_choices answers;
     reply_content := reply_content answers;
     reply_images := reply_images answers;
     reply_scrape := reply_scrape answers;
     store_fails := Some down;
     atob_fails := None |}.

(** Replies without an image, and a scrape without success. *)
Definition nothing : Script :=
  {| reply_blocks := Ok [AnOther];
     reply_choices := Ok [];
     reply_content :=
       Ok {| candidates :=
               Some [Some [{| rp_text := Some "I cannot draw that.";
                              rp_inlineData := None |}]] |};
     reply_images := Ok {| generatedImages := Some [] |};
     reply_scrape :=
       Ok {| sr_success := false; sr_markdown := None; sr_metadata_title := None |};
     store_fails := None;
     atob_fails := None |}.

(** The text of a plain message. *)
Definition plainText (msg : Message) : string :=
  match content msg with
  | Plain text => text
  | Blocks _ => ""
  end.

(** A backend whose Claude answers with the texts of the first and of the
    last message it was sent. *)
Definition echo : Backend World :=
  {| getAIChatInternal id w := chats w !! id;
     getStorageUrlInternal id w := urls w !! id;
     addAssistantMessage id text w :=
       {| chats := alter (appendAssistant text) id (chats w);
          urls := urls w; blobs := blobs w; images := images w |};
     saveGeneratedImage record w :=
       {| chats := chats w; urls := urls w; blobs := blobs w;
          images := images w ++ [record] |};
     storage_store blob w := (Throw down, w);
     storage_getUrl id w := urls w !! id;
     anthropic_messages_create _ request :=
       Ok [AnText (default "" (plainText <$> head (an_messages request)) +:+ "/"
                   +:+ default "" (plainText <$> last (an_messages request)))];
     openai_chat_completions_create _ _ := Throw down;
     genai_generateContent _ _ := Throw down;
     genai_generateImages _ _ := Throw down;
     firecrawl_scrapeUrl _ _ := Throw down;
     atob _ := Throw down |}.

(** What is sent for the chat of 25 messages and the new message
    [hello]. *)
Definition longChatSent : list Message :=
  [ {| role := assistant; content := Plain "a3" |};
    {| role := user; content := Plain "q4" |};
    {| role := assistant; content := Plain "a4" |};
    {| role := user; content := Plain "q5" |};
    {| role := assistant; content := Plain "a5" |};
    {| role := user; content := Plain "q6" |};
    {| role := assistant; content := Plain "a6" |};
    {| role := user; content := Plain "q7" |};
    {| role := assistant; content := Plain "a7" |};
    {| role := user; content := Plain "q8" |};
    {| role := assistant; content := Plain "a8" |};
    {| role := user; content := Plain "q9" |};
    {| role := assistant; content := Plain "a9" |};
    {| role := user; content := Plain "q10" |};
    {| role := assistant; content := Plain "a10" |};
    {| role := user; content := Plain "q11" |};
    {| role := assistant; content := Plain "a11" |};
    {| role := user; content := Plain "q12" |};
    {| role := assistant; content := Plain "a12" |};
    {| role := user; content := Plain "q13" |};
    {| role := user; content := Plain "hello" |} ].

Definition docsLink : Attachment :=
  {| att_type := link; att_storageId := None;
     att_url := Some "https://example.com/docs";
     att_scrapedContent := None; att_title := None |}.

Definition readLink : Attachment :=
  {| att_type := link; att_storageId := None;
     att_url := Some "https://example.com/docs";
     att_scrapedContent := Some "# Docs"; att_title := Some "Docs" |}.

Definition photo : Attachment :=
  {| att_type := image; att_storageId := Some "file-7";
     att_url := None; att_scrapedContent := None; att_title := None |}.

Definition firecrawlKey : gmap string string := {["FIRECRAWL_API_KEY" := "fc-test"]}.

Definition emptyAnthropicKey : gmap string string := {["ANTHROPIC_API_KEY" := ""]}.

Definition imagenArgs : Image.Args :=
  {| Image.sessionId := "session-1"; Image.prompt := "a lighthouse at dusk";
     Image.model := Image.imagen_3_generate;
     Image.aspectRatio := Some Image.r16_9 |}.

Definition stored : World :=
  {| chats := chats world;
     urls := <["file-1" := "https://files.example/file-1"]> (urls world);
     blobs := [{| blob_bytes := N_of_ascii <$> list_ascii_of_string "iVBORw==";
                  blob_type := "image/png" |}];
     images := [] |}.

Definition storedWebp : World :=
  {| chats := chats world;
     urls := <["file-1" := "https://files.example/file-1"]> (urls world);
     blobs := [{| blob_bytes := N_of_ascii <$> list_ascii_of_string "UklGRg==";
                  blob_type := "image/webp" |}];
     images := [] |}.

Definition sunset : RecentImages.GeneratedImageRecord :=
  {| RecentImages.rec_id := "img-1";
     RecentImages.rec_creationTime := 1700000000000%float;
     RecentImages.rec_sessionId := "session-1";
     RecentImages.rec_prompt := "a sunset";
     RecentImages.rec_model := "imagen-3.0-generate-002";
     RecentImages.rec_storageId := "file-1";
     RecentImages.rec_mimeType := "image/png";
     RecentImages.rec_createdAt := 1700000000000%float |}.

(** A query that returns one image when asked for ten, and none
    otherwise. *)
#[global] Instance queries : RecentImages.Queries World :=
  {| RecentImages.getRecentImagesInternal _ limit _ :=
       if PrimFloat.eqb limit 10%float then [sunset] else [] |}.

Definition customHome : App.SiteConfig :=
  {| App.homepage_type := "page";
     App.homepage_slug := Some "about";
     App.homepage_originalHomeRoute := None;
     App.statsPage_enabled := Some true;
     App.blogPage_enabled := false;
     App.docsSection := Some {| App.ds_enabled := true; App.ds_slug := "docs" |} |}.

End Scenes.

(** * Properties *)

(** Unfolds the sequencing of a handler down to state passing. *)
Ltac run :=
  unfold mbind, M_bind, bind, mret, M_ret, ret, query, mutate, call, throw, try_catch in *.

(** ** JavaScript strings *)

Section JsFacts.

Lemma startsWith_app (p t : string) : startsWith p (p +:+ t) = true.
Proof.
  induction p as [|a p IH]; simpl; [done|].
  by rewrite Ascii.eqb_refl.
Qed.

Lemma startsWith_inv (p s : string) :
  startsWith p s = true → ∃ t, s = p +:+ t.
Proof.
  revert s. induction p as [|a p IH]; intros s Hs; simpl in *.
  - by exists s.
  - destruct s as [|b s]; [done|].
    destruct (Ascii.eqb a b) eqn:Hab; [|done].
    apply Ascii.eqb_eq in Hab as ->.
    destruct (IH _ Hs) as [t ->]. by exists t.
Qed.

Lemma startsWith_iff (p s : string) :
  startsWith p s = true ↔ ∃ t, s = p +:+ t.
Proof.
  split; [apply startsWith_inv|]. intros [t ->]. apply startsWith_app.
Qed.

Lemma includes_here (needle s : string) :
  startsWith needle s = true → includes needle s = true.
Proof. intros Hs. destruct s; simpl in *; by rewrite Hs. Qed.

Lemma includes_app (a needle b : string) :
  includes needle (a +:+ needle +:+ b) = true.
Proof.
  induction a as [|c a IH].
  - apply includes_here. exact (startsWith_app needle b).
  - change (startsWith needle (String c (a +:+ needle +:+ b))
            || includes needle (a +:+ needle +:+ b) = true).
    rewrite IH. apply orb_true_r.
Qed.

Lemma includes_inv (needle s : string) :
  includes needle s = true → ∃ a b, s = a +:+ needle +:+ b.
Proof.
  induction s as [|c s IH]; simpl; intros Hs.
  - rewrite orb_false_r in Hs. apply startsWith_inv in Hs as [t Ht].
    by exists "", t.
  - apply orb_true_iff in Hs as [Hs|Hs].
    + apply (startsWith_inv needle (String c s)) in Hs as [t Ht]. by exists "", t.
    + destruct (IH Hs) as (a & b & ->). by exists (String c a), b.
Qed.

(** [includes] decides the substring relation. *)
Lemma includes_iff (needle s : string) :
  includes needle s = true ↔ ∃ a b, s = a +:+ needle +:+ b.
Proof.
  split; [apply includes_inv|]. intros (a & b & ->). apply includes_app.
Qed.

Lemma append_empty_r (s : string) : s +:+ "" = s.
Proof.
  induction s as [|c s IH]; [done|].
  change (String c (s +:+ "") = String c s). by rewrite IH.
Qed.

Lemma includes_suffix (a needle : string) : includes needle (a +:+ needle) = true.
Proof.
  rewrite <- (append_empty_r needle) at 2. apply includes_app.
Qed.

(** [slice(-n)] of an array that ends with [n] elements is those [n]. *)
Lemma slice_last {A} (n : nat) (older recent : list A) :
  (0 < n)%nat → length recent = n →
  slice (- Z.of_nat n) (older ++ recent) = recent.
Proof.
  intros Hn Hlen. unfold slice.
  rewrite length_app, Hlen.
  replace (- Z.of_nat n <? 0) with true by (symmetry; apply Z.ltb_lt; lia).
  replace (Z.to_nat (Z.max (Z.of_nat (length older + n) + - Z.of_nat n) 0))
    with (length older) by lia.
  by rewrite drop_app_length.
Qed.

(** An array longer than [n] splits into what [slice(-n)] drops and the
    [n] elements it keeps. *)
Lemma slice_split {A} (n : nat) (arr : list A) :
  (0 < n)%nat → (n < length arr)%nat →
  ∃ older, arr = older ++ slice (- Z.of_nat n) arr
           ∧ length (slice (- Z.of_nat n) arr) = n
           ∧ older ≠ [].
Proof.
  intros Hn Hlen.
  assert (Hs : slice (- Z.of_nat n) arr = drop (length arr - n) arr).
  { rewrite <- (take_drop (length arr - n) arr) at 1.
    apply slice_last; [done|]. rewrite length_drop. lia. }
  exists (take (length arr - n) arr). rewrite Hs. split_and!.
  - by rewrite take_drop.
  - rewrite length_drop. lia.
  - intros Hnil. apply (f_equal length) in Hnil.
    rewrite length_take in Hnil. simpl in Hnil. lia.
Qed.

End JsFacts.

(** ** Theme store *)

Section ThemeFacts.

Import Theme.

Lemma isTheme_cases (s : string) :
  isTheme s = true ↔ s = "dark" ∨ s = "light" ∨ s = "tan" ∨ s = "cloud".
Proof.
  unfold isTheme, themes. rewrite bool_decide_eq_true.
  rewrite !elem_of_cons, elem_of_nil. tauto.
Qed.

Lemma validTheme_Some (v : option string) (s : string) :
  validTheme v = Some s → v = Some s ∧ isTheme s = true.
Proof.
  unfold validTheme. destruct v as [x|]; simpl; [|done].
  destruct (negb (x =? "")%string); simpl; [|done].
  destruct (isTheme x) eqn:Hx; [|done]. by intros [= ->].
Qed.

Lemma validTheme_outside (v : option string) :
  (∀ s, v = Some s → isTheme s = false) → validTheme v = None.
Proof.
  intros Hv. destruct (validTheme v) as [s|] eqn:Hs; [|done].
  apply validTheme_Some in Hs as [-> Hs]. by rewrite (Hv s) in Hs.
Qed.

Lemma toggleTheme_member (t : string) :
  isTheme t = true → ∃ t', toggleTheme t = Some t' ∧ isTheme t' = true.
Proof.
  rewrite isTheme_cases. intros [ -> | [ -> | [ -> | -> ]]]; eexists; (split; [reflexivity|done]).
Qed.

(** C5. Toggling steps dark → light → tan → cloud → dark, and four
    toggles from any of the four themes give the theme back. *)
Theorem toggleTheme_cycle :
  toggleTheme "dark" = Some "light"
  ∧ toggleTheme "light" = Some "tan"
  ∧ toggleTheme "tan" = Some "cloud"
  ∧ toggleTheme "cloud" = Some "dark"
  ∧ Forall (fun theme => toggleTimes 4 theme = Some theme) themes.
Proof.
  split_and!; try reflexivity.
  repeat constructor.
Qed.

(** C10. The theme state stays within the four themes: the initial theme is
    one of them whenever the configured default is, a document attribute or
    a stored value outside the four is passed over (with both outside, the
    default is the result), and [setTheme] and [toggleTheme] take a theme to
    a theme. *)
Theorem theme_closed (b : Browser) (defaultTheme theme newTheme : string) :
  (isTheme defaultTheme = true → isTheme (getInitialTheme b defaultTheme) = true)
  ∧ ((∀ v, document_dataTheme b = Some (Some v) → isTheme v = false) →
     (∀ v, localStorage_blogTheme b = Ok (Some v) → isTheme v = false) →
     getInitialTheme b defaultTheme = defaultTheme)
  ∧ (isTheme (getInitialTheme b defaultTheme) = false →
     getInitialTheme b defaultTheme = defaultTheme)
  ∧ (isTheme newTheme = true → isTheme (setTheme theme newTheme) = true)
  ∧ (isTheme theme = true →
     ∃ next, toggleTheme theme = Some next ∧ isTheme next = true).
Proof.
  split_and!.
  - intros Hd. unfold getInitialTheme.
    destruct (document_dataTheme b ≫= validTheme) as [h|] eqn:Hh.
    + destruct (document_dataTheme b) as [attr|]; [|done]. simpl in Hh.
      by apply validTheme_Some in Hh as [_ ?].
    + destruct (localStorage_blogTheme b) as [saved|]; [|done].
      destruct (validTheme saved) as [s|] eqn:Hs; [|done].
      by apply validTheme_Some in Hs as [_ ?].
  - intros Hdoc Hsto. unfold getInitialTheme.
    destruct (document_dataTheme b) as [attr|]; simpl.
    + rewrite (validTheme_outside attr) by (intros s ->; by apply Hdoc).
      destruct (localStorage_blogTheme b) as [saved|]; [|done].
      by rewrite (validTheme_outside saved) by (intros s ->; by apply Hsto).
    + destruct (localStorage_blogTheme b) as [saved|]; [|done].
      by rewrite (validTheme_outside saved) by (intros s ->; by apply Hsto).
  - unfold getInitialTheme.
    destruct (document_dataTheme b ≫= validTheme) as [h|] eqn:Hh.
    + destruct (document_dataTheme b) as [attr|]; [|done]. simpl in Hh.
      apply validTheme_Some in Hh as [_ Hh]. by rewrite Hh.
    + destruct (localStorage_blogTheme b) as [saved|]; [|done].
      destruct (validTheme saved) as [s|] eqn:Hs; [|done].
      apply validTheme_Some in Hs as [_ Hs]. by rewrite Hs.
  - done.
  - apply toggleTheme_member.
Qed.

(** The page's attribute is not a theme, the stored value is: the stored
    value wins over the default, and toggling it stays within the themes. *)
Lemma theme_closed_witness :
  isTheme (getInitialTheme
             {| document_dataTheme := Some (Some "sepia");
                localStorage_blogTheme := Ok (Some "cloud") |} "tan") = true
  ∧ getInitialTheme
      {| document_dataTheme := Some (Some "sepia");
         localStorage_blogTheme := Throw OtherValue |} "tan" = "tan"
  ∧ isTheme (setTheme "tan" "dark") = true
  ∧ ∃ next, toggleTheme "cloud" = Some next ∧ isTheme next = true.
Proof.
  split_and!.
  - apply (theme_closed {| document_dataTheme := Some (Some "sepia");
                           localStorage_blogTheme := Ok (Some "cloud") |}
             "tan" "tan" "tan"). reflexivity.
  - apply (proj1 (proj2 (theme_closed
             {| document_dataTheme := Some (Some "sepia");
                localStorage_blogTheme := Throw OtherValue |}
             "tan" "tan" "tan"))); intros v Hv; simpl in Hv; simplify_eq; reflexivity.
  - apply (theme_closed {| document_dataTheme := None; localStorage_blogTheme := Ok None |}
             "tan" "tan" "dark"). reflexivity.
  - apply (theme_closed {| document_dataTheme := None; localStorage_blogTheme := Ok None |}
             "tan" "cloud" "dark"). reflexivity.
Defined.

End ThemeFacts.

(** ** Provider selection and credentials *)

Section ProviderFacts.

Import Chat.

(** C4. The provider is decided by the model name's prefix alone: [claude]
    gives anthropic, [gpt] gives openai, [gemini] gives google, and a name
    with none of the three prefixes gives anthropic. *)
Theorem getProviderFromModel_prefix (model : string) :
  ((∃ rest, model = "claude" +:+ rest) → getProviderFromModel model = anthropic)
  ∧ ((∃ rest, model = "gpt" +:+ rest) → getProviderFromModel model = openai)
  ∧ ((∃ rest, model = "gemini" +:+ rest) → getProviderFromModel model = google)
  ∧ ((¬ ∃ rest, model = "claude" +:+ rest) →
     (¬ ∃ rest, model = "gpt" +:+ rest) →
     (¬ ∃ rest, model = "gemini" +:+ rest) →
     getProviderFromModel model = anthropic).
Proof.
  unfold getProviderFromModel. split_and!.
  - intros Hp. apply startsWith_iff in Hp. by rewrite Hp.
  - intros [rest ->]. reflexivity.
  - intros [rest ->]. reflexivity.
  - intros Hc Hg Hm. rewrite <- startsWith_iff in Hc, Hg, Hm.
    apply not_true_is_false in Hc, Hg, Hm. by rewrite Hc, Hg, Hm.
Qed.

Lemma getProviderFromModel_prefix_witness :
  getProviderFromModel "claude-sonnet-4-20250514" = anthropic
  ∧ getProviderFromModel "gpt-4o" = openai
  ∧ getProviderFromModel "gemini-2.0-flash" = google
  ∧ getProviderFromModel "mistral-large" = anthropic.
Proof.
  split_and!.
  - apply (proj1 (getProviderFromModel_prefix "claude-sonnet-4-20250514")).
    by exists "-sonnet-4-20250514".
  - apply (proj1 (proj2 (getProviderFromModel_prefix "gpt-4o"))). by exists "-4o".
  - apply (proj1 (proj2 (proj2 (getProviderFromModel_prefix "gemini-2.0-flash")))).
    by exists "-2.0-flash".
  - apply (proj2 (proj2 (proj2 (getProviderFromModel_prefix "mistral-large"))));
      intros [rest Hrest]; discriminate Hrest.
Defined.

End ProviderFacts.

(** ** AI chat orchestration *)

Section ChatFacts.

Import Chat.

Context {World : Type} `{Backend World}.

(** A loop whose body pushes one element and leaves the backend as it is
    pushes one element per item, in the items' order. *)
Lemma for_of_push {A B} (body : list B → A → M World (list B)) (R : A → B → Prop)
    (w : World) :
  (∀ x, ∃ y, R x y ∧ ∀ acc, body acc x w = (Ok (acc ++ [y]), w)) →
  ∀ xs acc, ∃ ys, Forall2 R xs ys ∧ for_of xs body acc w = (Ok (acc ++ ys), w).
Proof.
  intros Hbody. induction xs as [|x xs IH]; intros acc.
  - exists []. split; [constructor|]. by rewrite app_nil_r.
  - destruct (Hbody x) as (y & Hy & Hstep).
    destruct (IH (acc ++ [y])) as (ys & Hys & Hrest).
    exists (y :: ys). split; [by constructor|].
    simpl. unfold bind. rewrite Hstep, Hrest. by rewrite <- app_assoc.
Qed.

(** The same for a body that pushes any number of elements. *)
Lemma for_of_extend {A B} (body : list B → A → M World (list B)) (w : World) :
  (∀ x acc, ∃ ys, body acc x w = (Ok (acc ++ ys), w)) →
  ∀ xs acc, ∃ ys, for_of xs body acc w = (Ok (acc ++ ys), w).
Proof.
  intros Hbody. induction xs as [|x xs IH]; intros acc.
  - exists []. by rewrite app_nil_r.
  - destruct (Hbody x acc) as (ys & Hstep).
    destruct (IH (acc ++ ys)) as (zs & Hrest).
    exists (ys ++ zs). simpl. unfold bind. rewrite Hstep, Hrest. by rewrite <- app_assoc.
Qed.

Lemma pushAttachment_extends (w : World) (attachment : Attachment) (parts : list ContentBlock) :
  ∃ blocks, pushAttachment parts attachment w = (Ok (parts ++ blocks), w).
Proof.
  unfold pushAttachment. run.
  destruct (bool_decide (att_type attachment = image) && truthy (att_storageId attachment)).
  - destruct (truthy (getStorageUrlInternal _ w)); eauto.
    exists []. by rewrite app_nil_r.
  - destruct (bool_decide (att_type attachment = link)).
    + match goal with |- context [if ?c then _ else _] => destruct c end; eauto.
      exists []. by rewrite app_nil_r.
    + exists []. by rewrite app_nil_r.
Qed.

Lemma attachments_extend (w : World) (atts : list Attachment) (parts : list ContentBlock) :
  ∃ blocks, for_of atts pushAttachment parts w = (Ok (parts ++ blocks), w).
Proof.
  apply for_of_extend. intros x acc. apply pushAttachment_extends.
Qed.

(** Formatting a stored message pushes exactly one message, of the stored
    message's role, whatever was pushed before. *)
Lemma pushHistoryMessage_one (w : World) (msg : ChatMessage) :
  ∃ formatted,
    (role formatted = msg_role msg
     ∧ pushHistoryMessage [] msg w = (Ok [formatted], w))
    ∧ ∀ acc, pushHistoryMessage acc msg w = (Ok (acc ++ [formatted]), w).
Proof.
  unfold pushHistoryMessage. run.
  destruct (bool_decide (msg_role msg = assistant)) eqn:Hrole.
  - apply bool_decide_eq_true in Hrole. eexists. split_and!; [|reflexivity..]. done.
  - apply bool_decide_eq_false in Hrole.
    assert (Huser : msg_role msg = user) by (by destruct (msg_role msg)).
    destruct (msg_attachments msg) as [atts|].
    + destruct (attachments_extend w atts
                  (if truthy (Some (msg_content msg)) then [TextBlock (msg_content msg)] else []))
        as (blocks & ->).
      eexists. split_and!; [|reflexivity..]. done.
    + eexists. split_and!; [|reflexivity..]. done.
Qed.

(** What is sent for an assistant's message is its text. *)
Lemma formats_assistant (w : World) (msg : ChatMessage) (formatted : Message) :
  msg_role msg = assistant → formats w msg formatted →
  formatted = {| role := assistant; content := Plain (msg_content msg) |}.
Proof.
  intros Hrole [_ Hpush]. unfold pushHistoryMessage in Hpush. run.
  rewrite Hrole in Hpush. simpl in Hpush. by injection Hpush as <-.
Qed.

(** What is sent for a user's message without attachments is its text. *)
Lemma formats_user_text (w : World) (msg : ChatMessage) (formatted : Message) :
  msg_role msg = user → msg_attachments msg = None → msg_content msg ≠ "" →
  formats w msg formatted →
  formatted = {| role := user; content := Plain (msg_content msg) |}.
Proof.
  intros Hrole Hatts Htext [_ Hpush]. unfold pushHistoryMessage in Hpush. run.
  rewrite Hrole, Hatts in Hpush. simpl in Hpush.
  apply String.eqb_neq in Htext. rewrite Htext in Hpush. simpl in Hpush.
  by injection Hpush as <-.
Qed.

(** The new user message is built without touching the backend; it has the
    user's role, and a text typed by the user is its content or its first
    block. *)
Lemma newUserMessage_ok (w : World) (userMessage : string) (atts : option (list Attachment)) :
  ∃ newMessage,
    newUserMessage userMessage atts w = (Ok newMessage, w)
    ∧ role newMessage = user
    ∧ (userMessage ≠ "" →
       content newMessage = Plain userMessage
       ∨ ∃ rest, content newMessage = Blocks (TextBlock userMessage :: rest)).
Proof.
  unfold newUserMessage. run.
  assert (Hparts : ∃ parts,
    match atts with
    | Some atts =>
        if 0 <? Z.of_nat (length atts)
        then for_of atts pushAttachment
               (if truthy (Some userMessage) then [TextBlock userMessage] else [])
        else fun w => (Ok (if truthy (Some userMessage) then [TextBlock userMessage] else []), w)
    | None => fun w => (Ok (if truthy (Some userMessage) then [TextBlock userMessage] else []), w)
    end w = (Ok ((if truthy (Some userMessage) then [TextBlock userMessage] else []) ++ parts), w)).
  { destruct atts as [atts|]; [|exists []; by rewrite app_nil_r].
    destruct (0 <? Z.of_nat (length atts)); [|exists []; by rewrite app_nil_r].
    apply attachments_extend. }
  destruct Hparts as (parts & ->).
  eexists. split_and!; [reflexivity|done|]. intros Hne.
  assert (Ht : truthy (Some userMessage) = true).
  { simpl. apply negb_true_iff, String.eqb_neq, Hne. }
  rewrite Ht. simpl. destruct parts as [|p parts]; [by left|right; eauto].
Qed.

Lemma buildFormattedMessages_ok (w : World) (chat : Chat) (userMessage : string)
    (atts : option (list Attachment)) :
  ∃ formatted newMessage,
    Forall2 (formats w) (slice (-20) (messages chat)) formatted
    ∧ newUserMessage userMessage atts w = (Ok newMessage, w)
    ∧ buildFormattedMessages chat userMessage atts w = (Ok (formatted ++ [newMessage]), w).
Proof.
  destruct (for_of_push pushHistoryMessage (formats w) w (pushHistoryMessage_one w)
              (slice (-20) (messages chat)) []) as (formatted & Hall & Hloop).
  destruct (newUserMessage_ok w userMessage atts) as (newMessage & Hnew & _).
  exists formatted, newMessage. split_and!; [done..|].
  unfold buildFormattedMessages. run. by rewrite Hloop, Hnew.
Qed.

(** The turn of a configured provider on a stored chat: the provider is
    called once, with the formatted messages, and its reply or the message
    made from its failure is stored and returned. *)
Lemma generateResponse_turn (env : gmap string string) (args : Args) (w : World)
    (apiKey : string) (chat : Chat) (sent : list Message) :
  let selectedModel := or_else (model args) "claude-sonnet-4-20250514" in
  let provider := getProviderFromModel selectedModel in
  getApiKeyForProvider env provider = Some apiKey →
  getAIChatInternal (chatId args) w = Some chat →
  buildFormattedMessages chat (userMessage args)
    (processAttachments env (attachments args)) w = (Ok sent, w) →
  generateResponse env args w =
    let assistantMessage :=
      match callProvider provider apiKey selectedModel (turnSystemPrompt env args chat) sent with
      | Ok text => text
      | Throw error => onProviderError provider error
      end in
    (Ok assistantMessage, addAssistantMessage (chatId args) assistantMessage w).
Proof.
  intros selectedModel provider Hkey Hchat Hsent.
  unfold generateResponse. fold selectedModel. fold provider. rewrite Hkey.
  run. rewrite Hchat, Hsent.
  by destruct (callProvider provider apiKey selectedModel _ sent).
Qed.

Lemma or_else_empty (o : option string) : or_else o "" = default "" o.
Proof. unfold or_else. destruct o as [[|c s]|]; reflexivity. Qed.

(** The loop's body pushes the blocks of the attachment. *)
Lemma pushAttachment_blocks (w : World) (parts : list ContentBlock) (attachment : Attachment) :
  pushAttachment parts attachment w
    = (Ok (parts ++ ChatSpec.attachmentBlocks w attachment), w).
Proof.
  unfold pushAttachment, ChatSpec.attachmentBlocks. run.
  destruct (att_type attachment); simpl.
  - destruct (att_storageId attachment) as [[|c id]|]; simpl; rewrite ?app_nil_r; try done.
    destruct (getStorageUrlInternal (String c id) w) as [[|d url]|]; simpl;
      by rewrite ?app_nil_r.
  - rewrite or_else_empty.
    destruct (att_scrapedContent attachment) as [[|c scraped]|]; simpl.
    + destruct (default "" (att_url attachment)); simpl; by rewrite ?app_nil_r.
    + match goal with
      | |- context [negb (?text =? "")%string] => destruct text eqn:Htext
      end; simpl; by rewrite ?app_nil_r.
    + destruct (default "" (att_url attachment)); simpl; by rewrite ?app_nil_r.
Qed.

Lemma for_of_pushAttachment (w : World) (atts : list Attachment) (parts : list ContentBlock) :
  for_of atts pushAttachment parts w
    = (Ok (parts ++ (atts ≫= ChatSpec.attachmentBlocks w)), w).
Proof.
  revert parts. induction atts as [|attachment atts IH]; intros parts; simpl.
  - by rewrite app_nil_r.
  - unfold bind. rewrite pushAttachment_blocks, IH. by rewrite <- app_assoc.
Qed.

Lemma text_block_spec (text : string) :
  (if truthy (Some text) then [TextBlock text] else [])
  = match text with EmptyString => [] | _ => [TextBlock text] end.
Proof. by destruct text. Qed.

(** The loop's body pushes the message that the specification gives. *)
Lemma pushHistoryMessage_formatStored (w : World) (acc : list Message) (msg : ChatMessage) :
  pushHistoryMessage acc msg w = (Ok (acc ++ [ChatSpec.formatStored w msg]), w).
Proof.
  unfold pushHistoryMessage, ChatSpec.formatStored, ChatSpec.userBlocks. run.
  rewrite text_block_spec.
  destruct (msg_role msg); simpl; [|done].
  destruct (msg_attachments msg) as [atts|]; simpl.
  - by rewrite for_of_pushAttachment.
  - by rewrite app_nil_r.
Qed.

Lemma for_of_pushHistoryMessage (w : World) (msgs : list ChatMessage) (acc : list Message) :
  for_of msgs pushHistoryMessage acc w
    = (Ok (acc ++ (ChatSpec.formatStored w <$> msgs)), w).
Proof.
  revert acc. induction msgs as [|msg msgs IH]; intros acc.
  - simpl. by rewrite app_nil_r.
  - cbn [for_of]. unfold bind. rewrite pushHistoryMessage_formatStored, IH, fmap_cons.
    by rewrite <- app_assoc.
Qed.

Lemma newUserMessage_newMessageOf (w : World) (userMessage : string)
    (atts : option (list Attachment)) :
  newUserMessage userMessage atts w = (Ok (ChatSpec.newMessageOf w userMessage atts), w).
Proof.
  unfold newUserMessage, ChatSpec.newMessageOf, ChatSpec.userBlocks. run.
  rewrite text_block_spec.
  destruct atts as [atts|]; simpl; [|by rewrite app_nil_r].
  destruct atts as [|attachment atts]; [by rewrite app_nil_r|].
  replace (0 <? Z.of_nat (length (attachment :: atts))) with true
    by (symmetry; apply Z.ltb_lt; simpl; lia).
  by rewrite for_of_pushAttachment.
Qed.

(** The list a turn builds, as the specification gives it. *)
Lemma buildFormattedMessages_spec (w : World) (chat : Chat) (userMessage : string)
    (atts : option (list Attachment)) :
  buildFormattedMessages chat userMessage atts w
    = (Ok ((ChatSpec.formatStored w <$> slice (-20) (messages chat))
           ++ [ChatSpec.newMessageOf w userMessage atts]), w).
Proof.
  unfold buildFormattedMessages. run.
  by rewrite for_of_pushHistoryMessage, newUserMessage_newMessageOf.
Qed.

(** Every turn of a configured provider on a stored chat sends the list
    the specification gives. *)
Lemma generateResponse_turnSends (env : gmap string string) (args : Args) (w : World)
    (apiKey : string) (chat : Chat) :
  getApiKeyForProvider env
    (getProviderFromModel (or_else (model args) "claude-sonnet-4-20250514")) = Some apiKey →
  getAIChatInternal (chatId args) w = Some chat →
  ChatSpec.turnSends env args w apiKey chat
    ((ChatSpec.formatStored w <$> slice (-20) (messages chat))
     ++ [ChatSpec.newMessageOf w (userMessage args)
           (processAttachments env (attachments args))]).
Proof.
  intros Hkey Hchat.
  pose proof (buildFormattedMessages_spec w chat (userMessage args)
                (processAttachments env (attachments args))) as Hsent.
  pose proof (generateResponse_turn env args w apiKey chat _ Hkey Hchat Hsent) as Hrun.
  cbv zeta in Hrun. unfold ChatSpec.turnSends. cbv zeta.
  split_and!; [done| | | |].
  - rewrite Hrun. unfold ChatSpec.settle, callProvider.
    by destruct (getProviderFromModel _).
  - intros Hp text Hreply. rewrite Hrun, Hp. unfold callProvider, callAnthropicApi.
    by rewrite Hreply.
  - intros Hp text Htext Hreply. rewrite Hrun, Hp. unfold callProvider, callOpenAIApi.
    change (foldl pushOpenAIMessage _ ?l) with (ChatWire.openaiMessages
      (turnSystemPrompt env args chat) l).
    rewrite Hreply. simpl. apply String.eqb_neq in Htext. by rewrite Htext.
  - intros Hp text Htext Hreply. rewrite Hrun, Hp. unfold callProvider, callGeminiApi, geminiRequest.
    rewrite Hreply. simpl. apply String.eqb_neq in Htext. by rewrite Htext.
Qed.

(** C1. With more than 20 stored messages, what a turn sends to the
    selected provider is the 20 most recent stored messages and then the new
    user message: each stored message as its role with its text and the
    blocks of its attachments, in stored order, the new message last. That
    list is the one the handler builds, the one the provider's call is made
    with, and the one the request to the vendor's SDK is made from. *)
Theorem generateResponse_sends_last_20 (env : gmap string string) (args : Args)
    (w : World) (apiKey : string) (chat : Chat) :
  getApiKeyForProvider env
    (getProviderFromModel (or_else (model args) "claude-sonnet-4-20250514")) = Some apiKey →
  getAIChatInternal (chatId args) w = Some chat →
  (20 < length (messages chat))%nat →
  ∃ older recent,
    messages chat = older ++ recent
    ∧ length recent = 20%nat
    ∧ ChatSpec.turnSends env args w apiKey chat
        ((ChatSpec.formatStored w <$> recent)
         ++ [ChatSpec.newMessageOf w (userMessage args)
               (processAttachments env (attachments args))]).
Proof.
  intros Hkey Hchat Hlong.
  destruct (slice_split 20 (messages chat)) as (older & Hsplit & Hlen & _); [lia|done|].
  exists older, (slice (-20) (messages chat)). split_and!; [done..|].
  by apply generateResponse_turnSends.
Qed.

Lemma getApiKeyForProvider_absent (env : gmap string string) (provider : Provider) :
  env !! envVar (configs provider) = None → getApiKeyForProvider env provider = None.
Proof. destruct provider; simpl; by intros ->. Qed.

Lemma getNotConfiguredMessage_names (provider : Provider) :
  includes (name (configs provider) +:+ " is not configured.") (getNotConfiguredMessage provider)
    = true
  ∧ includes (envVar (configs provider)) (getNotConfiguredMessage provider) = true.
Proof. by destruct provider; vm_compute. Qed.

(** C2. When the selected provider's credential variable is absent, the
    action returns that provider's not-configured message, which names the
    provider and the variable to set; the message stored as the assistant's
    turn is the returned one; and a further invocation for the same provider,
    the variable still absent, returns the same message again. *)
Theorem generateResponse_not_configured (env : gmap string string) (args again : Args)
    (w : World) :
  let provider := getProviderFromModel (or_else (model args) "claude-sonnet-4-20250514") in
  let notConfiguredMessage := getNotConfiguredMessage provider in
  env !! envVar (configs provider) = None →
  generateResponse env args w
    = (Ok notConfiguredMessage, addAssistantMessage (chatId args) notConfiguredMessage w)
  ∧ includes (name (configs provider) +:+ " is not configured.") notConfiguredMessage = true
  ∧ includes (envVar (configs provider)) notConfiguredMessage = true
  ∧ (getProviderFromModel (or_else (model again) "claude-sonnet-4-20250514") = provider →
     generateResponse env again (generateResponse env args w).2
       = (Ok notConfiguredMessage,
          addAssistantMessage (chatId again) notConfiguredMessage
            (addAssistantMessage (chatId args) notConfiguredMessage w))).
Proof.
  intros provider notConfiguredMessage Habsent.
  assert (Hrun : ∀ a w',
    getProviderFromModel (or_else (model a) "claude-sonnet-4-20250514") = provider →
    generateResponse env a w'
      = (Ok notConfiguredMessage, addAssistantMessage (chatId a) notConfiguredMessage w')).
  { intros a w' Hp. unfold generateResponse. rewrite Hp.
    by rewrite (getApiKeyForProvider_absent env provider Habsent). }
  split_and!.
  - by apply Hrun.
  - apply getNotConfiguredMessage_names.
  - apply getNotConfiguredMessage_names.
  - intros Hp. rewrite (Hrun args w eq_refl). simpl. by apply Hrun.
Qed.

Lemma onProviderError_shape (provider : Provider) (error : Thrown) :
  startsWith ("**Error from " +:+ providerName provider +:+ ":**")
    (onProviderError provider error) = true
  ∧ includes (errorMessageOf error) (onProviderError provider error) = true.
Proof.
  unfold onProviderError. split.
  - apply startsWith_iff. exists (" " +:+ errorMessageOf error). by destruct provider.
  - replace ("**Error from " +:+ providerName provider +:+ ":** " +:+ errorMessageOf error)
      with (("**Error from " +:+ providerName provider +:+ ":** ") +:+ errorMessageOf error)
      by (by destruct provider).
    apply includes_suffix.
Qed.

(** C3. When the call to the selected provider throws, the action returns:
    the message it returns, which is the one stored as the assistant's turn,
    starts with [**Error from <provider>:**] and contains the text of the
    failure, which for a thrown [Error] is its message. *)
Theorem generateResponse_provider_error (env : gmap string string) (args : Args)
    (w : World) (apiKey : string) (chat : Chat) (sent : list Message) (error : Thrown) :
  let selectedModel := or_else (model args) "claude-sonnet-4-20250514" in
  let provider := getProviderFromModel selectedModel in
  getApiKeyForProvider env provider = Some apiKey →
  getAIChatInternal (chatId args) w = Some chat →
  buildFormattedMessages chat (userMessage args)
    (processAttachments env (attachments args)) w = (Ok sent, w) →
  callProvider provider apiKey selectedModel (turnSystemPrompt env args chat) sent
    = Throw error →
  ∃ assistantMessage,
    generateResponse env args w
      = (Ok assistantMessage, addAssistantMessage (chatId args) assistantMessage w)
    ∧ assistantMessage
      = "**Error from " +:+ providerName provider +:+ ":** " +:+ errorMessageOf error
    ∧ startsWith ("**Error from " +:+ providerName provider +:+ ":**") assistantMessage = true
    ∧ includes (errorMessageOf error) assistantMessage = true
    ∧ ∀ message, error = ErrorObject message → includes message assistantMessage = true.
Proof.
  intros selectedModel provider Hkey Hchat Hsent Hthrow.
  exists (onProviderError provider error).
  split_and!.
  - rewrite (generateResponse_turn env args w apiKey chat sent Hkey Hchat Hsent).
    fold selectedModel. fold provider. by rewrite Hthrow.
  - done.
  - apply onProviderError_shape.
  - apply onProviderError_shape.
  - intros message ->. apply (onProviderError_shape provider (ErrorObject message)).
Qed.

(** Every run of [generateResponse] ends in one of two ways. *)
Lemma generateResponse_outcome (env : gmap string string) (args : Args) (w : World) :
  (∃ assistantMessage,
     generateResponse env args w
       = (Ok assistantMessage, addAssistantMessage (chatId args) assistantMessage w))
  ∨ (is_Some (getApiKeyForProvider env
                (getProviderFromModel (or_else (model args) "claude-sonnet-4-20250514")))
     ∧ getAIChatInternal (chatId args) w = None
     ∧ generateResponse env args w = (Throw (ErrorObject "Chat not found"), w)).
Proof.
  destruct (getApiKeyForProvider env
              (getProviderFromModel (or_else (model args) "claude-sonnet-4-20250514")))
    as [apiKey|] eqn:Hkey.
  - destruct (getAIChatInternal (chatId args) w) as [chat|] eqn:Hchat.
    + left.
      destruct (buildFormattedMessages_ok w chat (userMessage args)
                  (processAttachments env (attachments args)))
        as (formatted & newMessage & _ & _ & Hsent).
      rewrite (generateResponse_turn env args w apiKey chat _ Hkey Hchat Hsent). eauto.
    + right. split_and!; [done..|].
      unfold generateResponse. rewrite Hkey. run. by rewrite Hchat.
  - left. unfold generateResponse. rewrite Hkey. run. eauto.
Qed.

End ChatFacts.

(** ** Translation to Gemini *)

Section GeminiFacts.

Import Chat.

Lemma foldl_pushGeminiPart (blocks : list ContentBlock) (parts : list GeminiPart) :
  foldl pushGeminiPart parts blocks = parts ++ (GText <$> textsOf blocks).
Proof.
  revert parts. induction blocks as [|block blocks IH]; intros parts; simpl.
  - by rewrite app_nil_r.
  - rewrite IH. destruct block as [text|source]; simpl; [|done].
    by rewrite <- app_assoc.
Qed.

Lemma pushGeminiMessage_text_only (msg : Message) (geminiMessages : list GeminiContent) :
  pushGeminiMessage geminiMessages msg = geminiMessages ++ geminiTextOnly msg.
Proof.
  unfold pushGeminiMessage, geminiTextOnly.
  replace (if bool_decide (role msg = assistant) then g_model else g_user)
    with (match role msg with assistant => g_model | user => g_user end)
    by (by destruct (role msg)).
  destruct (content msg) as [text|blocks]; [done|].
  rewrite foldl_pushGeminiPart. simpl.
  destruct (textsOf blocks) as [|text texts]; simpl; [by rewrite app_nil_r|done].
Qed.

Lemma toGeminiMessages_text_only (messages : list Message) :
  toGeminiMessages messages = messages ≫= geminiTextOnly.
Proof.
  unfold toGeminiMessages.
  assert (Hfold : ∀ acc, foldl pushGeminiMessage acc messages
                         = acc ++ (messages ≫= geminiTextOnly)).
  { induction messages as [|msg messages IH]; intros acc; simpl.
    - by rewrite app_nil_r.
    - rewrite IH, pushGeminiMessage_text_only. by rewrite <- app_assoc. }
  apply (Hfold []).
Qed.

Lemma geminiTextOnly_no_image (msg : Message) :
  Forall (fun c => Forall (fun part => ∃ text, part = GText text) (g_parts c))
         (geminiTextOnly msg).
Proof.
  unfold geminiTextOnly. destruct (content msg) as [text|blocks].
  - repeat constructor. by exists text.
  - destruct (textsOf blocks) as [|text texts] eqn:Htexts; [constructor|].
    repeat constructor.
    + by exists text.
    + apply Forall_fmap, Forall_true. intros t. by exists t.
Qed.

(** C8. Whatever the messages, the contents sent to Gemini are made of
    text parts alone: each message contributes the texts of its text blocks,
    in order, every image block is dropped, and no part carries inline
    data. *)
Theorem gemini_payload_text_only (model systemPrompt : string) (messages : list Message) :
  gc_contents (geminiRequest model systemPrompt messages) = messages ≫= geminiTextOnly
  ∧ Forall (fun c => Forall (fun part => ∃ text, part = GText text) (g_parts c))
           (gc_contents (geminiRequest model systemPrompt messages))
  ∧ ∀ mimeType data,
      Forall (fun c => GInlineData mimeType data ∉ g_parts c)
             (gc_contents (geminiRequest model systemPrompt messages)).
Proof.
  assert (Htext : Forall (fun c => Forall (fun part => ∃ text, part = GText text) (g_parts c))
                         (toGeminiMessages messages)).
  { rewrite toGeminiMessages_text_only. apply Forall_bind, Forall_true.
    apply geminiTextOnly_no_image. }
  split_and!.
  - apply toGeminiMessages_text_only.
  - done.
  - intros mimeType data. simpl. eapply Forall_impl; [exact Htext|].
    intros c Hc Hin. rewrite Forall_forall in Hc.
    by destruct (Hc _ Hin) as [text ?].
Qed.

End GeminiFacts.

(** ** AI image generation *)

Section ImageFacts.

Import Image.

Context {World : Type} `{Backend World}.

Lemma generateImage_absent (env : gmap string string) (args : Args) (w : World) :
  env !! "GOOGLE_AI_API_KEY" = None →
  generateImage env args w = (Ok (failure NOT_CONFIGURED), w).
Proof. intros Habsent. unfold generateImage. by rewrite Habsent. Qed.

(** With a credential, the outcome is what the [try] block returns, or what
    the [catch] clause makes of what it throws. *)
Lemma generateImage_configured (env : gmap string string) (args : Args) (w : World)
    (apiKey : string) :
  or_null (env !! "GOOGLE_AI_API_KEY") = Some apiKey →
  generateImage env args w =
    match tryGenerate apiKey args w with
    | (Ok outcome, w') => (Ok outcome, w')
    | (Throw error, w') => (Ok (onError error), w')
    end.
Proof. intros Hkey. unfold generateImage. rewrite Hkey. by run. Qed.

(** The action returns on every input and every behaviour of the backend. *)
Lemma generateImage_returns (env : gmap string string) (args : Args) (w : World) :
  ∃ outcome w', generateImage env args w = (Ok outcome, w').
Proof.
  destruct (or_null (env !! "GOOGLE_AI_API_KEY")) as [apiKey|] eqn:Hkey.
  - rewrite (generateImage_configured env args w apiKey Hkey).
    destruct (tryGenerate apiKey args w) as [[outcome|error] w']; eauto.
  - unfold generateImage. rewrite Hkey. run. eauto.
Qed.

(** What the [try] block returns is a success with a stored file and no
    error, or a failure with an error and no stored file. *)
Lemma tryGenerate_discriminated (apiKey : string) (args : Args) (w w' : World)
    (outcome : Outcome) :
  tryGenerate apiKey args w = (Ok outcome, w') →
  (success outcome = true ∧ is_Some (storageId outcome) ∧ error outcome = None)
  ∨ (success outcome = false ∧ storageId outcome = None ∧ is_Some (error outcome)).
Proof.
  unfold tryGenerate. run.
  destruct (match model args with
            | gemini_flash_exp_image_generation => generateWithGemini apiKey args
            | imagen_3_generate => generateWithImagen apiKey args
            end) as [[early|mimeType imageBytes]|error] eqn:Hgen; [| |done].
  - intros [= <- _]. right.
    assert (early = failure NO_IMAGE) as ->; [|by split_and!].
    destruct (model args); [unfold generateWithGemini in Hgen|unfold generateWithImagen in Hgen];
      repeat match type of Hgen with
             | context [match ?x with _ => _ end] => destruct x; try discriminate Hgen
             end; congruence.
  - destruct (storage_store _ w) as [[stored|error] w1]; [|done].
    intros [= <- _]. left. by split_and!.
Qed.

Lemma onError_failure (thrown : Thrown) :
  success (onError thrown) = false ∧ storageId (onError thrown) = None
  ∧ is_Some (error (onError thrown)).
Proof.
  unfold onError. repeat match goal with |- context [if ?c then _ else _] => destruct c end;
    by split_and!.
Qed.

(** C6. Without [GOOGLE_AI_API_KEY] the result is a failure whose error
    text contains [not configured], and the backend is left as it was:
    nothing is stored and no record is written. *)
Theorem generateImage_not_configured (env : gmap string string) (args : Args) (w : World) :
  env !! "GOOGLE_AI_API_KEY" = None →
  ∃ outcome text,
    generateImage env args w = (Ok outcome, w)
    ∧ success outcome = false
    ∧ storageId outcome = None
    ∧ error outcome = Some text
    ∧ includes "not configured" text = true.
Proof.
  intros Habsent. exists (failure NOT_CONFIGURED), NOT_CONFIGURED.
  split_and!; [by apply generateImage_absent|done..].
Qed.

(** C7, as the code has it. The action returns on every input, with a
    success that carries a stored file or a failure that carries an error
    text. Without the credential the outcome is the not-configured failure. When the [try]
    block throws, an error text that mentions [quota] or [rate] gives the
    rate-limit message, and one that mentions neither of the two but
    mentions [safety] or [blocked] gives the safety-filter message. *)
Theorem generateImage_friendly (env : gmap string string) (args : Args) (w : World) :
  ∃ outcome w',
    generateImage env args w = (Ok outcome, w')
    ∧ ((success outcome = true ∧ is_Some (storageId outcome) ∧ error outcome = None)
       ∨ (success outcome = false ∧ storageId outcome = None ∧ is_Some (error outcome)))
    ∧ (env !! "GOOGLE_AI_API_KEY" = None →
       outcome = failure NOT_CONFIGURED ∧ includes "not configured" NOT_CONFIGURED = true)
    ∧ ∀ apiKey error w1,
        or_null (env !! "GOOGLE_AI_API_KEY") = Some apiKey →
        tryGenerate apiKey args w = (Throw error, w1) →
        (includes "quota" (errorMessageOf error) || includes "rate" (errorMessageOf error) = true →
         outcome = failure RATE_LIMIT)
        ∧ (includes "quota" (errorMessageOf error) = false →
           includes "rate" (errorMessageOf error) = false →
           includes "safety" (errorMessageOf error) || includes "blocked" (errorMessageOf error)
             = true →
           outcome = failure BLOCKED).
Proof.
  destruct (generateImage_returns env args w) as (outcome & w' & Hrun).
  exists outcome, w'. split_and!; [done| | |].
  - destruct (or_null (env !! "GOOGLE_AI_API_KEY")) as [apiKey|] eqn:Hkey.
    + rewrite (generateImage_configured env args w apiKey Hkey) in Hrun.
      destruct (tryGenerate apiKey args w) as [[returned|thrown] w1] eqn:Htry.
      * injection Hrun as <- _. by eapply tryGenerate_discriminated.
      * injection Hrun as <- _. right. apply onError_failure.
    + unfold generateImage in Hrun. rewrite Hkey in Hrun. run.
      injection Hrun as <- _. right. by split_and!.
  - intros Habsent. rewrite (generateImage_absent env args w Habsent) in Hrun.
    split; [congruence|done].
  - intros apiKey error w1 Hkey Hthrow.
    rewrite (generateImage_configured env args w apiKey Hkey), Hthrow in Hrun.
    injection Hrun as <- _. unfold onError. split.
    + by intros ->.
    + intros -> -> Hsafe. simpl. by rewrite Hsafe.
Qed.

End ImageFacts.

(** ** The two actions together *)

Section Actions.

Context {World : Type} `{Backend World} `{RecentImages.Queries World}.

Lemma generateResponse_chat_missing (env : gmap string string) (args : Chat.Args) (w : World) :
  is_Some (Chat.getApiKeyForProvider env
             (Chat.getProviderFromModel
                (or_else (Chat.model args) "claude-sonnet-4-20250514"))) →
  getAIChatInternal (Chat.chatId args) w = None →
  Chat.generateResponse env args w = (Throw (ErrorObject "Chat not found"), w).
Proof.
  intros [apiKey Hkey] Hchat. unfold Chat.generateResponse. rewrite Hkey. run.
  by rewrite Hchat.
Qed.

Lemma generateResponse_returns (env : gmap string string) (args : Chat.Args) (w : World) :
  Chat.getApiKeyForProvider env
    (Chat.getProviderFromModel (or_else (Chat.model args) "claude-sonnet-4-20250514")) = None
  ∨ is_Some (getAIChatInternal (Chat.chatId args) w) →
  ∃ assistantMessage,
    Chat.generateResponse env args w
      = (Ok assistantMessage, addAssistantMessage (Chat.chatId args) assistantMessage w).
Proof.
  intros Hcase.
  destruct (generateResponse_outcome env args w) as [Hok|(Hkey & Hchat & _)]; [done|].
  destruct Hcase as [Hnone|Hsome].
  - rewrite Hnone in Hkey. by destruct Hkey.
  - rewrite Hchat in Hsome. by destruct Hsome.
Qed.

(** C9, as the code has it. With the backend's internal queries and
    mutations completing, [generateImage] returns a result and
    [getRecentImages] returns its list on every input, and
    [generateResponse] has one way to fail: when the provider's credential
    is configured and the chat is not found it throws [Chat not found] and
    leaves the backend as it was; on every other input it returns the
    message it stored. *)
Theorem actions_return_or_chat_not_found (env : gmap string string)
    (chatArgs : Chat.Args) (imageArgs : Image.Args) (recentArgs : RecentImages.Args)
    (w : World) :
  (∃ outcome w', Image.generateImage env imageArgs w = (Ok outcome, w'))
  ∧ (∃ listed, RecentImages.getRecentImages recentArgs w = (Ok listed, w))
  ∧ (is_Some (Chat.getApiKeyForProvider env
                (Chat.getProviderFromModel
                   (or_else (Chat.model chatArgs) "claude-sonnet-4-20250514"))) →
     getAIChatInternal (Chat.chatId chatArgs) w = None →
     Chat.generateResponse env chatArgs w = (Throw (ErrorObject "Chat not found"), w))
  ∧ (Chat.getApiKeyForProvider env
       (Chat.getProviderFromModel
          (or_else (Chat.model chatArgs) "claude-sonnet-4-20250514")) = None
     ∨ is_Some (getAIChatInternal (Chat.chatId chatArgs) w) →
     ∃ assistantMessage,
       Chat.generateResponse env chatArgs w
         = (Ok assistantMessage,
            addAssistantMessage (Chat.chatId chatArgs) assistantMessage w)).
Proof.
  split_and!.
  - apply generateImage_returns.
  - unfold RecentImages.getRecentImages. run. by eexists.
  - apply generateResponse_chat_missing.
  - apply generateResponse_returns.
Qed.

End Actions.

(** ** Runs on the sample backend *)

Section Scenarios.

Import Sample.

(** A chat of 25 messages: [a3] to [q13] are sent, then the new message;
    the vendor that echoes the ends of what it is sent answers [a3/hello]. *)
Lemma generateResponse_sends_last_20_witness :
  Chat.getApiKeyForProvider anthropicKey
    (Chat.getProviderFromModel (or_else (Chat.model (chatArgs "chat-1"))
                                  "claude-sonnet-4-20250514")) = Some "sk-test"
  ∧ world.(chats) !! "chat-1" = Some longChat
  ∧ (20 < length (messages longChat))%nat
  ∧ ∃ older recent,
      messages longChat = older ++ recent
      ∧ recent = drop 5 (messages longChat)
      ∧ (@ChatSpec.formatStored _ Scenes.echo world <$> recent)
        ++ [@ChatSpec.newMessageOf _ Scenes.echo world "hello" None] = Scenes.longChatSent
      ∧ @Chat.buildFormattedMessages _ Scenes.echo longChat "hello" None world
        = (Ok Scenes.longChatSent, world)
      ∧ @Chat.generateResponse _ Scenes.echo anthropicKey (chatArgs "chat-1") world
        = (Ok "a3/hello", @addAssistantMessage _ Scenes.echo "chat-1" "a3/hello" world).
Proof.
  split_and!; [reflexivity|reflexivity|simpl; lia|].
  destruct (@generateResponse_sends_last_20 _ Scenes.echo anthropicKey
              (chatArgs "chat-1") world "sk-test" longChat)
    as (older & recent & Hsplit & Hlen & Hsent & _ & Hclaude & _);
    [reflexivity|reflexivity|simpl; lia|].
  assert (Hrecent : recent = drop 5 (messages longChat)).
  { rewrite <- (take_drop 5 (messages longChat)) in Hsplit.
    symmetry in Hsplit. by apply app_inj_2 in Hsplit as [_ ->]. }
  exists older, recent. rewrite Hrecent in Hsent, Hclaude |- *.
  split_and!; [by rewrite <- Hrecent|done|reflexivity|exact Hsent|].
  apply (Hclaude eq_refl "a3/hello"). reflexivity.
Defined.

Lemma generateResponse_not_configured_witness :
  noKeys !! "ANTHROPIC_API_KEY" = None
  ∧ (@Chat.generateResponse _ (backend (Ok "hi")) noKeys (chatArgs "chat-2") world).1
    = Ok (Chat.getNotConfiguredMessage Chat.anthropic)
  ∧ ((@Chat.generateResponse _ (backend (Ok "hi")) noKeys (chatArgs "chat-2") world).2).(chats)
       !! "chat-2"
    = Some (appendAssistant (Chat.getNotConfiguredMessage Chat.anthropic) shortChat)
  ∧ (@Chat.generateResponse _ (backend (Ok "hi")) noKeys (chatArgs "chat-2")
       (@Chat.generateResponse _ (backend (Ok "hi")) noKeys (chatArgs "chat-2") world).2).1
    = Ok (Chat.getNotConfiguredMessage Chat.anthropic).
Proof.
  destruct (@generateResponse_not_configured _ (backend (Ok "hi")) noKeys
              (chatArgs "chat-2") (chatArgs "chat-2") world)
    as (Hrun & _ & _ & Hagain); [reflexivity|].
  split_and!; [reflexivity| | |].
  - by rewrite Hrun.
  - rewrite Hrun. reflexivity.
  - by rewrite (Hagain eq_refl).
Defined.

(** The vendor answers the turn on the short chat with [529 overloaded]. *)
Lemma generateResponse_provider_error_witness :
  Chat.getApiKeyForProvider anthropicKey Chat.anthropic = Some "sk-test"
  ∧ world.(chats) !! "chat-2" = Some shortChat
  ∧ @Chat.callProvider _ (backend (Throw overloadedError)) Chat.anthropic "sk-test"
      "claude-sonnet-4-20250514" (Chat.turnSystemPrompt anthropicKey (chatArgs "chat-2") shortChat)
      [ {| role := user; content := Plain "q1" |};
        {| role := assistant; content := Plain "a1" |};
        {| role := user; content := Plain "hello" |} ]
    = Throw overloadedError
  ∧ (@Chat.generateResponse _ (backend (Throw overloadedError)) anthropicKey
       (chatArgs "chat-2") world).1
    = Ok "**Error from anthropic:** 529 overloaded"
  ∧ ((@Chat.generateResponse _ (backend (Throw overloadedError)) anthropicKey
        (chatArgs "chat-2") world).2).(chats) !! "chat-2"
    = Some (appendAssistant "**Error from anthropic:** 529 overloaded" shortChat).
Proof.
  destruct (@generateResponse_provider_error _ (backend (Throw overloadedError)) anthropicKey
              (chatArgs "chat-2") world "sk-test" shortChat
              [ {| role := user; content := Plain "q1" |};
                {| role := assistant; content := Plain "a1" |};
                {| role := user; content := Plain "hello" |} ]
              overloadedError)
    as (assistantMessage & Hrun & -> & _); [reflexivity..|].
  split_and!; [reflexivity..| |]; rewrite Hrun; reflexivity.
Defined.

Lemma generateImage_not_configured_witness :
  noKeys !! "GOOGLE_AI_API_KEY" = None
  ∧ ∃ outcome text,
      @Image.generateImage _ (backend (Ok "aGk=")) noKeys imageArgs world = (Ok outcome, world)
      ∧ Image.success outcome = false
      ∧ Image.storageId outcome = None
      ∧ Image.error outcome = Some text
      ∧ includes "not configured" text = true.
Proof.
  split; [reflexivity|].
  apply (@generateImage_not_configured _ (backend (Ok "aGk=")) noKeys imageArgs world).
  reflexivity.
Defined.

(** A failure that speaks of a block and of neither quota nor rate gives
    the safety-filter message; no credential gives the not-configured one. *)
Lemma generateImage_friendly_witness :
  (googleKey !! "GOOGLE_AI_API_KEY" = Some "g-test"
   ∧ @Image.tryGenerate _ (backend (Throw policyError)) "g-test" imageArgs world
     = (Throw policyError, world)
   ∧ includes "blocked" (errorMessageOf policyError) = true
   ∧ (@Image.generateImage _ (backend (Throw policyError)) googleKey imageArgs world).1
     = Ok (Image.failure Image.BLOCKED))
  ∧ (noKeys !! "GOOGLE_AI_API_KEY" = None
     ∧ (@Image.generateImage _ (backend (Ok "aGk=")) noKeys imageArgs world).1
       = Ok (Image.failure Image.NOT_CONFIGURED)).
Proof.
  split; (split_and!; [reflexivity..|]).
  - destruct (@generateImage_friendly _ (backend (Throw policyError)) googleKey imageArgs world)
      as (outcome & w' & Hrun & _ & _ & Hmap).
    destruct (Hmap "g-test" policyError world) as [_ Hblocked]; [reflexivity..|].
    rewrite Hrun. simpl. f_equal. apply Hblocked; reflexivity.
  - destruct (@generateImage_friendly _ (backend (Ok "aGk=")) noKeys imageArgs world)
      as (outcome & w' & Hrun & _ & Habsent & _).
    rewrite Hrun. simpl. f_equal. apply Habsent. reflexivity.
Defined.

(** An unknown chat with the credential configured throws; a stored chat,
    and any chat without the credential, gets a message. *)
Lemma actions_return_or_chat_not_found_witness :
  (is_Some (Chat.getApiKeyForProvider anthropicKey Chat.anthropic)
   ∧ world.(chats) !! "chat-9" = None
   ∧ @Chat.generateResponse _ (backend (Ok "hi")) anthropicKey (chatArgs "chat-9") world
     = (Throw (ErrorObject "Chat not found"), world))
  ∧ (is_Some (world.(chats) !! "chat-2")
     ∧ ∃ assistantMessage,
         @Chat.generateResponse _ (backend (Ok "hi")) anthropicKey (chatArgs "chat-2") world
         = (Ok assistantMessage,
            @addAssistantMessage _ (backend (Ok "hi")) "chat-2" assistantMessage world))
  ∧ (Chat.getApiKeyForProvider noKeys Chat.anthropic = None
     ∧ ∃ assistantMessage,
         @Chat.generateResponse _ (backend (Ok "hi")) noKeys (chatArgs "chat-9") world
         = (Ok assistantMessage,
            @addAssistantMessage _ (backend (Ok "hi")) "chat-9" assistantMessage world)).
Proof.
  destruct (@actions_return_or_chat_not_found _ (backend (Ok "hi")) Scenes.queries anthropicKey
              (chatArgs "chat-9") imageArgs
              {| RecentImages.sessionId := "session-1"; RecentImages.limit := None |} world)
    as (_ & _ & Hthrows & _).
  destruct (@actions_return_or_chat_not_found _ (backend (Ok "hi")) Scenes.queries anthropicKey
              (chatArgs "chat-2") imageArgs
              {| RecentImages.sessionId := "session-1"; RecentImages.limit := None |} world)
    as (_ & _ & _ & Hstored).
  destruct (@actions_return_or_chat_not_found _ (backend (Ok "hi")) Scenes.queries noKeys
              (chatArgs "chat-9") imageArgs
              {| RecentImages.sessionId := "session-1"; RecentImages.limit := None |} world)
    as (_ & _ & _ & Hnokey).
  split; [|split].
  - split; [by eexists|]. split; [reflexivity|]. apply Hthrows; [by eexists|reflexivity].
  - split; [by eexists|]. apply Hstored. right. by eexists.
  - split; [reflexivity|]. apply Hnokey. left. reflexivity.
Defined.

(** C7 as stated fails: the error text mentions [safety] and [blocked], and
    the outcome is the rate-limit message, because [generated] contains
    [rate]. *)
Lemma generateImage_safety_text_rate_limited :
  @Image.tryGenerate _ (backend (Throw safetyError)) "g-test" imageArgs world
    = (Throw safetyError, world)
  ∧ includes "safety" (errorMessageOf safetyError) = true
  ∧ includes "blocked" (errorMessageOf safetyError) = true
  ∧ @Image.generateImage _ (backend (Throw safetyError)) googleKey imageArgs world
    = (Ok (Image.failure Image.RATE_LIMIT), world)
  ∧ Image.failure Image.RATE_LIMIT ≠ Image.failure Image.BLOCKED.
Proof. split_and!; [reflexivity..|discriminate]. Qed.

(** C9 as stated fails: with the credential configured and an unknown chat
    id, [generateResponse] throws. *)
Lemma generateResponse_throws_chat_not_found :
  Chat.getApiKeyForProvider anthropicKey Chat.anthropic = Some "sk-test"
  ∧ world.(chats) !! "chat-9" = None
  ∧ @Chat.generateResponse _ (backend (Ok "hi")) anthropicKey (chatArgs "chat-9") world
    = (Throw (ErrorObject "Chat not found"), world)
  ∧ ¬ ∃ assistantMessage w',
        @Chat.generateResponse _ (backend (Ok "hi")) anthropicKey (chatArgs "chat-9") world
        = (Ok assistantMessage, w').
Proof.
  split_and!; [reflexivity..|].
  intros (assistantMessage & w' & Hrun). discriminate Hrun.
Qed.

End Scenarios.

(** * Further properties *)

(** ** Theme store: toggling, resolution and persistence *)

Section ThemeMore.

Import Theme ThemeEffects.

(** X1. [toggleTheme] yields a theme from every state, never [undefined]:
    a state that is none of the four themes is taken to [dark]. *)
Theorem toggleTheme_recovers (theme : string) :
  ∃ next, toggleTheme theme = Some next
          ∧ isTheme next = true
          ∧ (isTheme theme = false → next = "dark").
Proof.
  unfold toggleTheme, themes, indexOf.
  destruct ("dark" =? theme)%string eqn:H1.
  { apply String.eqb_eq in H1 as <-. by exists "light". }
  destruct ("light" =? theme)%string eqn:H2.
  { apply String.eqb_eq in H2 as <-. by exists "tan". }
  destruct ("tan" =? theme)%string eqn:H3.
  { apply String.eqb_eq in H3 as <-. by exists "cloud". }
  destruct ("cloud" =? theme)%string eqn:H4.
  { apply String.eqb_eq in H4 as <-. by exists "dark". }
  by exists "dark".
Qed.

Lemma toggleTheme_recovers_witness :
  isTheme "sepia" = false
  ∧ ∃ next, toggleTheme "sepia" = Some next ∧ isTheme next = true ∧ next = "dark".
Proof.
  split; [reflexivity|].
  destruct (toggleTheme_recovers "sepia") as (next & Hnext & Hthemed & Hdark).
  exists next. split_and!; [done..|]. apply Hdark. reflexivity.
Defined.

(** X2. From each of the four themes, each of the four is reached by at
    most three presses of the toggle. *)
Theorem toggleTheme_reaches (from to : string) :
  isTheme from = true → isTheme to = true →
  ∃ presses, (presses ≤ 3)%nat ∧ toggleTimes presses from = Some to.
Proof.
  rewrite !isTheme_cases.
  intros [ -> | [ -> | [ -> | -> ]]] [ -> | [ -> | [ -> | -> ]]];
    first [ by exists 0%nat; split; [lia|]
          | by exists 1%nat; split; [lia|]
          | by exists 2%nat; split; [lia|]
          | by exists 3%nat; split; [lia|] ].
Qed.

Lemma toggleTheme_reaches_witness :
  isTheme "tan" = true ∧ isTheme "light" = true
  ∧ ∃ presses, (presses ≤ 3)%nat ∧ toggleTimes presses "tan" = Some "light".
Proof.
  split_and!; [reflexivity..|].
  apply (toggleTheme_reaches "tan" "light"); reflexivity.
Defined.

(** X3. The order of resolution: a [data-theme] attribute that is a theme
    is the initial theme whatever is stored and whatever the default; with
    no such attribute, a stored theme is the initial theme whatever the
    default. *)
Theorem getInitialTheme_precedence (b : Browser) (defaultTheme found : string) :
  isTheme found = true →
  (document_dataTheme b = Some (Some found) → getInitialTheme b defaultTheme = found)
  ∧ ((∀ v, document_dataTheme b = Some (Some v) → isTheme v = false) →
     localStorage_blogTheme b = Ok (Some found) →
     getInitialTheme b defaultTheme = found).
Proof.
  intros Hfound.
  assert (Hvalid : validTheme (Some found) = Some found).
  { unfold validTheme. simpl. rewrite Hfound.
    apply isTheme_cases in Hfound as [ -> | [ -> | [ -> | -> ]]]; reflexivity. }
  split.
  - intros Hdoc. unfold getInitialTheme. rewrite Hdoc. simpl. by rewrite Hvalid.
  - intros Hdoc Hsto. unfold getInitialTheme.
    assert (Hnone : document_dataTheme b ≫= validTheme = None).
    { destruct (document_dataTheme b) as [attr|]; [|done]. simpl.
      apply validTheme_outside. intros s ->. by apply Hdoc. }
    by rewrite Hnone, Hsto, Hvalid.
Qed.

Lemma getInitialTheme_precedence_witness :
  getInitialTheme {| document_dataTheme := Some (Some "dark");
                     localStorage_blogTheme := Ok (Some "cloud") |} "tan" = "dark"
  ∧ getInitialTheme {| document_dataTheme := Some None;
                       localStorage_blogTheme := Ok (Some "cloud") |} "tan" = "cloud".
Proof.
  split.
  - apply (proj1 (getInitialTheme_precedence
                    {| document_dataTheme := Some (Some "dark");
                       localStorage_blogTheme := Ok (Some "cloud") |} "tan" "dark" eq_refl)).
    reflexivity.
  - apply (proj2 (getInitialTheme_precedence
                    {| document_dataTheme := Some None;
                       localStorage_blogTheme := Ok (Some "cloud") |} "tan" "cloud" eq_refl)).
    + intros v Hv. discriminate Hv.
    + reflexivity.
Defined.

(** X4. What the effect stores is what the next page load resolves: after
    the effect has run for a theme on a page whose storage works, a page
    load that finds no theme in the [data-theme] attribute starts with that
    theme, whatever the default. *)
Theorem applyTheme_reload (theme defaultTheme : string) (page : Page)
    (attribute : option (option string)) (stored : option string) :
  isTheme theme = true →
  localStorage_blogTheme (browser page) = Ok stored →
  (∀ v, attribute = Some (Some v) → isTheme v = false) →
  (applyTheme theme page).1 = Ok tt
  ∧ getInitialTheme (reload attribute (applyTheme theme page).2) defaultTheme = theme.
Proof.
  intros Htheme Hstorage Hattr. unfold applyTheme. simpl. rewrite Hstorage.
  split; [done|].
  apply (proj2 (getInitialTheme_precedence _ defaultTheme theme Htheme)).
  - done.
  - unfold updateMetaThemeColor. simpl. by destruct (meta_themeColor page).
Qed.

Lemma applyTheme_reload_witness :
  getInitialTheme
    (reload None
       (applyTheme "cloud"
          {| browser := {| document_dataTheme := Some (Some "tan");
                           localStorage_blogTheme := Ok (Some "tan") |};
             meta_themeColor := Some "#faf8f5" |}).2) "tan" = "cloud".
Proof.
  apply (applyTheme_reload "cloud" "tan"
           {| browser := {| document_dataTheme := Some (Some "tan");
                            localStorage_blogTheme := Ok (Some "tan") |};
              meta_themeColor := Some "#faf8f5" |} None (Some "tan")).
  - reflexivity.
  - reflexivity.
  - intros v Hv. discriminate Hv.
Defined.

(** X5. The effect always sets the [data-theme] attribute to the theme,
    also when the storage throws; and on a page that has the [theme-color]
    meta tag and a working storage, the tag's content becomes the colour of
    the theme, which every one of the four themes has. *)
Theorem applyTheme_page (theme : string) (page : Page) :
  isTheme theme = true →
  document_dataTheme (browser (applyTheme theme page).2) = Some (Some theme)
  ∧ ∃ colour,
      themeColors !! theme = Some colour
      ∧ (is_Some (meta_themeColor page) →
         (∀ error, localStorage_blogTheme (browser page) ≠ Throw error) →
         meta_themeColor (applyTheme theme page).2 = Some colour).
Proof.
  intros Htheme. split.
  - unfold applyTheme. simpl.
    destruct (localStorage_blogTheme (browser page)); [|done].
    unfold updateMetaThemeColor. simpl. by destruct (meta_themeColor page).
  - assert (Hcolour : ∃ colour, themeColors !! theme = Some colour).
    { apply isTheme_cases in Htheme as [ -> | [ -> | [ -> | -> ]]]; by eexists. }
    destruct Hcolour as [colour Hcolour]. exists colour. split; [done|].
    intros [old Hold] Hworks. unfold applyTheme. simpl.
    destruct (localStorage_blogTheme (browser page)) as [stored|error].
    + unfold updateMetaThemeColor. simpl. rewrite Hold. simpl. by rewrite Hcolour.
    + by destruct (Hworks error).
Qed.

Lemma applyTheme_page_witness :
  meta_themeColor
    (applyTheme "dark"
       {| browser := {| document_dataTheme := Some (Some "tan");
                        localStorage_blogTheme := Ok None |};
          meta_themeColor := Some "#faf8f5" |}).2 = Some "#111111".
Proof.
  destruct (applyTheme_page "dark"
              {| browser := {| document_dataTheme := Some (Some "tan");
                               localStorage_blogTheme := Ok None |};
                 meta_themeColor := Some "#faf8f5" |} eq_refl)
    as (_ & colour & Hcolour & Hmeta).
  rewrite Hmeta; [|by eexists|intros error Herror; discriminate Herror].
  rewrite <- Hcolour. reflexivity.
Defined.

(** X6. The diff block's theme type is defined for each of the site's four
    themes without the fallback: it is [dark] for [dark] and [light] for
    the other three. *)
Theorem themeType_covers (theme : string) :
  isTheme theme = true →
  DiffCodeBlock.THEME_MAP !! theme = Some (DiffCodeBlock.themeType theme)
  ∧ (theme = "dark" → DiffCodeBlock.themeType theme = "dark")
  ∧ (theme ≠ "dark" → DiffCodeBlock.themeType theme = "light").
Proof.
  rewrite isTheme_cases. intros [ -> | [ -> | [ -> | -> ]]]; by split_and!.
Qed.

Lemma themeType_covers_witness :
  DiffCodeBlock.themeType "tan" = "light" ∧ DiffCodeBlock.themeType "dark" = "dark".
Proof.
  split.
  - apply (themeType_covers "tan" eq_refl). discriminate.
  - apply (proj1 (proj2 (themeType_covers "dark" eq_refl))). reflexivity.
Defined.

End ThemeMore.

(** ** System prompt *)

Section PromptFacts.

Import Chat.

Lemma trimIsTruthy_nonempty (p : string) : trimIsTruthy p = true → p ≠ "".
Proof. by destruct p. Qed.

Lemma join_cons_nonempty (sep p : string) (rest : list string) :
  p ≠ "" → join sep (p :: rest) ≠ "".
Proof. destruct p as [|c p]; [done|]. by destruct rest. Qed.

Lemma or_else_nonempty (o : option string) (d : string) : d ≠ "" → or_else o d ≠ "".
Proof.
  intros Hd. unfold or_else. destruct o as [s|]; simpl; [|done].
  destruct (s =? "")%string eqn:Hs; simpl; [done|]. by apply String.eqb_neq.
Qed.

Lemma filter_head_holds {A} (P : A → bool) (l : list A) (x : A) (rest : list A) :
  List.filter P l = x :: rest → P x = true.
Proof.
  intros Hf. assert (Hin : In x (List.filter P l)) by (rewrite Hf; by left).
  by apply filter_In in Hin as [_ ?].
Qed.

(** X7. The system prompt is never empty, whatever the environment sets. *)
Theorem buildSystemPrompt_nonempty (env : gmap string string) :
  buildSystemPrompt env ≠ "".
Proof.
  unfold buildSystemPrompt.
  destruct (List.filter trimIsTruthy _) as [|p rest] eqn:Hparts; simpl.
  - by apply or_else_nonempty.
  - apply join_cons_nonempty, trimIsTruthy_nonempty.
    by apply filter_head_holds in Hparts.
Qed.

(** X8. The split prompt takes over from the single one: when one of the
    three split variables holds more than white space, the prompt does not
    depend on [CLAUDE_SYSTEM_PROMPT]; when none does, the prompt is
    [CLAUDE_SYSTEM_PROMPT] if that is set and not empty, and the built-in
    default otherwise. *)
Theorem buildSystemPrompt_split_first (env : gmap string string) (whole : string) :
  (trimIsTruthy (or_else (env !! "CLAUDE_PROMPT_STYLE") "") = true
   ∨ trimIsTruthy (or_else (env !! "CLAUDE_PROMPT_COMMUNITY") "") = true
   ∨ trimIsTruthy (or_else (env !! "CLAUDE_PROMPT_RULES") "") = true →
   buildSystemPrompt (<["CLAUDE_SYSTEM_PROMPT" := whole]> env) = buildSystemPrompt env
   ∧ buildSystemPrompt (delete "CLAUDE_SYSTEM_PROMPT" env) = buildSystemPrompt env)
  ∧ (trimIsTruthy (or_else (env !! "CLAUDE_PROMPT_STYLE") "") = false →
     trimIsTruthy (or_else (env !! "CLAUDE_PROMPT_COMMUNITY") "") = false →
     trimIsTruthy (or_else (env !! "CLAUDE_PROMPT_RULES") "") = false →
     buildSystemPrompt env
       = match env !! "CLAUDE_SYSTEM_PROMPT" with
         | Some prompt => if (prompt =? "")%string then DEFAULT_SYSTEM_PROMPT else prompt
         | None => DEFAULT_SYSTEM_PROMPT
         end).
Proof.
  split.
  - intros Hsome. unfold buildSystemPrompt.
    rewrite !lookup_insert_ne, !lookup_delete_ne by done.
    destruct (List.filter trimIsTruthy _) as [|p rest] eqn:Hparts; [|done].
    exfalso. simpl in Hparts.
    destruct Hsome as [Hp|[Hp|Hp]]; rewrite Hp in Hparts;
      repeat match type of Hparts with
             | context [if ?c then _ else _] => destruct c
             end; discriminate Hparts.
  - intros H1 H2 H3. unfold buildSystemPrompt. simpl. rewrite H1, H2, H3. simpl.
    unfold or_else. destruct (env !! "CLAUDE_SYSTEM_PROMPT") as [prompt|]; simpl; [|done].
    by destruct (prompt =? "")%string.
Qed.

Lemma buildSystemPrompt_split_first_witness :
  buildSystemPrompt {["CLAUDE_SYSTEM_PROMPT" := "unused"; "CLAUDE_PROMPT_RULES" := "Be brief."]}
    = "Be brief."
  ∧ buildSystemPrompt {["CLAUDE_PROMPT_RULES" := "  "; "CLAUDE_SYSTEM_PROMPT" := "Whole."]}
    = "Whole."
  ∧ buildSystemPrompt
      {["CLAUDE_PROMPT_STYLE" := ChatSpec.nbsp; "CLAUDE_SYSTEM_PROMPT" := "Whole."]}
    = "Whole.".
Proof.
  split; [|split]; [| |
    destruct (buildSystemPrompt_split_first
                {["CLAUDE_PROMPT_STYLE" := ChatSpec.nbsp; "CLAUDE_SYSTEM_PROMPT" := "Whole."]} "")
      as [_ Hfall]; rewrite Hfall; reflexivity ].
  - destruct (buildSystemPrompt_split_first {["CLAUDE_PROMPT_RULES" := "Be brief."]} "unused")
      as [Hover _].
    destruct Hover as [-> _]; [right; right; reflexivity|]. reflexivity.
  - destruct (buildSystemPrompt_split_first
                {["CLAUDE_PROMPT_RULES" := "  "; "CLAUDE_SYSTEM_PROMPT" := "Whole."]} "")
      as [_ Hfall].
    rewrite Hfall; reflexivity.
Defined.

(** X9. The prompt of a turn begins with the configured system prompt.
    A page context passed with the request is appended to it and the chat's
    own page context is then not looked at; without either, the prompt is
    the configured one. *)
Theorem turnSystemPrompt_context (env : gmap string string) (args : Args) (chat other : Chat) :
  startsWith (buildSystemPrompt env) (turnSystemPrompt env args chat) = true
  ∧ (∀ page, args_pageContext args = Some page → page ≠ "" →
       turnSystemPrompt env args other = turnSystemPrompt env args chat
       ∧ ∃ between, turnSystemPrompt env args chat
                    = buildSystemPrompt env +:+ between +:+ page)
  ∧ (truthy (args_pageContext args) = false → truthy (pageContext chat) = false →
     turnSystemPrompt env args chat = buildSystemPrompt env).
Proof.
  split_and!.
  - unfold turnSystemPrompt.
    destruct (truthy (if truthy (args_pageContext args)
                      then args_pageContext args else pageContext chat)).
    + apply startsWith_app.
    + rewrite <- (append_empty_r (buildSystemPrompt env)) at 2. apply startsWith_app.
  - intros page Hpage Hne. unfold turnSystemPrompt.
    assert (Ht : truthy (args_pageContext args) = true).
    { rewrite Hpage. simpl. by apply negb_true_iff, String.eqb_neq. }
    rewrite Ht, Ht, Hpage. simpl. split; [done|].
    exists (nl +:+ nl +:+ "---" +:+ nl +:+ nl
            +:+ "The user is viewing a page with the following content. Use this as context for your responses:"
            +:+ nl +:+ nl).
    f_equal.
  - intros Hargs Hchat. unfold turnSystemPrompt. by rewrite Hargs, Hchat.
Qed.

Lemma turnSystemPrompt_context_witness :
  ∃ between,
    turnSystemPrompt ∅
      {| chatId := "chat-1"; userMessage := "hello"; model := None;
         args_pageContext := Some "About this site"; attachments := None |}
      {| messages := []; pageContext := Some "Stored context" |}
    = buildSystemPrompt ∅ +:+ between +:+ "About this site".
Proof.
  apply (proj1 (proj2 (turnSystemPrompt_context ∅
           {| chatId := "chat-1"; userMessage := "hello"; model := None;
              args_pageContext := Some "About this site"; attachments := None |}
           {| messages := []; pageContext := Some "Stored context" |}
           {| messages := []; pageContext := None |})) "About this site" eq_refl).
  discriminate.
Defined.

End PromptFacts.

(** ** Attachments and link scraping *)

Section AttachmentFacts.

Import Chat.

Context {World : Type} `{Backend World}.

Lemma fmap_id_on {A} (f : A → A) (l : list A) : (∀ x, f x = x) → f <$> l = l.
Proof. intros Hf. induction l as [|x l IH]; [done|]. by rewrite fmap_cons, Hf, IH. Qed.

Lemma scrapeAttachment_unscraped (env : gmap string string) (attachment : Attachment) :
  (∀ url, scrapeUrl env url = None) → scrapeAttachment env attachment = attachment.
Proof.
  intros Hnone. unfold scrapeAttachment. rewrite Hnone.
  by destruct (_ && _).
Qed.

Lemma processAttachments_unscraped (env : gmap string string)
    (atts : option (list Attachment)) :
  (∀ url, scrapeUrl env url = None) → processAttachments env atts = atts.
Proof.
  intros Hnone. destruct atts as [atts|]; [|done]. simpl.
  destruct (0 <? Z.of_nat (length atts)); [|done].
  f_equal. apply fmap_id_on. intros x. by apply scrapeAttachment_unscraped.
Qed.

(** X10. Link scraping that cannot run or does not succeed changes
    nothing: without [FIRECRAWL_API_KEY], or when every scrape throws or
    reports no success, the attachments go on as they came. *)
Theorem processAttachments_without_scrape (env : gmap string string)
    (atts : option (list Attachment)) :
  (env !! "FIRECRAWL_API_KEY" = None → processAttachments env atts = atts)
  ∧ ((∀ apiKey url, match firecrawl_scrapeUrl apiKey url with
                    | Ok result => sr_success result = false
                    | Throw _ => True
                    end) →
     processAttachments env atts = atts).
Proof.
  split.
  - intros Hkey. apply processAttachments_unscraped. intros url.
    unfold scrapeUrl. by rewrite Hkey.
  - intros Hfail. apply processAttachments_unscraped. intros url.
    unfold scrapeUrl. destruct (or_null (env !! "FIRECRAWL_API_KEY")) as [apiKey|]; [|done].
    specialize (Hfail apiKey url).
    destruct (firecrawl_scrapeUrl apiKey url) as [result|error]; [|done].
    by rewrite Hfail.
Qed.

(** What scraping may change of an attachment. *)
Lemma scrapeAttachment_keeps (env : gmap string string) (attachment : Attachment) :
  att_type (scrapeAttachment env attachment) = att_type attachment
  ∧ att_storageId (scrapeAttachment env attachment) = att_storageId attachment
  ∧ att_url (scrapeAttachment env attachment) = att_url attachment
  ∧ (att_type attachment = image ∨ truthy (att_scrapedContent attachment) = true
     ∨ truthy (att_url attachment) = false →
     scrapeAttachment env attachment = attachment).
Proof.
  unfold scrapeAttachment.
  destruct (bool_decide (att_type attachment = link)) eqn:Hlink;
    destruct (truthy (att_url attachment)) eqn:Hurl;
    destruct (truthy (att_scrapedContent attachment)) eqn:Hscraped; simpl;
    try (by split_and!).
  destruct (scrapeUrl env _) as [scraped|]; [|by split_and!].
  split_and!; [done..|]. apply bool_decide_eq_true in Hlink.
  intros [Himage|[?|?]]; [|done..]. by rewrite Hlink in Himage.
Qed.

(** X11. Scraping keeps the attachments in number and order, and of each
    one its type, stored file and URL; an image, a link that already carries
    scraped content and a link without a URL are left exactly as they are. *)
Theorem processAttachments_keeps (env : gmap string string) (atts : list Attachment) :
  ∃ processed,
    processAttachments env (Some atts) = Some processed
    ∧ Forall2 (fun before after =>
                 att_type after = att_type before
                 ∧ att_storageId after = att_storageId before
                 ∧ att_url after = att_url before
                 ∧ (att_type before = image ∨ truthy (att_scrapedContent before) = true
                    ∨ truthy (att_url before) = false →
                    after = before))
              atts processed.
Proof.
  simpl. destruct (0 <? Z.of_nat (length atts)).
  - eexists. split; [done|]. apply Forall2_fmap_r, Forall_Forall2_diag, Forall_true.
    intros attachment. apply scrapeAttachment_keeps.
  - exists atts. split; [done|]. apply Forall_Forall2_diag, Forall_true.
    intros attachment. by split_and!.
Qed.

Lemma truthy_Some_iff (s : string) : truthy (Some s) = true ↔ s ≠ "".
Proof.
  simpl. rewrite negb_true_iff. split; [apply String.eqb_neq|]. apply String.eqb_neq.
Qed.

(** The text block of a link: its URL, then the scraped content under a
    heading that names the URL. *)
Lemma pushAttachment_link (w : World) (parts : list ContentBlock) (attachment : Attachment) :
  att_type attachment = link →
  pushAttachment parts attachment w =
    let linkText :=
      or_else (att_url attachment) "" +:+
      (if truthy (att_scrapedContent attachment)
       then nl +:+ nl +:+ "Content from " +:+ template (att_url attachment) +:+ ":" +:+ nl
            +:+ default "" (att_scrapedContent attachment)
       else "") in
    (Ok (if truthy (Some linkText) then parts ++ [TextBlock linkText] else parts), w).
Proof.
  intros Hlink. unfold pushAttachment. rewrite Hlink. simpl. run.
  destruct (truthy (att_scrapedContent attachment)).
  - by match goal with |- context [if ?c then _ else _] => destruct c end.
  - rewrite append_empty_r.
    by match goal with |- context [if ?c then _ else _] => destruct c end.
Qed.

Lemma pushAttachment_link_scraped (w : World) (parts : list ContentBlock)
    (attachment : Attachment) (url scraped : string) :
  att_type attachment = link → url ≠ "" → scraped ≠ "" →
  att_url attachment = Some url → att_scrapedContent attachment = Some scraped →
  pushAttachment parts attachment w
    = (Ok (parts ++ [TextBlock (url +:+ nl +:+ nl +:+ "Content from " +:+ url +:+ ":" +:+ nl
                                 +:+ scraped)]), w).
Proof.
  intros Hlink Hurl Hscraped Hu Hs.
  apply truthy_Some_iff in Hurl. apply truthy_Some_iff in Hscraped.
  rewrite (pushAttachment_link w parts attachment Hlink), Hu, Hs.
  cbv zeta. unfold or_else. rewrite Hurl, Hscraped. cbn [default template].
  destruct url as [|c url]; [done|]. reflexivity.
Qed.

(** X12. A link as the provider reads it. With a URL and scraped content
    the link is one text block: the URL, a blank line, [Content from <URL>:]
    and the content. With a URL alone the block is the URL. With neither,
    the link adds nothing. With content and no URL the heading reads
    [Content from undefined:]. *)
Theorem pushAttachment_link_text (w : World) (parts : list ContentBlock)
    (attachment : Attachment) (url scraped : string) :
  att_type attachment = link → url ≠ "" → scraped ≠ "" →
  (att_url attachment = Some url → att_scrapedContent attachment = Some scraped →
   pushAttachment parts attachment w
     = (Ok (parts ++ [TextBlock (url +:+ nl +:+ nl +:+ "Content from " +:+ url +:+ ":" +:+ nl
                                  +:+ scraped)]), w))
  ∧ (att_url attachment = Some url → truthy (att_scrapedContent attachment) = false →
     pushAttachment parts attachment w = (Ok (parts ++ [TextBlock url]), w))
  ∧ (truthy (att_url attachment) = false → truthy (att_scrapedContent attachment) = false →
     pushAttachment parts attachment w = (Ok parts, w))
  ∧ (att_url attachment = None → att_scrapedContent attachment = Some scraped →
     pushAttachment parts attachment w
       = (Ok (parts ++ [TextBlock (nl +:+ nl +:+ "Content from undefined:" +:+ nl +:+ scraped)]),
          w)).
Proof.
  intros Hlink Hurl Hscraped.
  apply truthy_Some_iff in Hurl as Hurl'. apply truthy_Some_iff in Hscraped as Hscraped'.
  rewrite (pushAttachment_link w parts attachment Hlink). split_and!.
  - intros Hu Hs. rewrite <- (pushAttachment_link w parts attachment Hlink).
    by apply pushAttachment_link_scraped.
  - intros -> Hnone. cbv zeta. unfold or_else. rewrite Hurl', Hnone. cbn [default].
    unfold id. rewrite append_empty_r. by rewrite Hurl'.
  - intros Hnourl Hnone. cbv zeta. unfold or_else. by rewrite Hnourl, Hnone.
  - intros -> ->. cbv zeta. unfold or_else. rewrite Hscraped'. reflexivity.
Qed.

(** X13. An image attachment whose stored file resolves to no URL adds
    nothing: a new message with text and only such images is sent as the
    plain text. *)
Theorem newUserMessage_unresolved_images (w : World) (userMessage : string)
    (atts : list Attachment) :
  userMessage ≠ "" →
  Forall (fun attachment =>
            att_type attachment = image
            ∧ ∀ id, att_storageId attachment = Some id →
                    truthy (getStorageUrlInternal id w) = false) atts →
  newUserMessage userMessage (Some atts) w
    = (Ok {| role := user; content := Plain userMessage |}, w).
Proof.
  intros Htext Hatts.
  assert (Hloop : ∀ parts, for_of atts pushAttachment parts w = (Ok parts, w)).
  { induction Hatts as [|attachment atts [Himage Hurl] _ IH]; intros parts; [done|].
    simpl. unfold bind.
    assert (Hstep : pushAttachment parts attachment w = (Ok parts, w)).
    { unfold pushAttachment. rewrite Himage. simpl. run.
      destruct (att_storageId attachment) as [id|] eqn:Hid; simpl; [|done].
      destruct (negb (id =? "")%string); [|done].
      by rewrite (Hurl id eq_refl). }
    by rewrite Hstep. }
  unfold newUserMessage. run. apply truthy_Some_iff in Htext. rewrite Htext.
  destruct (0 <? Z.of_nat (length atts)); [by rewrite Hloop|done].
Qed.

(** X14. A link that is scraped with success reaches the provider with
    the page's text: the attachment takes the scraped markdown, and its text
    block carries the URL and the markdown. *)
Theorem scraped_link_reaches_message (env : gmap string string) (w : World)
    (parts : list ContentBlock) (attachment : Attachment)
    (apiKey url markdown : string) (title : option string) :
  att_type attachment = link → att_url attachment = Some url → url ≠ "" →
  truthy (att_scrapedContent attachment) = false →
  env !! "FIRECRAWL_API_KEY" = Some apiKey → apiKey ≠ "" →
  firecrawl_scrapeUrl apiKey url
    = Ok {| sr_success := true; sr_markdown := Some markdown; sr_metadata_title := title |} →
  markdown ≠ "" →
  att_scrapedContent (scrapeAttachment env attachment) = Some markdown
  ∧ pushAttachment parts (scrapeAttachment env attachment) w
    = (Ok (parts ++ [TextBlock (url +:+ nl +:+ nl +:+ "Content from " +:+ url +:+ ":" +:+ nl
                                 +:+ markdown)]), w).
Proof.
  intros Hlink Hurl Hne Hnone Hkey Hkne Hscrape Hmd.
  apply truthy_Some_iff in Hne as Hne'. apply truthy_Some_iff in Hkne as Hkne'.
  apply truthy_Some_iff in Hmd as Hmd'.
  assert (Hscraped : att_scrapedContent (scrapeAttachment env attachment) = Some markdown
                     ∧ att_type (scrapeAttachment env attachment) = link
                     ∧ att_url (scrapeAttachment env attachment) = Some url).
  { unfold scrapeAttachment, scrapeUrl. rewrite Hlink, Hurl, Hne', Hnone, Hkey.
    unfold or_null. rewrite Hkne'. cbn [default bool_decide decide_rel]. simpl.
    rewrite Hscrape. cbn [sr_success sr_markdown]. rewrite Hmd'. by simpl. }
  destruct Hscraped as (Hcontent & Htype & Hurl2). split; [done|].
  by apply pushAttachment_link_scraped.
Qed.

End AttachmentFacts.

(** ** The turn: short histories, empty credentials, replies *)

Section TurnFacts.

Import Chat.

Context {World : Type} `{Backend World}.

(** [slice(-n)] of an array of at most [n] elements is the array. *)
Lemma slice_short {A} (n : nat) (arr : list A) :
  (0 < n)%nat → (length arr ≤ n)%nat → slice (- Z.of_nat n) arr = arr.
Proof.
  intros Hn Hlen. unfold slice.
  replace (- Z.of_nat n <? 0) with true by (symmetry; apply Z.ltb_lt; lia).
  replace (Z.to_nat (Z.max (Z.of_nat (length arr) + - Z.of_nat n) 0)) with 0%nat by lia.
  done.
Qed.

(** X15. With at most 20 stored messages, what a turn sends to the
    selected provider is every stored message and then the new user message:
    each stored message as its role with its text and the blocks of its
    attachments, in stored order, the new message last; with an empty
    history the new message is sent alone. That list is the one the handler
    builds, the one the provider's call is made with, and the one the
    request to the vendor's SDK is made from. *)
Theorem generateResponse_sends_short_history (env : gmap string string) (args : Args)
    (w : World) (apiKey : string) (chat : Chat) :
  getApiKeyForProvider env
    (getProviderFromModel (or_else (model args) "claude-sonnet-4-20250514")) = Some apiKey →
  getAIChatInternal (chatId args) w = Some chat →
  (length (messages chat) ≤ 20)%nat →
  ChatSpec.turnSends env args w apiKey chat
    ((ChatSpec.formatStored w <$> messages chat)
     ++ [ChatSpec.newMessageOf w (userMessage args)
           (processAttachments env (attachments args))])
  ∧ (messages chat = [] →
     ChatSpec.turnSends env args w apiKey chat
       [ChatSpec.newMessageOf w (userMessage args)
          (processAttachments env (attachments args))]).
Proof.
  intros Hkey Hchat Hshort.
  pose proof (generateResponse_turnSends env args w apiKey chat Hkey Hchat) as Hsends.
  assert (Hs : slice (-20) (messages chat) = messages chat)
    by (apply (slice_short 20); lia).
  rewrite Hs in Hsends. split; [done|].
  intros Hnil. by rewrite Hnil in Hsends.
Qed.

(** X16. A credential variable that is set to the empty string counts as
    not set: the action stores and returns the provider's not-configured
    message and calls no provider. *)
Theorem generateResponse_empty_key (env : gmap string string) (args : Args) (w : World) :
  let provider := getProviderFromModel (or_else (model args) "claude-sonnet-4-20250514") in
  env !! envVar (configs provider) = Some "" →
  generateResponse env args w
    = (Ok (getNotConfiguredMessage provider),
       addAssistantMessage (chatId args) (getNotConfiguredMessage provider) w).
Proof.
  intros provider Hempty. unfold generateResponse. fold provider.
  assert (Hkey : getApiKeyForProvider env provider = None).
  { destruct provider; simpl in *; by rewrite Hempty. }
  by rewrite Hkey.
Qed.

(** X17. When the provider answers, its text is returned as it is and is
    what is stored as the assistant's turn. *)
Theorem generateResponse_reply (env : gmap string string) (args : Args) (w : World)
    (apiKey : string) (chat : Chat) (sent : list Message) (text : string) :
  let selectedModel := or_else (model args) "claude-sonnet-4-20250514" in
  let provider := getProviderFromModel selectedModel in
  getApiKeyForProvider env provider = Some apiKey →
  getAIChatInternal (chatId args) w = Some chat →
  buildFormattedMessages chat (userMessage args)
    (processAttachments env (attachments args)) w = (Ok sent, w) →
  callProvider provider apiKey selectedModel (turnSystemPrompt env args chat) sent = Ok text →
  generateResponse env args w = (Ok text, addAssistantMessage (chatId args) text w).
Proof.
  intros selectedModel provider Hkey Hchat Hsent Hreply.
  rewrite (generateResponse_turn env args w apiKey chat sent Hkey Hchat Hsent).
  fold selectedModel. fold provider. by rewrite Hreply.
Qed.

End TurnFacts.

(** ** Reading the vendors' replies *)

Section ReplyFacts.

Import Chat.

Context {World : Type} `{Backend World}.

Lemma find_first {A} (P : A → bool) (before : list A) (x : A) (after : list A) :
  Forall (fun y => P y = false) before → P x = true →
  List.find P (before ++ x :: after) = Some x.
Proof.
  intros Hbefore Hx. induction Hbefore as [|y before Hy _ IH]; simpl.
  - by rewrite Hx.
  - by rewrite Hy.
Qed.

Lemma find_none {A} (P : A → bool) (l : list A) :
  Forall (fun y => P y = false) l → List.find P l = None.
Proof.
  intros Hl. induction Hl as [|y l Hy _ IH]; simpl; [done|]. by rewrite Hy.
Qed.

(** X18. Of Claude's reply the first text block is the answer, whatever
    other blocks come before it; a reply without a text block is the error
    [No text content in Claude response]; a failure of the call is passed
    on. *)
Theorem callAnthropicApi_reply (apiKey model systemPrompt : string) (messages : list Message) :
  let reply := anthropic_messages_create apiKey
                 {| an_model := model; an_max_tokens := 2048;
                    an_system := systemPrompt; an_messages := messages |} in
  (∀ before text after,
     reply = Ok (before ++ AnText text :: after) →
     Forall (fun block => block = AnOther) before →
     callAnthropicApi apiKey model systemPrompt messages = Ok text)
  ∧ (∀ blocks,
       reply = Ok blocks → Forall (fun block => block = AnOther) blocks →
       callAnthropicApi apiKey model systemPrompt messages
         = Throw (ErrorObject "No text content in Claude response"))
  ∧ (∀ error,
       reply = Throw error →
       callAnthropicApi apiKey model systemPrompt messages = Throw error).
Proof.
  intros reply. unfold callAnthropicApi. fold reply. split_and!.
  - intros before text after -> Hbefore.
    rewrite (find_first isAnText before (AnText text) after); [done| |done].
    eapply Forall_impl; [exact Hbefore|]. by intros block ->.
  - intros blocks -> Hblocks. rewrite find_none; [done|].
    eapply Forall_impl; [exact Hblocks|]. by intros block ->.
  - by intros error ->.
Qed.

(** X19. Of OpenAI's reply only the first choice is read: its content is
    the answer when it is not empty; no choice, a first choice without
    content or with empty content is the error
    [No text content in OpenAI response]. *)
Theorem callOpenAIApi_reply (apiKey model systemPrompt : string) (messages : list Message) :
  let reply := openai_chat_completions_create apiKey
                 {| oa_model := model; oa_max_tokens := 2048;
                    oa_messages := ChatWire.openaiMessages systemPrompt messages |} in
  (∀ text others,
     reply = Ok (Some text :: others) → text ≠ "" →
     callOpenAIApi apiKey model systemPrompt messages = Ok text)
  ∧ (∀ choices,
       reply = Ok choices →
       choices = [] ∨ (∃ others, choices = None :: others)
       ∨ (∃ others, choices = Some "" :: others) →
       callOpenAIApi apiKey model systemPrompt messages
         = Throw (ErrorObject "No text content in OpenAI response"))
  ∧ (∀ error,
       reply = Throw error →
       callOpenAIApi apiKey model systemPrompt messages = Throw error).
Proof.
  intros reply. unfold callOpenAIApi. change (foldl pushOpenAIMessage _ messages)
    with (ChatWire.openaiMessages systemPrompt messages). fold reply. split_and!.
  - intros text others -> Htext. simpl.
    apply String.eqb_neq in Htext. by rewrite Htext.
  - intros choices -> [ -> | [[others ->] | [others ->]]]; done.
  - by intros error ->.
Qed.

(** X20. Of Gemini's reply only the first candidate is read: the answer
    is the text of its first part that has a text that is not empty; no
    candidate, a first candidate without parts, or parts none of which has
    such a text is the error [No text content in Gemini response]. *)
Theorem callGeminiApi_reply (apiKey model systemPrompt : string) (messages : list Message) :
  let reply := genai_generateContent apiKey (geminiRequest model systemPrompt messages) in
  (∀ before part after others text,
     reply = Ok {| candidates := Some (Some (before ++ part :: after) :: others) |} →
     Forall (fun p => truthy (rp_text p) = false) before →
     rp_text part = Some text → text ≠ "" →
     callGeminiApi apiKey model systemPrompt messages = Ok text)
  ∧ (∀ response,
       reply = Ok response →
       candidates response = None ∨ candidates response = Some []
       ∨ (∃ others, candidates response = Some (None :: others))
       ∨ (∃ parts others, candidates response = Some (Some parts :: others)
                          ∧ Forall (fun p => truthy (rp_text p) = false) parts) →
       callGeminiApi apiKey model systemPrompt messages
         = Throw (ErrorObject "No text content in Gemini response"))
  ∧ (∀ error,
       reply = Throw error →
       callGeminiApi apiKey model systemPrompt messages = Throw error).
Proof.
  intros reply. unfold callGeminiApi. fold reply. split_and!.
  - intros before part after others text -> Hbefore Hpart Htext. simpl.
    rewrite (find_first (fun p => truthy (rp_text p)) before part after Hbefore).
    + by rewrite Hpart.
    + rewrite Hpart. simpl. by apply negb_true_iff, String.eqb_neq.
  - intros response -> [Hc | [Hc | [[others Hc] | (parts & others & Hc & Hparts)]]];
      rewrite Hc; simpl; try done.
    by rewrite (find_none _ parts Hparts).
  - by intros error ->.
Qed.

End ReplyFacts.

(** ** Translation to OpenAI and to Gemini *)

Section WireFacts.

Import Chat ChatWire.

Lemma foldl_pushOpenAIPart (blocks : list ContentBlock) (acc : list OpenAIPart) :
  oaTexts (foldl pushOpenAIPart acc blocks) = oaTexts acc ++ textsOf blocks
  ∧ oaImageUrls (foldl pushOpenAIPart acc blocks) = oaImageUrls acc ++ imageUrlsOf blocks.
Proof.
  revert acc. induction blocks as [|block blocks IH]; intros acc; simpl.
  - by rewrite !app_nil_r.
  - destruct (IH (pushOpenAIPart acc block)) as [-> ->].
    destruct block as [text|[url|media data]]; simpl;
      unfold oaTexts, oaImageUrls; rewrite ?omap_app; simpl;
      by rewrite <- ?app_assoc, ?app_nil_r.
Qed.

(** What one message becomes. *)
Lemma pushOpenAIMessage_one (msg : Message) (acc : list OpenAIMessage) :
  ∃ sent,
    pushOpenAIMessage acc msg = acc ++ [sent]
    ∧ oa_role sent = oaRoleOf (role msg)
    ∧ (∀ text, content msg = Plain text → oa_content sent = OaString text)
    ∧ (∀ blocks, content msg = Blocks blocks → role msg = user →
         oaTexts (oaPartsOf (oa_content sent)) = textsOf blocks
         ∧ oaImageUrls (oaPartsOf (oa_content sent)) = imageUrlsOf blocks)
    ∧ (∀ blocks, content msg = Blocks blocks → role msg = assistant →
         oa_content sent = OaString (join nl (textsOf blocks))).
Proof.
  unfold pushOpenAIMessage.
  destruct (content msg) as [text|blocks] eqn:Hcontent.
  - destruct (role msg); simpl; eexists; (split_and!; [reflexivity|done|..]);
      try (by intros ? [= ->]); by intros.
  - destruct (foldl_pushOpenAIPart blocks []) as [Htexts Hurls]. simpl in Htexts, Hurls.
    destruct (role msg); simpl; eexists; (split_and!; [reflexivity|done|by intros| |]).
    + intros ? [= <-] _. simpl.
      destruct (foldl pushOpenAIPart [] blocks) as [|[text|url] [|p ps]]; by simpl in *.
    + by intros.
    + by intros.
    + intros ? [= <-] _. by rewrite Htexts.
Qed.

(** X21. The OpenAI request carries the system prompt first and then one
    message for each formatted message, in order and with its role. A user
    message keeps its texts and its URL images, in order; an assistant
    message is always a string, its texts joined by line breaks. *)
Theorem openaiMessages_shape (systemPrompt : string) (messages : list Message) :
  ∃ translated,
    openaiMessages systemPrompt messages
      = {| oa_role := oa_system; oa_content := OaString systemPrompt |} :: translated
    ∧ Forall2 (fun msg sent =>
                 oa_role sent = oaRoleOf (role msg)
                 ∧ (∀ text, content msg = Plain text → oa_content sent = OaString text)
                 ∧ (∀ blocks, content msg = Blocks blocks → role msg = user →
                      oaTexts (oaPartsOf (oa_content sent)) = textsOf blocks
                      ∧ oaImageUrls (oaPartsOf (oa_content sent)) = imageUrlsOf blocks)
                 ∧ (∀ blocks, content msg = Blocks blocks → role msg = assistant →
                      oa_content sent = OaString (join nl (textsOf blocks))))
              messages translated.
Proof.
  unfold openaiMessages.
  assert (Hfold : ∀ acc, ∃ translated,
            foldl pushOpenAIMessage acc messages = acc ++ translated
            ∧ Forall2 (fun msg sent =>
                 oa_role sent = oaRoleOf (role msg)
                 ∧ (∀ text, content msg = Plain text → oa_content sent = OaString text)
                 ∧ (∀ blocks, content msg = Blocks blocks → role msg = user →
                      oaTexts (oaPartsOf (oa_content sent)) = textsOf blocks
                      ∧ oaImageUrls (oaPartsOf (oa_content sent)) = imageUrlsOf blocks)
                 ∧ (∀ blocks, content msg = Blocks blocks → role msg = assistant →
                      oa_content sent = OaString (join nl (textsOf blocks))))
              messages translated).
  { induction messages as [|msg messages IH]; intros acc; simpl.
    - exists []. split; [by rewrite app_nil_r|constructor].
    - destruct (pushOpenAIMessage_one msg acc) as (sent & -> & Hsent).
      destruct (IH (acc ++ [sent])) as (translated & -> & Hall).
      exists (sent :: translated). split; [by rewrite <- app_assoc|by constructor]. }
  destruct (Hfold [{| oa_role := oa_system; oa_content := OaString systemPrompt |}])
    as (translated & Heq & Hall).
  by exists translated.
Qed.

(** X22. A message that has blocks and no text among them is not sent to
    Gemini at all: when the new user message is images only, Gemini's
    contents are those of the history, and do not end with the new
    message. *)
Theorem gemini_image_only_dropped (history : list Message) (role : Role)
    (blocks : list ContentBlock) :
  textsOf blocks = [] →
  toGeminiMessages (history ++ [{| role := role; content := Blocks blocks |}])
    = toGeminiMessages history.
Proof.
  intros Hnone. rewrite !toGeminiMessages_text_only, bind_app. simpl.
  unfold geminiTextOnly at 2. simpl. rewrite Hnone. simpl. by rewrite !app_nil_r.
Qed.

End WireFacts.

(** ** Image generation: storing, failing, decoding *)

Section ImageMore.

Import Image.

Context {World : Type} `{Backend World}.

Lemma or_null_Some (key : string) : key ≠ "" → or_null (Some key) = Some key.
Proof.
  intros Hkey. unfold or_null. simpl. apply String.eqb_neq in Hkey. by rewrite Hkey.
Qed.

(** The run of the handler once a generation branch has produced image
    bytes: the blob is stored, then the record is written. *)
Lemma generateImage_bytes (env : gmap string string) (args : Args) (w : World)
    (apiKey mimeType : string) (imageBytes : list N) :
  or_null (env !! "GOOGLE_AI_API_KEY") = Some apiKey →
  match model args with
  | gemini_flash_exp_image_generation => generateWithGemini apiKey args
  | imagen_3_generate => generateWithImagen apiKey args
  end = Ok (Bytes mimeType imageBytes) →
  generateImage env args w =
    match storage_store {| blob_bytes := imageBytes; blob_type := mimeType |} w with
    | (Ok stored, w1) =>
        (Ok {| success := true; storageId := Some stored;
               url := or_null (storage_getUrl stored w1); error := None |},
         saveGeneratedImage
           {| gi_sessionId := sessionId args; gi_promptText := prompt args;
              gi_modelId := modelId (model args); gi_storageId := stored;
              gi_mimeType := mimeType |} w1)
    | (Throw thrown, w1) => (Ok (onError thrown), w1)
    end.
Proof.
  intros Hkey Hgen. rewrite (generateImage_configured env args w apiKey Hkey).
  unfold tryGenerate. run. rewrite Hgen.
  by destruct (storage_store _ w) as [[stored|thrown] w1].
Qed.

(** X23. An Imagen image is stored and recorded: when the reply's first
    image has bytes, they are decoded and stored as [image/png], the record
    written names the stored file, the prompt, the session and the model,
    and the result is a success with the file's id and its URL. *)
Theorem generateImage_imagen_stored (env : gmap string string) (args : Args) (w w1 : World)
    (apiKey base64 binary stored : string) (others : list (option string)) :
  model args = imagen_3_generate →
  env !! "GOOGLE_AI_API_KEY" = Some apiKey → apiKey ≠ "" →
  genai_generateImages apiKey
    {| gi_model := "imagen-3.0-generate-002"; gi_prompt := prompt args;
       gi_numberOfImages := 1;
       gi_aspectRatio := default "1:1" (aspectRatioText <$> aspectRatio args) |}
    = Ok {| generatedImages := Some (Some base64 :: others) |} →
  base64 ≠ "" →
  atob base64 = Ok binary →
  storage_store {| blob_bytes := N_of_ascii <$> list_ascii_of_string binary;
                   blob_type := "image/png" |} w = (Ok stored, w1) →
  generateImage env args w
    = (Ok {| success := true; storageId := Some stored;
             url := or_null (storage_getUrl stored w1); error := None |},
       saveGeneratedImage
         {| gi_sessionId := sessionId args; gi_promptText := prompt args;
            gi_modelId := "imagen-3.0-generate-002"; gi_storageId := stored;
            gi_mimeType := "image/png" |} w1).
Proof.
  intros Hmodel Hkey Hne Hreply Hb64 Hatob Hstore.
  rewrite (generateImage_bytes env args w apiKey "image/png"
             (N_of_ascii <$> list_ascii_of_string binary)).
  - by rewrite Hstore, Hmodel.
  - rewrite Hkey. by apply or_null_Some.
  - rewrite Hmodel. unfold generateWithImagen. rewrite Hmodel. simpl. rewrite Hreply. simpl.
    apply String.eqb_neq in Hb64. rewrite Hb64. simpl.
    unfold base64ToBytes. by rewrite Hatob.
Qed.

(** X24. A Gemini image is stored under the MIME type of the reply: the
    first part of the first candidate whose inline data has a MIME type
    starting with [image/] is the image, whatever parts come before it. *)
Theorem generateImage_gemini_stored (env : gmap string string) (args : Args) (w w1 : World)
    (apiKey mime base64 binary stored : string)
    (before after : list ReplyPart) (text : option string)
    (others : list (option (list ReplyPart))) :
  model args = gemini_flash_exp_image_generation →
  env !! "GOOGLE_AI_API_KEY" = Some apiKey → apiKey ≠ "" →
  genai_generateContent apiKey
    {| gc_model := "gemini-2.0-flash-exp-image-generation";
       gc_contents := [{| g_role := g_user; g_parts := [GText (prompt args)] |}];
       gc_systemInstruction := None; gc_maxOutputTokens := None;
       gc_responseModalities := Some ["image"; "text"] |}
    = Ok {| candidates :=
              Some (Some (before ++
                          {| rp_text := text;
                             rp_inlineData := Some {| mimeType := Some mime;
                                                      data := Some base64 |} |} :: after)
                    :: others) |} →
  Forall (fun part => isImagePart part = false) before →
  startsWith "image/" mime = true →
  base64 ≠ "" →
  atob base64 = Ok binary →
  storage_store {| blob_bytes := N_of_ascii <$> list_ascii_of_string binary;
                   blob_type := mime |} w = (Ok stored, w1) →
  generateImage env args w
    = (Ok {| success := true; storageId := Some stored;
             url := or_null (storage_getUrl stored w1); error := None |},
       saveGeneratedImage
         {| gi_sessionId := sessionId args; gi_promptText := prompt args;
            gi_modelId := "gemini-2.0-flash-exp-image-generation"; gi_storageId := stored;
            gi_mimeType := mime |} w1).
Proof.
  intros Hmodel Hkey Hne Hreply Hbefore Hmime Hb64 Hatob Hstore.
  rewrite (generateImage_bytes env args w apiKey mime
             (N_of_ascii <$> list_ascii_of_string binary)).
  - by rewrite Hstore, Hmodel.
  - rewrite Hkey. by apply or_null_Some.
  - rewrite Hmodel. unfold generateWithGemini. rewrite Hmodel. simpl. rewrite Hreply. simpl.
    rewrite (find_first isImagePart before _ after Hbefore) by (by unfold isImagePart).
    simpl.
    assert (Hm : (mime =? "")%string = false) by (by destruct mime).
    apply String.eqb_neq in Hb64. rewrite Hm, Hb64. simpl.
    unfold base64ToBytes. by rewrite Hatob.
Qed.

(** X25. A reply without an image stores nothing: when Gemini's first
    candidate has no part with an image MIME type, or Imagen returns no
    first image or one without bytes, the result is the failure
    [No image was generated] and the backend is left as it was. *)
Theorem generateImage_no_image (env : gmap string string) (args : Args) (w : World)
    (apiKey : string) :
  env !! "GOOGLE_AI_API_KEY" = Some apiKey → apiKey ≠ "" →
  (∀ parts others,
     model args = gemini_flash_exp_image_generation →
     genai_generateContent apiKey
       {| gc_model := "gemini-2.0-flash-exp-image-generation";
          gc_contents := [{| g_role := g_user; g_parts := [GText (prompt args)] |}];
          gc_systemInstruction := None; gc_maxOutputTokens := None;
          gc_responseModalities := Some ["image"; "text"] |}
       = Ok {| candidates := Some (Some parts :: others) |} →
     Forall (fun part => isImagePart part = false) parts →
     generateImage env args w = (Ok (failure NO_IMAGE), w))
  ∧ (∀ images,
       model args = imagen_3_generate →
       genai_generateImages apiKey
         {| gi_model := "imagen-3.0-generate-002"; gi_prompt := prompt args;
            gi_numberOfImages := 1;
            gi_aspectRatio := default "1:1" (aspectRatioText <$> aspectRatio args) |}
         = Ok {| generatedImages := images |} →
       images = None ∨ images = Some []
       ∨ (∃ others, images = Some (None :: others))
       ∨ (∃ others, images = Some (Some "" :: others)) →
       generateImage env args w = (Ok (failure NO_IMAGE), w)).
Proof.
  intros Hkey Hnonempty.
  assert (Hne : or_null (env !! "GOOGLE_AI_API_KEY") = Some apiKey)
    by (rewrite Hkey; by apply or_null_Some).
  split.
  - intros parts others Hmodel Hreply Hparts.
    rewrite (generateImage_configured env args w apiKey Hne).
    unfold tryGenerate. run. rewrite Hmodel. unfold generateWithGemini.
    rewrite Hmodel. simpl. rewrite Hreply. simpl.
    by rewrite (find_none isImagePart parts Hparts).
  - intros images Hmodel Hreply Himages.
    rewrite (generateImage_configured env args w apiKey Hne).
    unfold tryGenerate. run. rewrite Hmodel. unfold generateWithImagen.
    rewrite Hmodel. simpl. rewrite Hreply. simpl.
    by destruct Himages as [ -> | [ -> | [[others ->] | [others ->]]]].
Qed.

(** What the Imagen branch makes of a reply whose first image has
    bytes. *)
Lemma generateWithImagen_image (args : Args) (apiKey base64 : string)
    (others : list (option string)) :
  model args = imagen_3_generate →
  genai_generateImages apiKey
    {| gi_model := "imagen-3.0-generate-002"; gi_prompt := prompt args;
       gi_numberOfImages := 1;
       gi_aspectRatio := default "1:1" (aspectRatioText <$> aspectRatio args) |}
    = Ok {| generatedImages := Some (Some base64 :: others) |} →
  base64 ≠ "" →
  generateWithImagen apiKey args =
    match atob base64 with
    | Ok binary => Ok (Bytes "image/png" (N_of_ascii <$> list_ascii_of_string binary))
    | Throw thrown => Throw thrown
    end.
Proof.
  intros Hmodel Hreply Hb64. unfold generateWithImagen. rewrite Hmodel. simpl.
  rewrite Hreply. simpl. apply String.eqb_neq in Hb64. rewrite Hb64. simpl.
  unfold base64ToBytes. by destruct (atob base64).
Qed.

(** What the Gemini branch makes of a reply whose first image part has
    data. *)
Lemma generateWithGemini_image (args : Args) (apiKey mime base64 : string)
    (before after : list ReplyPart) (text : option string)
    (others : list (option (list ReplyPart))) :
  model args = gemini_flash_exp_image_generation →
  genai_generateContent apiKey
    {| gc_model := "gemini-2.0-flash-exp-image-generation";
       gc_contents := [{| g_role := g_user; g_parts := [GText (prompt args)] |}];
       gc_systemInstruction := None; gc_maxOutputTokens := None;
       gc_responseModalities := Some ["image"; "text"] |}
    = Ok {| candidates :=
              Some (Some (before ++
                          {| rp_text := text;
                             rp_inlineData := Some {| mimeType := Some mime;
                                                      data := Some base64 |} |} :: after)
                    :: others) |} →
  Forall (fun part => isImagePart part = false) before →
  startsWith "image/" mime = true →
  base64 ≠ "" →
  generateWithGemini apiKey args =
    match atob base64 with
    | Ok binary => Ok (Bytes mime (N_of_ascii <$> list_ascii_of_string binary))
    | Throw thrown => Throw thrown
    end.
Proof.
  intros Hmodel Hreply Hbefore Hmime Hb64. unfold generateWithGemini. rewrite Hmodel. simpl.
  rewrite Hreply. simpl.
  rewrite (find_first isImagePart before _ after Hbefore) by (by unfold isImagePart).
  simpl.
  assert (Hm : (mime =? "")%string = false) by (by destruct mime).
  apply String.eqb_neq in Hb64. rewrite Hm, Hb64. simpl.
  unfold base64ToBytes. by destruct (atob base64).
Qed.

(** X26. When storing the blob throws, no record is written: the result
    is the failure made from what was thrown, and the backend is in the
    state the failed write left. When decoding the image's bytes throws,
    nothing is stored either: the result is that failure and the backend is
    as it was. This holds for an image of either model. *)
Theorem generateImage_store_throws (env : gmap string string) (args : Args) (w w1 : World)
    (apiKey mime base64 binary : string) (thrown : Thrown)
    (images : list (option string))
    (before after : list ReplyPart) (text : option string)
    (others : list (option (list ReplyPart))) :
  env !! "GOOGLE_AI_API_KEY" = Some apiKey → apiKey ≠ "" →
  base64 ≠ "" →
  (model args = imagen_3_generate
   ∧ mime = "image/png"
   ∧ genai_generateImages apiKey
       {| gi_model := "imagen-3.0-generate-002"; gi_prompt := prompt args;
          gi_numberOfImages := 1;
          gi_aspectRatio := default "1:1" (aspectRatioText <$> aspectRatio args) |}
     = Ok {| generatedImages := Some (Some base64 :: images) |})
  ∨ (model args = gemini_flash_exp_image_generation
     ∧ startsWith "image/" mime = true
     ∧ Forall (fun part => isImagePart part = false) before
     ∧ genai_generateContent apiKey
         {| gc_model := "gemini-2.0-flash-exp-image-generation";
            gc_contents := [{| g_role := g_user; g_parts := [GText (prompt args)] |}];
            gc_systemInstruction := None; gc_maxOutputTokens := None;
            gc_responseModalities := Some ["image"; "text"] |}
       = Ok {| candidates :=
                 Some (Some (before ++
                             {| rp_text := text;
                                rp_inlineData := Some {| mimeType := Some mime;
                                                         data := Some base64 |} |} :: after)
                       :: others) |}) →
  (atob base64 = Ok binary →
   storage_store {| blob_bytes := N_of_ascii <$> list_ascii_of_string binary;
                    blob_type := mime |} w = (Throw thrown, w1) →
   generateImage env args w = (Ok (onError thrown), w1))
  ∧ (atob base64 = Throw thrown →
     generateImage env args w = (Ok (onError thrown), w)).
Proof.
  intros Hkey Hnonempty Hb64 Hreply.
  assert (Hne : or_null (env !! "GOOGLE_AI_API_KEY") = Some apiKey)
    by (rewrite Hkey; by apply or_null_Some).
  assert (Hbranch :
    match model args with
    | gemini_flash_exp_image_generation => generateWithGemini apiKey args
    | imagen_3_generate => generateWithImagen apiKey args
    end = match atob base64 with
          | Ok binary => Ok (Bytes mime (N_of_ascii <$> list_ascii_of_string binary))
          | Throw thrown => Throw thrown
          end).
  { destruct Hreply as [(Hmodel & -> & Himagen)|(Hmodel & Hmime & Hbefore & Hgemini)];
      rewrite Hmodel.
    - by apply (generateWithImagen_image args apiKey base64 images).
    - by apply (generateWithGemini_image args apiKey mime base64 before after text others). }
  split.
  - intros Hatob Hstore. rewrite Hatob in Hbranch.
    rewrite (generateImage_bytes env args w apiKey mime _ Hne Hbranch). by rewrite Hstore.
  - intros Hatob. rewrite Hatob in Hbranch.
    rewrite (generateImage_configured env args w apiKey Hne).
    unfold tryGenerate. run. by rewrite Hbranch.
Qed.

(** X27. A failure whose text mentions none of [quota], [rate], [safety]
    and [blocked] is reported with its text, after
    [**Image generation failed:**]; what is thrown and is not an [Error]
    is reported as [Unknown error]. *)
Theorem generateImage_other_failure (env : gmap string string) (args : Args) (w w1 : World)
    (apiKey : string) (thrown : Thrown) :
  or_null (env !! "GOOGLE_AI_API_KEY") = Some apiKey →
  tryGenerate apiKey args w = (Throw thrown, w1) →
  (includes "quota" (errorMessageOf thrown) = false →
   includes "rate" (errorMessageOf thrown) = false →
   includes "safety" (errorMessageOf thrown) = false →
   includes "blocked" (errorMessageOf thrown) = false →
   generateImage env args w
     = (Ok (failure ("**Image generation failed:** " +:+ errorMessageOf thrown)), w1))
  ∧ (thrown = OtherValue →
     generateImage env args w
       = (Ok (failure "**Image generation failed:** Unknown error"), w1)).
Proof.
  intros Hkey Hthrow. rewrite (generateImage_configured env args w apiKey Hkey), Hthrow.
  split.
  - intros Hq Hr Hs Hb. unfold onError. by rewrite Hq, Hr, Hs, Hb.
  - by intros ->.
Qed.

(** X28. Decoding keeps every character: the bytes are as many as the
    characters of the decoded string, each below 256, and give the string
    back; a failure of [atob] is passed on. *)
Theorem base64ToBytes_bytes (base64 : string) :
  (∀ binary, atob base64 = Ok binary →
     ∃ bytes, base64ToBytes base64 = Ok bytes
              ∧ length bytes = String.length binary
              ∧ Forall (fun byte => (byte < 256)%N) bytes
              ∧ string_of_list_ascii (ascii_of_N <$> bytes) = binary)
  ∧ (∀ thrown, atob base64 = Throw thrown → base64ToBytes base64 = Throw thrown).
Proof.
  unfold base64ToBytes. split.
  - intros binary ->. eexists. split; [reflexivity|]. split_and!.
    + rewrite length_fmap. induction binary as [|c binary IH]; simpl; [done|]. by rewrite IH.
    + apply Forall_fmap, Forall_true. intros c. apply N_ascii_bounded.
    + rewrite <- list_fmap_compose.
      rewrite (fmap_id_on (ascii_of_N ∘ N_of_ascii)).
      * apply string_of_list_ascii_of_string.
      * intros c. simpl. apply ascii_N_embedding.
  - by intros thrown ->.
Qed.

End ImageMore.

(** ** Recent images *)

Section RecentImagesFacts.

Import RecentImages PrimFloat.

Context {World : Type} `{Backend World} `{Queries World}.

(** X29. [getRecentImages] asks for 10 images when the limit is absent,
    zero or [NaN], and for the given number otherwise; it lists the images
    of the query in the query's order, each with the URL of its stored
    file, and leaves the backend as it was. *)
Theorem getRecentImages_limit (args : Args) (w : World) :
  ∃ effective,
    getRecentImages args w
      = (Ok (withUrl w <$> getRecentImagesInternal (sessionId args) effective w), w)
    ∧ (limit args = None → effective = 10%float)
    ∧ (∀ x, limit args = Some x → is_zero x = true ∨ is_nan x = true →
            effective = 10%float)
    ∧ (∀ x, limit args = Some x → is_zero x = false → is_nan x = false → effective = x).
Proof.
  unfold getRecentImages. run. eexists. split; [reflexivity|].
  unfold truthyNumber. destruct (limit args) as [x|]; split_and!; try done.
  - intros ? [= <-] [-> | ->]; [done|]. by rewrite orb_true_r.
  - by intros ? [= <-] -> ->.
Qed.

End RecentImagesFacts.

(** ** The routing shell *)

Section AppFacts.

Import App.

(** X30. Under every configuration the routes start with [/] and end with
    the catch-all [/:slug], and the home page has a route: [/] itself, or,
    when a custom homepage takes [/], the configured original home route,
    [/home] when none is configured. *)
Theorem routes_home (config : SiteConfig) :
  (∃ first, head (routes config) = Some first ∧ path first = "/")
  ∧ last (routes config) = Some {| path := "/:slug"; element := Post |}
  ∧ (useCustomHomepage config = false →
     head (routes config) = Some {| path := "/"; element := Home |})
  ∧ (useCustomHomepage config = true →
     routes config !! 1%nat
       = Some {| path := or_else (homepage_originalHomeRoute config) "/home";
                 element := Home |}
     ∧ ∃ slug, homepage_slug config = Some slug ∧ slug ≠ ""
               ∧ head (routes config)
                 = Some {| path := "/";
                           element := HomepagePost slug (Some (homepage_type config)) |})
  ∧ ∃ route, route ∈ routes config ∧ element route = Home.
Proof.
  unfold routes. split_and!.
  - eexists. by split.
  - destruct (useCustomHomepage config), (default false (statsPage_enabled config)),
      (blogPage_enabled config), (default false (ds_enabled <$> docsSection config));
      reflexivity.
  - by intros ->.
  - intros Hcustom. rewrite Hcustom. split; [done|].
    unfold useCustomHomepage in Hcustom. apply andb_true_iff in Hcustom as [Htype Hslug].
    destruct (homepage_slug config) as [slug|]; [|done].
    exists slug. split_and!; [done| |].
    + simpl in Hslug. by apply String.eqb_neq, negb_true_iff.
    + simpl. apply negb_true_iff in Htype. by rewrite Htype.
  - destruct (useCustomHomepage config) eqn:Hcustom.
    + exists {| path := or_else (homepage_originalHomeRoute config) "/home";
                element := Home |}.
      split; [|done]. simpl. apply elem_of_cons. right. apply elem_of_cons. by left.
    + exists {| path := "/"; element := Home |}.
      split; [|done]. simpl. apply elem_of_cons. by left.
Qed.

End AppFacts.

(** ** Runs on the scripted backends *)

Section Scenes.

Import Sample Scenes PrimFloat.

Lemma processAttachments_without_scrape_witness :
  noKeys !! "FIRECRAWL_API_KEY" = None
  ∧ @Chat.processAttachments _ (scripted answers) noKeys (Some [docsLink]) = Some [docsLink]
  ∧ @Chat.processAttachments _ (scripted nothing) firecrawlKey (Some [docsLink])
    = Some [docsLink].
Proof.
  split_and!; [reflexivity| |].
  - apply (proj1 (@processAttachments_without_scrape _ (scripted answers) noKeys
                    (Some [docsLink]))). reflexivity.
  - apply (proj2 (@processAttachments_without_scrape _ (scripted nothing) firecrawlKey
                    (Some [docsLink]))). intros apiKey url. reflexivity.
Defined.

Lemma processAttachments_keeps_witness :
  ∃ processed,
    @Chat.processAttachments _ (scripted answers) firecrawlKey (Some [photo; docsLink])
      = Some processed
    ∧ length processed = 2%nat
    ∧ processed !! 0%nat = Some photo.
Proof.
  destruct (@processAttachments_keeps _ (scripted answers) firecrawlKey [photo; docsLink])
    as (processed & Hrun & Hall).
  exists processed. split_and!; [done| |].
  - symmetry. by apply Forall2_length in Hall.
  - apply Forall2_cons_inv_l in Hall as (first & rest & (_ & _ & _ & Hsame) & _ & ->).
    simpl. f_equal. apply Hsame. by left.
Defined.

Lemma pushAttachment_link_text_witness :
  @Chat.pushAttachment _ (scripted answers) [TextBlock "Summarise this."] readLink world
    = (Ok [TextBlock "Summarise this.";
           TextBlock ("https://example.com/docs" +:+ Chat.nl +:+ Chat.nl
                      +:+ "Content from https://example.com/docs:" +:+ Chat.nl +:+ "# Docs")],
       world).
Proof.
  apply (proj1 (@pushAttachment_link_text _ (scripted answers) world
                  [TextBlock "Summarise this."] readLink "https://example.com/docs" "# Docs"
                  eq_refl ltac:(discriminate) ltac:(discriminate))); reflexivity.
Defined.

Lemma newUserMessage_unresolved_images_witness :
  world.(urls) !! "file-7" = None
  ∧ @Chat.newUserMessage _ (scripted answers) "What is on this photo?" (Some [photo]) world
    = (Ok {| role := user; content := Plain "What is on this photo?" |}, world).
Proof.
  split; [reflexivity|].
  apply (@newUserMessage_unresolved_images _ (scripted answers)); [discriminate|].
  repeat constructor.
Defined.

Lemma scraped_link_reaches_message_witness :
  att_scrapedContent (@Chat.scrapeAttachment _ (scripted answers) firecrawlKey docsLink)
    = Some "# Docs"
  ∧ @Chat.pushAttachment _ (scripted answers) []
      (@Chat.scrapeAttachment _ (scripted answers) firecrawlKey docsLink) world
    = (Ok [TextBlock ("https://example.com/docs" +:+ Chat.nl +:+ Chat.nl
                      +:+ "Content from https://example.com/docs:" +:+ Chat.nl +:+ "# Docs")],
       world).
Proof.
  apply (@scraped_link_reaches_message _ (scripted answers) firecrawlKey world [] docsLink
           "fc-test" "https://example.com/docs" "# Docs" (Some "Docs"));
    first [reflexivity | discriminate].
Defined.

(** The chat of two messages: both are sent, then the new message; the
    vendor that echoes the ends of what it is sent answers [q1/hello]. *)
Lemma generateResponse_sends_short_history_witness :
  Chat.getApiKeyForProvider anthropicKey
    (Chat.getProviderFromModel (or_else (Chat.model (chatArgs "chat-2"))
                                  "claude-sonnet-4-20250514")) = Some "sk-test"
  ∧ world.(chats) !! "chat-2" = Some shortChat
  ∧ (length (messages shortChat) ≤ 20)%nat
  ∧ @Chat.buildFormattedMessages _ echo shortChat "hello" None world
    = (Ok [ {| role := user; content := Plain "q1" |};
            {| role := assistant; content := Plain "a1" |};
            {| role := user; content := Plain "hello" |} ], world)
  ∧ @Chat.generateResponse _ echo anthropicKey (chatArgs "chat-2") world
    = (Ok "q1/hello", @addAssistantMessage _ echo "chat-2" "q1/hello" world).
Proof.
  destruct (@generateResponse_sends_short_history _ echo anthropicKey (chatArgs "chat-2")
              world "sk-test" shortChat)
    as [(Hsent & _ & Hclaude & _) _]; [reflexivity|reflexivity|simpl; lia|].
  split_and!; [reflexivity|reflexivity|simpl; lia|exact Hsent|].
  apply (Hclaude eq_refl "q1/hello"). reflexivity.
Defined.

Lemma generateResponse_empty_key_witness :
  emptyAnthropicKey !! "ANTHROPIC_API_KEY" = Some ""
  ∧ (@Chat.generateResponse _ (scripted answers) emptyAnthropicKey (chatArgs "chat-2") world).1
    = Ok (Chat.getNotConfiguredMessage Chat.anthropic).
Proof.
  split; [reflexivity|].
  rewrite (@generateResponse_empty_key _ (scripted answers) emptyAnthropicKey
             (chatArgs "chat-2") world); reflexivity.
Defined.

Lemma generateResponse_reply_witness :
  (@Chat.generateResponse _ (scripted answers) anthropicKey (chatArgs "chat-2") world).1
    = Ok "Shorter is better."
  ∧ ((@Chat.generateResponse _ (scripted answers) anthropicKey (chatArgs "chat-2") world).2)
      .(chats) !! "chat-2"
    = Some (appendAssistant "Shorter is better." shortChat).
Proof.
  rewrite (@generateResponse_reply _ (scripted answers) anthropicKey (chatArgs "chat-2") world
             "sk-test" shortChat
             [ {| role := user; content := Plain "q1" |};
               {| role := assistant; content := Plain "a1" |};
               {| role := user; content := Plain "hello" |} ]
             "Shorter is better."); [|reflexivity..].
  split; reflexivity.
Defined.

Lemma callAnthropicApi_reply_witness :
  @Chat.callAnthropicApi _ (scripted answers) "sk-test" "claude-sonnet-4-20250514" "Be brief."
    [{| role := user; content := Plain "hello" |}] = Ok "Shorter is better."
  ∧ @Chat.callAnthropicApi _ (scripted nothing) "sk-test" "claude-sonnet-4-20250514" "Be brief."
      [{| role := user; content := Plain "hello" |}]
    = Throw (ErrorObject "No text content in Claude response").
Proof.
  split.
  - apply (proj1 (@callAnthropicApi_reply _ (scripted answers) "sk-test"
                    "claude-sonnet-4-20250514" "Be brief."
                    [{| role := user; content := Plain "hello" |}]) [AnOther] _ []).
    + reflexivity.
    + by repeat constructor.
  - apply (proj1 (proj2 (@callAnthropicApi_reply _ (scripted nothing) "sk-test"
                           "claude-sonnet-4-20250514" "Be brief."
                           [{| role := user; content := Plain "hello" |}])) [AnOther]).
    + reflexivity.
    + by repeat constructor.
Defined.

Lemma callOpenAIApi_reply_witness :
  @Chat.callOpenAIApi _ (scripted answers) "sk-test" "gpt-4o" "Be brief."
    [{| role := user; content := Plain "hello" |}]
  = Throw (ErrorObject "No text content in OpenAI response").
Proof.
  apply (proj1 (proj2 (@callOpenAIApi_reply _ (scripted answers) "sk-test" "gpt-4o" "Be brief."
                         [{| role := user; content := Plain "hello" |}]))
           [Some ""; Some "second choice"]).
  - reflexivity.
  - right. right. by eexists.
Defined.

Lemma callGeminiApi_reply_witness :
  @Chat.callGeminiApi _ (scripted answers) "g-test" "gemini-2.0-flash" "Be brief."
    [{| role := user; content := Plain "hello" |}]
  = Ok "Here is your image.".
Proof.
  apply (proj1 (@callGeminiApi_reply _ (scripted answers) "g-test" "gemini-2.0-flash"
                  "Be brief." [{| role := user; content := Plain "hello" |}])
           [] {| rp_text := Some "Here is your image."; rp_inlineData := None |}
           [{| rp_text := None;
               rp_inlineData := Some {| mimeType := Some "image/webp";
                                        data := Some "UklGRg==" |} |}] []).
  - reflexivity.
  - constructor.
  - reflexivity.
  - discriminate.
Defined.

Lemma openaiMessages_shape_witness :
  ∃ translated,
    ChatWire.openaiMessages "Be brief."
      [ {| role := user;
           content := Blocks [TextBlock "What is this?";
                              ImageBlock (UrlSource "https://files.example/file-1")] |};
        {| role := assistant; content := Blocks [TextBlock "A"; TextBlock "B"] |} ]
    = {| oa_role := oa_system; oa_content := OaString "Be brief." |} :: translated
    ∧ translated
      = [ {| oa_role := oa_user;
             oa_content := OaParts [OaText "What is this?";
                                    OaImageUrl "https://files.example/file-1"] |};
          {| oa_role := oa_assistant; oa_content := OaString ("A" +:+ Chat.nl +:+ "B") |} ].
Proof.
  destruct (openaiMessages_shape "Be brief."
              [ {| role := user;
                   content := Blocks [TextBlock "What is this?";
                                      ImageBlock (UrlSource "https://files.example/file-1")] |};
                {| role := assistant; content := Blocks [TextBlock "A"; TextBlock "B"] |} ])
    as (translated & Heq & _).
  exists translated. split; [done|]. by injection Heq as <-.
Defined.

Lemma gemini_image_only_dropped_witness :
  Chat.toGeminiMessages
    [ {| role := user; content := Plain "hello" |};
      {| role := user;
         content := Blocks [ImageBlock (UrlSource "https://files.example/file-1")] |} ]
  = [ {| g_role := g_user; g_parts := [GText "hello"] |} ].
Proof.
  change (Chat.toGeminiMessages
            ([{| role := user; content := Plain "hello" |}]
             ++ [{| role := user;
                    content := Blocks [ImageBlock (UrlSource "https://files.example/file-1")] |}])
          = [ {| g_role := g_user; g_parts := [GText "hello"] |} ]).
  rewrite (gemini_image_only_dropped [{| role := user; content := Plain "hello" |}] user
             [ImageBlock (UrlSource "https://files.example/file-1")] eq_refl).
  reflexivity.
Defined.

Lemma generateImage_imagen_stored_witness :
  googleKey !! "GOOGLE_AI_API_KEY" = Some "g-test"
  ∧ @Image.generateImage _ (scripted answers) googleKey imagenArgs world
    = (Ok {| Image.success := true; Image.storageId := Some "file-1";
             Image.url := Some "https://files.example/file-1"; Image.error := None |},
       {| chats := chats stored; urls := urls stored; blobs := blobs stored;
          images := [{| gi_sessionId := "session-1"; gi_promptText := "a lighthouse at dusk";
                        gi_modelId := "imagen-3.0-generate-002"; gi_storageId := "file-1";
                        gi_mimeType := "image/png" |}] |}).
Proof.
  split; [reflexivity|].
  rewrite (@generateImage_imagen_stored _ (scripted answers) googleKey imagenArgs world stored
             "g-test" "iVBORw==" "iVBORw==" "file-1" []);
    first [reflexivity | discriminate].
Defined.

Lemma generateImage_gemini_stored_witness :
  @Image.generateImage _ (scripted answers) googleKey imageArgs world
  = (Ok {| Image.success := true; Image.storageId := Some "file-1";
           Image.url := Some "https://files.example/file-1"; Image.error := None |},
     {| chats := chats storedWebp; urls := urls storedWebp; blobs := blobs storedWebp;
        images := [{| gi_sessionId := "session-1"; gi_promptText := "a lighthouse at dusk";
                      gi_modelId := "gemini-2.0-flash-exp-image-generation";
                      gi_storageId := "file-1"; gi_mimeType := "image/webp" |}] |}).
Proof.
  rewrite (@generateImage_gemini_stored _ (scripted answers) googleKey imageArgs world storedWebp
             "g-test" "image/webp" "UklGRg==" "UklGRg==" "file-1"
             [{| rp_text := Some "Here is your image."; rp_inlineData := None |}] [] None []);
    first [reflexivity | discriminate | by repeat constructor].
Defined.

Lemma generateImage_no_image_witness :
  @Image.generateImage _ (scripted nothing) googleKey imageArgs world
    = (Ok (Image.failure Image.NO_IMAGE), world)
  ∧ @Image.generateImage _ (scripted nothing) googleKey imagenArgs world
    = (Ok (Image.failure Image.NO_IMAGE), world).
Proof.
  destruct (@generateImage_no_image _ (scripted nothing) googleKey imageArgs world "g-test")
    as [Hgemini _]; [reflexivity|discriminate|].
  destruct (@generateImage_no_image _ (scripted nothing) googleKey imagenArgs world "g-test")
    as [_ Himagen]; [reflexivity|discriminate|].
  split.
  - apply (Hgemini [{| rp_text := Some "I cannot draw that."; rp_inlineData := None |}] []);
      first [reflexivity | by repeat constructor].
  - apply (Himagen (Some [])); [reflexivity..|]. right. by left.
Defined.

(** A storage that refuses the write, for an image of each model. *)
Lemma generateImage_store_throws_witness :
  @Image.generateImage _ (scripted storageDown) googleKey imagenArgs world
    = (Ok (Image.failure "**Image generation failed:** service unavailable"), world)
  ∧ @Image.generateImage _ (scripted storageDown) googleKey imageArgs world
    = (Ok (Image.failure "**Image generation failed:** service unavailable"), world).
Proof.
  split.
  - destruct (@generateImage_store_throws _ (scripted storageDown) googleKey imagenArgs
                world world "g-test" "image/png" "iVBORw==" "iVBORw==" down
                [] [] [] None []) as [Hstore _].
    + reflexivity.
    + discriminate.
    + discriminate.
    + left. split_and!; reflexivity.
    + apply Hstore; reflexivity.
  - destruct (@generateImage_store_throws _ (scripted storageDown) googleKey imageArgs
                world world "g-test" "image/webp" "UklGRg==" "UklGRg==" down
                []
                [{| rp_text := Some "Here is your image."; rp_inlineData := None |}] []
                None []) as [Hstore _].
    + reflexivity.
    + discriminate.
    + discriminate.
    + right. split_and!; [reflexivity|reflexivity|by repeat constructor|reflexivity].
    + apply Hstore; reflexivity.
Defined.

Lemma generateImage_other_failure_witness :
  @Image.generateImage _ (backend (Throw overloadedError)) googleKey imageArgs world
    = (Ok (Image.failure "**Image generation failed:** 529 overloaded"), world)
  ∧ @Image.generateImage _ (backend (Throw OtherValue)) googleKey imageArgs world
    = (Ok (Image.failure "**Image generation failed:** Unknown error"), world).
Proof.
  split.
  - rewrite (proj1 (@generateImage_other_failure _ (backend (Throw overloadedError)) googleKey
                      imageArgs world world "g-test" overloadedError eq_refl eq_refl));
      reflexivity.
  - rewrite (proj2 (@generateImage_other_failure _ (backend (Throw OtherValue)) googleKey
                      imageArgs world world "g-test" OtherValue eq_refl eq_refl));
      reflexivity.
Defined.

Lemma base64ToBytes_bytes_witness :
  ∃ bytes,
    @Image.base64ToBytes _ (scripted answers) "PNG" = Ok bytes
    ∧ length bytes = 3%nat
    ∧ Forall (fun byte => (byte < 256)%N) bytes
    ∧ string_of_list_ascii (ascii_of_N <$> bytes) = "PNG".
Proof.
  apply (proj1 (@base64ToBytes_bytes _ (scripted answers) "PNG") "PNG"). reflexivity.
Defined.

Lemma getRecentImages_limit_witness :
  (@RecentImages.getRecentImages _ (scripted answers) queries
     {| RecentImages.sessionId := "session-1"; RecentImages.limit := Some 0%float |} stored).1
  = Ok [{| RecentImages.ri_id := "img-1"; RecentImages.ri_prompt := "a sunset";
           RecentImages.ri_model := "imagen-3.0-generate-002";
           RecentImages.ri_url := Some "https://files.example/file-1";
           RecentImages.ri_createdAt := 1700000000000%float |}].
Proof.
  destruct (@getRecentImages_limit _ (scripted answers) queries
              {| RecentImages.sessionId := "session-1"; RecentImages.limit := Some 0%float |}
              stored)
    as (effective & Hrun & _ & Hzero & _).
  rewrite Hrun, (Hzero 0%float eq_refl (or_introl eq_refl)). reflexivity.
Defined.

Lemma routes_home_witness :
  App.useCustomHomepage customHome = true
  ∧ App.routes customHome !! 1%nat = Some {| App.path := "/home"; App.element := App.Home |}
  ∧ head (App.routes customHome)
    = Some {| App.path := "/";
              App.element := App.HomepagePost "about" (Some "page") |}.
Proof.
  split; [reflexivity|].
  destruct (routes_home customHome) as (_ & _ & _ & Hcustom & _).
  destruct (Hcustom eq_refl) as (Hhome & slug & Hslug & _ & Hfirst).
  split; [exact Hhome|]. rewrite Hfirst. by injection Hslug as <-.
Defined.

End Scenes.
